(** * TripGenie: recommendation pipeline and evaluation engine

    A shallow embedding of the decision logic of the TripGenie sources

      - [src/core/metrics.py]            (module [metrics])
      - [src/agents/intent_extractor.py] (module [intent_extractor])
      - [src/agents/trip_planner.py]     (module [trip_planner])
      - [src/api/flights.py]             (module [flights])
      - [src/agents/orchestrator.py]     (module [orchestrator])
      - [src/evaluation/evaluator.py]    (module [evaluator])
      - [main.py]                        (module [main])

    Python [float] is IEEE binary64 and is modelled by Rocq's primitive
    [float]; Python [int] is [Z]; [str] is [string] (characters are bytes,
    so case folding and white space are the ASCII ones); [Optional[T]] is
    [option T]; [List[T]] is [list T].  The process-wide metrics tracker,
    the clocks and the remote services are threaded through a state and
    exception monad: a raised exception keeps the mutations made before it,
    as in Python. *)

From Stdlib Require Import ZArith List String Ascii Bool Lia DecimalString.
From Stdlib Require Import Floats.
Import ListNotations.

#[local] Set Warnings "-inexact-float,-register-all".

(** ** Python values and builtins *)

Module Py.

(** An exception: its class name and its message ([str(e)]). *)
Inductive exn : Type :=
| Exception (cls : string) (msg : string).

Definition str_of_exn (e : exn) : string :=
  match e with Exception _ msg => msg end.

Inductive result (A : Type) : Type :=
| Ok (a : A)
| Raise (e : exn).

Arguments Ok {A} a.
Arguments Raise {A} e.

(** *** Floats *)

(** [x >= y] and [x > y] on floats are the IEEE comparisons with the
    operands swapped; both are false as soon as one side is a NaN. *)
Definition geb (x y : float) : bool := (y <=? x)%float.
Definition gtb (x y : float) : bool := (y <? x)%float.

(** Truth value of a float: [bool(x)] is [x != 0.0], so NaN is true. *)
Definition float_truthy (x : float) : bool := negb (x =? 0)%float.

(** Nearest integer to [a / d], ties to even, for [0 <= a] and [0 < d]. *)
Definition div_half_even (a d : Z) : Z :=
  let q := (a / d)%Z in
  let r := (a mod d)%Z in
  match (2 * r ?= d)%Z with
  | Lt => q
  | Gt => (q + 1)%Z
  | Eq => if Z.even q then q else (q + 1)%Z
  end.

(** The integer nearest (ties to even) to [m * 2^e * 10^ndigits]: the
    digits that a correctly rounded conversion to [ndigits] decimals
    produces for the binary value [m * 2^e]. *)
Definition decimal_digits (m : positive) (e : Z) (ndigits : nat) : Z :=
  let a := (Zpos m * 10 ^ Z.of_nat ndigits)%Z in
  if (0 <=? e)%Z then (a * 2 ^ e)%Z else div_half_even a (2 ^ (- e)).

(** [round(x, ndigits)] for a float [x] and [0 <= ndigits]: NaN and the
    infinities round to themselves, more than 323 digits leave [x] as it
    is, and otherwise [x] is converted to the correctly rounded decimal
    with [ndigits] digits after the point (ties to even on the exact
    binary value), which is read back as the nearest float; the sign is
    kept, also on a zero result. *)
Definition round (x : float) (ndigits : nat) : float :=
  match Prim2SF x with
  | S754_finite s m e =>
      if (323 <? ndigits)%nat then x
      else
        match decimal_digits m e ndigits with
        | Zpos n =>
            SF2Prim (SFdiv prec emax (S754_finite s n 0)
                       (S754_finite false (Z.to_pos (10 ^ Z.of_nat ndigits)) 0))
        | _ => SF2Prim (S754_zero s)
        end
  | _ => x
  end.

(** [float(n)] for an int, also the implicit conversion of an int operand
    of a float operation: the nearest float, [OverflowError] beyond the
    largest finite one. *)
Definition float_of_int (n : Z) : result float :=
  match binary_normalize prec emax n 0 false with
  | S754_infinity _ =>
      Raise (Exception "OverflowError" "int too large to convert to float")
  | sf => Ok (SF2Prim sf)
  end.

(** [a / b] on two ints (true division): the correctly rounded quotient. *)
Definition int_truediv (a b : Z) : result float :=
  match b, a with
  | Z0, _ => Raise (Exception "ZeroDivisionError" "division by zero")
  | _, Z0 => Ok (if (b <? 0)%Z then (-0)%float else 0%float)
  | _, _ =>
      match SFdiv prec emax
              (S754_finite (a <? 0)%Z (Z.to_pos (Z.abs a)) 0)
              (S754_finite (b <? 0)%Z (Z.to_pos (Z.abs b)) 0) with
      | S754_infinity _ =>
          Raise (Exception "OverflowError"
                   "integer division result too large for a float")
      | sf => Ok (SF2Prim sf)
      end
  end.

(** [float(len(xs))]: a length is a machine-size int, far below the
    largest float, so its conversion cannot overflow. *)
Definition float_of_len (n : nat) : float :=
  SF2Prim (binary_normalize prec emax (Z.of_nat n) 0 false).

(** [x / len(xs)] for a float [x]. *)
Definition float_truediv_len (x : float) (n : nat) : result float :=
  match n with
  | O => Raise (Exception "ZeroDivisionError" "float division by zero")
  | _ => Ok (x / float_of_len n)%float
  end.

(** [k / len(xs)] for an int [k] counting some of the elements of a
    non-empty [xs]: the correctly rounded quotient of two ints; it is at
    most 1, so it cannot overflow. *)
Definition count_truediv_len (k n : nat) : float :=
  match k with
  | O => 0%float
  | _ =>
      SF2Prim (SFdiv prec emax
                 (S754_finite false (Pos.of_nat k) 0)
                 (S754_finite false (Pos.of_nat n) 0))
  end.

(** [x * n] for a float [x] and an int [n]. *)
Definition float_mul_int (x : float) (n : Z) : result float :=
  match float_of_int n with
  | Raise e => Raise e
  | Ok d => Ok (x * d)%float
  end.

(** [min(xs)] keeps the first element no later one is smaller than. *)
Definition min_from (first : float) (rest : list float) : float :=
  fold_left (fun cur x => if (x <? cur)%float then x else cur) rest first.

(** [max(a, b)] is [b] only when [b > a]. *)
Definition max2 (a b : float) : float :=
  if gtb b a then b else a.

(** [sum] of floats by plain left-to-right addition from the int [0]
    (CPython before 3.12; later versions compensate the rounding errors,
    which is why the summation in use is a field of the environment). *)
Definition sum_left (xs : list float) : float :=
  fold_left (fun acc x => (acc + x)%float) xs 0%float.

(** *** Strings *)

(** [str(n)] for an int. *)
Definition str_of_int (n : Z) : string :=
  NilZero.string_of_int (Z.to_int n).

(** [f"{x:.0f}"]: the correctly rounded integer part, with its sign. *)
Definition format_0f (x : float) : string :=
  match Prim2SF x with
  | S754_nan => "nan"
  | S754_infinity s => if s then "-inf" else "inf"
  | S754_zero s => if s then "-0" else "0"
  | S754_finite s m e =>
      ((if s then "-" else "") ++ str_of_int (decimal_digits m e 0))%string
  end.

Definition lower_ascii (c : ascii) : ascii :=
  let n := nat_of_ascii c in
  if ((65 <=? n) && (n <=? 90))%nat then ascii_of_nat (n + 32) else c.

(** [s.lower()], for ASCII text: the letters A to Z are folded and
    nothing else.  On other text [str.lower] also folds letters outside
    ASCII, some of them to ASCII letters; the statements that depend on
    the folding are made for ASCII text ([CaseSpec.is_ascii]). *)
Fixpoint lower (s : string) : string :=
  match s with
  | EmptyString => EmptyString
  | String c s' => String (lower_ascii c) (lower s')
  end.

Definition upper_ascii (c : ascii) : ascii :=
  let n := nat_of_ascii c in
  if ((97 <=? n) && (n <=? 122))%nat then ascii_of_nat (n - 32) else c.

(** [s.upper()], for ASCII text. *)
Fixpoint upper (s : string) : string :=
  match s with
  | EmptyString => EmptyString
  | String c s' => String (upper_ascii c) (upper s')
  end.

(** [k in s]: [k] occurs in [s] as a contiguous substring. *)
Fixpoint contains (k s : string) : bool :=
  String.prefix k s ||
  match s with
  | EmptyString => false
  | String _ s' => contains k s'
  end.

(** [s.split(sep)] for a non-empty [sep]; [skip] counts the characters of
    a separator that was just recognised and is still to be passed over,
    [cur] is the piece being collected. *)
Fixpoint split_from (sep : string) (skip : nat) (cur s : string) : list string :=
  match s with
  | EmptyString => [cur]
  | String c s' =>
      match skip with
      | S k => split_from sep k cur s'
      | O =>
          if String.prefix sep s
          then cur :: split_from sep (String.length sep - 1) EmptyString s'
          else split_from sep 0 (cur ++ String c EmptyString) s'
      end
  end.

Definition split (s sep : string) : list string :=
  split_from sep 0 EmptyString s.

(** White space removed by [str.strip()], among the ASCII characters:
    tab, line feed, vertical tab, form feed, carriage return, the four
    separators 28..31 and the space. *)
Definition is_space (c : ascii) : bool :=
  let n := nat_of_ascii c in
  (((9 <=? n) && (n <=? 13)) || ((28 <=? n) && (n <=? 32)))%nat.

Fixpoint lstrip (s : string) : string :=
  match s with
  | String c s' => if is_space c then lstrip s' else s
  | EmptyString => EmptyString
  end.

Fixpoint rstrip (s : string) : string :=
  match s with
  | EmptyString => EmptyString
  | String c s' =>
      match rstrip s' with
      | EmptyString => if is_space c then EmptyString else String c EmptyString
      | t => String c t
      end
  end.

(** [s.strip()], for ASCII text; [str.strip] also removes the white
    space outside ASCII, such as the no-break space, so the statements
    about a stripped text are made for ASCII text
    ([CaseSpec.is_ascii]). *)
Definition strip (s : string) : string := rstrip (lstrip s).

(** Truth value of a string and of optional values. *)
Definition str_truthy (s : string) : bool :=
  match s with EmptyString => false | _ => true end.

Definition opt_str_truthy (o : option string) : bool :=
  match o with Some s => str_truthy s | None => false end.

(** [xs[i]] on a list: [IndexError] out of range (for [0 <= i]). *)
Definition list_index {A : Type} (xs : list A) (i : nat) : result A :=
  match nth_error xs i with
  | Some x => Ok x
  | None => Raise (Exception "IndexError" "list index out of range")
  end.

(** *** JSON documents, as [json.loads] builds them *)

Inductive json : Type :=
| JNull
| JBool (b : bool)
| JInt (z : Z)
| JFloat (f : float)
| JStr (s : string)
| JList (l : list json)
| JDict (d : list (string * json)).

(** A [dict] with string keys keeps its keys in insertion order. *)
Fixpoint dict_get {V : Type} (d : list (string * V)) (k : string) : option V :=
  match d with
  | [] => None
  | (k', v) :: d' => if String.eqb k' k then Some v else dict_get d' k
  end.

(** [d[k] = v]: the value is replaced in place, a new key goes last. *)
Fixpoint dict_set {V : Type} (d : list (string * V)) (k : string) (v : V)
  : list (string * V) :=
  match d with
  | [] => [(k, v)]
  | (k', v') :: d' =>
      if String.eqb k' k then (k', v) :: d' else (k', v') :: dict_set d' k v
  end.

(** [obj[k] = v] on a parsed document: only a dict takes a string key;
    the updated dict is returned. *)
Definition setitem (obj : json) (k : string) (v : json)
  : result (list (string * json)) :=
  match obj with
  | JDict d => Ok (dict_set d k v)
  | JList _ =>
      Raise (Exception "TypeError" "list indices must be integers or slices, not str")
  | _ => Raise (Exception "TypeError" "object does not support item assignment")
  end.

(** [obj.get(k, default)] on a parsed document. *)
Definition get_default (obj : json) (k : string) (default : json) : result json :=
  match obj with
  | JDict d => Ok (match dict_get d k with Some v => v | None => default end)
  | _ => Raise (Exception "AttributeError" "object has no attribute 'get'")
  end.

(** *** The text service's reply *)

Record Response : Type := {
  content : list string;      (* the [text] of each content block *)
  usage_input_tokens : Z;
  usage_output_tokens : Z
}.

(** Fenced JSON is unwrapped the same way by the three callers of the
    text service:
    [if "```json" in t: t = t.split("```json")[1].split("```")[0].strip()]
    [elif "```" in t: t = t.split("```")[1].split("```")[0].strip()]. *)
Definition fence : string := "```".
Definition fence_json : string := "```json".

Definition clean_json (response_text : string) : result string :=
  if contains fence_json response_text then
    match list_index (split response_text fence_json) 1 with
    | Raise e => Raise e
    | Ok t =>
        match list_index (split t fence) 0 with
        | Raise e => Raise e
        | Ok u => Ok (strip u)
        end
    end
  else if contains fence response_text then
    match list_index (split response_text fence) 1 with
    | Raise e => Raise e
    | Ok t =>
        match list_index (split t fence) 0 with
        | Raise e => Raise e
        | Ok u => Ok (strip u)
        end
    end
  else Ok response_text.

(** *** What the process cannot compute by itself

    The clocks, the text service, the JSON reader, the reading of a
    float from a string and the float summation of the interpreter.
    External events are numbered in the order the process performs
    them; [time_time n], [datetime_now n] and [messages_create n] are
    what the [n]-th event returns if it is a call of that kind. *)
Record Env : Type := {
  time_time : nat -> float;                 (* [time.time()], seconds *)
  datetime_now : nat -> Z;                  (* [datetime.now()], microseconds *)
  isoformat : Z -> string;                  (* [datetime.isoformat()] *)
  messages_create : nat -> result Response; (* [client.messages.create(...)] *)
  json_loads : string -> result json;       (* [json.loads] *)
  float_of_str : string -> result float;    (* [float(s)] for a str *)
  fsum : list float -> float;               (* [sum(xs)] for non-empty [xs] *)
  PRIMARY_MODEL : string;                   (* [config.PRIMARY_MODEL] *)
  SECONDARY_MODEL : string                  (* [config.SECONDARY_MODEL] *)
}.

(** [float(v)] for a value read from a JSON document. *)
Definition float_of_json (env : Env) (v : json) : result float :=
  match v with
  | JFloat f => Ok f
  | JInt z => float_of_int z
  | JBool b => Ok (if b then 1%float else 0%float)
  | JStr s => float_of_str env s
  | _ => Raise (Exception "TypeError"
                  "float() argument must be a string or a real number")
  end.

End Py.

(** ** [src/core/metrics.py]: the metrics tracker and the process state *)

Module metrics.
Import Py.

Record RequestMetrics : Type := {
  timestamp : Z;                 (* [datetime.now()] at construction *)
  operation : string;
  model : string;
  input_tokens : Z;
  output_tokens : Z;
  latency_ms : float;
  cost_usd : float;
  success : bool;
  error : option string
}.

(** The state of the process: the global [tracker] (its ledger
    [requests] and its [_start_time]) and the number of external events
    performed so far. *)
Record World : Type := {
  requests : list RequestMetrics;
  _start_time : option float;
  events : nat
}.

(** Computations that read and change the process state and may raise. *)
Definition M (A : Type) : Type := World -> result A * World.

Definition ret {A : Type} (a : A) : M A := fun w => (Ok a, w).

Definition bind {A B : Type} (m : M A) (k : A -> M B) : M B :=
  fun w =>
    match m w with
    | (Ok a, w') => k a w'
    | (Raise e, w') => (Raise e, w')
    end.

Definition raise {A : Type} (e : exn) : M A := fun w => (Raise e, w).

(** [try: body / except Exception as e: handler e]; what [body] did to
    the state before raising is kept. *)
Definition try_except {A : Type} (body : M A) (handler : exn -> M A) : M A :=
  fun w =>
    match body w with
    | (Ok a, w') => (Ok a, w')
    | (Raise e, w') => handler e w'
    end.

Definition lift {A : Type} (r : result A) : M A := fun w => (r, w).

Declare Scope py_scope.
Delimit Scope py_scope with py.
Notation "x <- m ;; k" := (bind m (fun x => k))
  (at level 61, m at next level, right associativity) : py_scope.
Notation "m ;;; k" := (bind m (fun _ => k))
  (at level 61, right associativity) : py_scope.
Local Open Scope py_scope.

Definition next_event (w : World) : World :=
  {| requests := requests w; _start_time := _start_time w; events := S (events w) |}.

Section Tracker.
Variable env : Env.

(** [time.time()] *)
Definition time : M float :=
  fun w => (Ok (time_time env (events w)), next_event w).

(** [datetime.now()] *)
Definition now : M Z :=
  fun w => (Ok (datetime_now env (events w)), next_event w).

(** [client.messages.create(...)]: the reply of the text service, or the
    exception the call raises. *)
Definition create_message : M Response :=
  fun w => (messages_create env (events w), next_event w).

Definition set_start_time (t : option float) : M unit :=
  fun w => (Ok tt, {| requests := requests w; _start_time := t; events := events w |}).

Definition get_start_time : M (option float) :=
  fun w => (Ok (_start_time w), w).

Definition append_request (r : RequestMetrics) : M unit :=
  fun w => (Ok tt, {| requests := requests w ++ [r];
                      _start_time := _start_time w;
                      events := events w |}).

(** [MetricsTracker.start_request] *)
Definition start_request : M unit :=
  t <- time ;; set_start_time (Some t).

(** [MetricsTracker.end_request].  The latency is
    [(time.time() - self._start_time) * 1000 if self._start_time else 0]:
    the clock is read only when a non-zero start time is set, and the int
    [0] of the other branch is kept as the float [0.0]. *)
Definition end_request (operation model : string) (input_tokens output_tokens : Z)
    (success : bool) (error : option string) : M RequestMetrics :=
  st <- get_start_time ;;
  latency <- match st with
             | Some t0 =>
                 if float_truthy t0
                 then (t <- time ;; ret ((t - t0) * 1000)%float)
                 else ret 0%float
             | None => ret 0%float
             end ;;
  i <- lift (int_truediv input_tokens 1000000) ;;
  let input_cost := (i * 3.0)%float in
  o <- lift (int_truediv output_tokens 1000000) ;;
  let output_cost := (o * 15.0)%float in
  let total_cost := (input_cost + output_cost)%float in
  ts <- now ;;
  let metrics := {| timestamp := ts;
                    operation := operation;
                    model := model;
                    input_tokens := input_tokens;
                    output_tokens := output_tokens;
                    latency_ms := latency;
                    cost_usd := total_cost;
                    success := success;
                    error := error |} in
  append_request metrics ;;;
  set_start_time None ;;;
  ret metrics.

(** The dict returned by [MetricsTracker.get_summary]; the entry
    [cost_per_request] exists only for a non-empty ledger. *)
Record Summary : Type := {
  total_requests : nat;
  total_cost_usd : float;
  avg_latency_ms : float;
  success_rate : float;
  total_tokens : Z;
  cost_per_request : option float
}.

(** [MetricsTracker.get_summary] *)
Definition get_summary (w : World) : Summary :=
  match requests w with
  | [] => {| total_requests := 0;
             total_cost_usd := 0.0;
             avg_latency_ms := 0.0;
             success_rate := 0.0;
             total_tokens := 0;
             cost_per_request := None |}
  | rs =>
      let n := List.length rs in
      let total_cost := fsum env (map cost_usd rs) in
      let avg_latency := (fsum env (map latency_ms rs) / float_of_len n)%float in
      let success_rate :=
        count_truediv_len (List.length (filter success rs)) n in
      let total_tokens :=
        fold_left Z.add (map (fun r => (input_tokens r + output_tokens r)%Z) rs) 0%Z in
      {| total_requests := n;
         total_cost_usd := round total_cost 4;
         avg_latency_ms := round avg_latency 2;
         success_rate := round (success_rate * 100)%float 2;
         total_tokens := total_tokens;
         cost_per_request := Some (round (total_cost / float_of_len n)%float 4) |}
  end.

End Tracker.
End metrics.

(** ** [src/agents/intent_extractor.py] *)

Module intent_extractor.
Import Py metrics.
Local Open Scope py_scope.

Record TravelIntent : Type := {
  destination : option string;
  start_date : option string;
  end_date : option string;
  duration_days : option Z;
  num_travelers : Z;
  traveler_type : option string;
  budget_usd : option float;
  budget_flexibility : string;
  interests : list string;
  accommodation_type : option string;
  pace : option string;
  flight_class : string;
  direct_flights_only : bool;
  must_include : list string;
  must_avoid : list string;
  original_query : string;
  confidence_score : float
}.

(** [TravelIntent(original_query=q, confidence_score=c)]: every other
    field takes the default of its [Field(...)] declaration. *)
Definition TravelIntent_with (q : string) (c : float) : TravelIntent :=
  {| destination := None;
     start_date := None;
     end_date := None;
     duration_days := None;
     num_travelers := 1;
     traveler_type := None;
     budget_usd := None;
     budget_flexibility := "moderate";
     interests := [];
     accommodation_type := None;
     pace := Some "moderate"%string;
     flight_class := "economy";
     direct_flights_only := false;
     must_include := [];
     must_avoid := [];
     original_query := q;
     confidence_score := c |}.

Section IntentExtractor.
Variable env : Env.

(** The construction of a [TravelIntent] from the keys of [intent_data]:
    the validation of the parsed fields by the model class, which raises
    [ValidationError] when they do not fit. *)
Variable TravelIntent_validate : list (string * json) -> result TravelIntent.

(** The body of the [try] block of [IntentExtractor.extract]. *)
Definition extract_try (user_query : string) : M TravelIntent :=
  response <- create_message env ;;
  response_text <- lift (list_index (content response) 0) ;;
  response_text <- lift (clean_json response_text) ;;
  intent_data <- lift (json_loads env response_text) ;;
  intent_data <- lift (setitem intent_data "original_query" (JStr user_query)) ;;
  end_request env "intent_extraction" (PRIMARY_MODEL env)
    (usage_input_tokens response) (usage_output_tokens response) true None ;;;
  lift (TravelIntent_validate intent_data).

(** [IntentExtractor.extract].  The optional [context] only feeds the
    prompt sent to the text service. *)
Definition extract (user_query : string) (context : option (list (string * json)))
  : M TravelIntent :=
  start_request env ;;;
  try_except (extract_try user_query)
    (fun e =>
       end_request env "intent_extraction" (PRIMARY_MODEL env) 0 0 false
         (Some (str_of_exn e)) ;;;
       ret (TravelIntent_with user_query 0.1)).

(** [IntentExtractor.validate_intent] *)
Definition validate_intent (intent : TravelIntent) : bool * list string :=
  let missing := [] in
  let missing :=
    if negb (opt_str_truthy (destination intent))
    then missing ++ ["destination"%string] else missing in
  let missing :=
    if negb (opt_str_truthy (start_date intent)) &&
       negb (match duration_days intent with
             | Some d => negb (d =? 0)%Z
             | None => false
             end)
    then missing ++ ["dates or duration"%string] else missing in
  let missing :=
    if (confidence_score intent <? 0.3)%float
    then missing ++ ["high confidence extraction"%string] else missing in
  (Nat.eqb (List.length missing) 0, missing).

End IntentExtractor.
End intent_extractor.

(** ** [src/agents/trip_planner.py] *)

Module trip_planner.
Import Py metrics.
Local Open Scope py_scope.

Record DayPlan : Type := {
  day : Z;
  date : string;
  morning : string;
  afternoon : string;
  evening : string;
  estimated_cost_usd : float;
  notes : string
}.

Record TripPlan : Type := {
  destination : string;
  duration_days : Z;
  daily_plans : list DayPlan;
  total_estimated_cost : float;
  highlights : list string;
  practical_tips : list string
}.

Section TripPlannerAgent.
Variable env : Env.

(** The construction of a [TripPlan] from the keys of [plan_data]: the
    validation of the parsed document by the model class, which raises
    when it does not fit. *)
Variable TripPlan_validate : json -> result TripPlan.

(** The body of the [try] block of [TripPlannerAgent.plan_trip]. *)
Definition plan_trip_try : M TripPlan :=
  response <- create_message env ;;
  response_text <- lift (list_index (content response) 0) ;;
  response_text <- lift (clean_json response_text) ;;
  plan_data <- lift (json_loads env response_text) ;;
  end_request env "trip_planning" (PRIMARY_MODEL env)
    (usage_input_tokens response) (usage_output_tokens response) true None ;;;
  lift (TripPlan_validate plan_data).

(** [TripPlannerAgent.plan_trip].  The intent and the optional context
    only feed the prompt sent to the text service. *)
Definition plan_trip (intent : intent_extractor.TravelIntent)
    (context : option (list (string * json))) : M TripPlan :=
  start_request env ;;;
  try_except plan_trip_try
    (fun e =>
       end_request env "trip_planning" (PRIMARY_MODEL env) 0 0 false
         (Some (str_of_exn e)) ;;;
       raise e).

End TripPlannerAgent.
End trip_planner.

(** ** [src/api/flights.py] *)

Module flights.
Import Py metrics.
Local Open Scope py_scope.

Record FlightOffer : Type := {
  price_usd : float;
  airline : string;
  departure_time : string;
  arrival_time : string;
  duration_hours : float;
  stops : Z;
  cabin_class : string;
  booking_url : option string
}.

Record FlightSearchResult : Type := {
  origin : string;
  destination : string;
  date : string;
  offers : list FlightOffer;
  search_success : bool;
  error_message : option string
}.

(** What one call of [AmadeusFlightAPI.search_flights] meets on the
    network: no access token, a 200 reply with the offers parsed from
    it (at most five, the unreadable ones skipped), a reply with another
    status code, or an exception of the transport or of the parsing. *)
Inductive SearchOutcome : Type :=
| NoToken
| Status200 (parsed : list FlightOffer)
| StatusOther (status_code : Z)
| Failed (e : exn).

Section AmadeusFlightAPI.

(** The outcome of the search performed as the [n]-th external event. *)
Variable amadeus : nat -> SearchOutcome.

(** [AmadeusFlightAPI.search_flights] *)
Definition search_flights (origin destination departure_date : string)
    (return_date : option string) (adults : Z) (cabin_class : string)
  : M FlightSearchResult :=
  fun w =>
    let failure msg :=
      {| origin := origin; destination := destination; date := departure_date;
         offers := []; search_success := false; error_message := Some msg |} in
    (Ok match amadeus (events w) with
        | NoToken => failure "Authentication failed"%string
        | Status200 parsed =>
            {| origin := origin; destination := destination; date := departure_date;
               offers := parsed; search_success := true; error_message := None |}
        | StatusOther code => failure ("API error: " ++ str_of_int code)%string
        | Failed e => failure (str_of_exn e)
        end,
     next_event w).

End AmadeusFlightAPI.

(** [AmadeusFlightAPI.get_mock_flights] *)
Definition get_mock_flights (origin destination departure_date : string)
  : FlightSearchResult :=
  let offers :=
    [ {| price_usd := 450.00;
         airline := "TG";
         departure_time := departure_date ++ "T10:30:00";
         arrival_time := departure_date ++ "T18:45:00";
         duration_hours := 8.25;
         stops := 0;
         cabin_class := "ECONOMY";
         booking_url := None |};
      {| price_usd := 385.00;
         airline := "SQ";
         departure_time := departure_date ++ "T14:15:00";
         arrival_time := departure_date ++ "T23:30:00";
         duration_hours := 9.25;
         stops := 1;
         cabin_class := "ECONOMY";
         booking_url := None |};
      {| price_usd := 520.00;
         airline := "EK";
         departure_time := departure_date ++ "T08:00:00";
         arrival_time := departure_date ++ "T16:20:00";
         duration_hours := 8.33;
         stops := 0;
         cabin_class := "ECONOMY";
         booking_url := None |} ] in
  {| origin := origin;
     destination := destination;
     date := departure_date;
     offers := offers;
     search_success := true;
     error_message := None |}.

End flights.

(** ** [src/agents/orchestrator.py] *)

Module orchestrator.
Import Py metrics.
Local Open Scope py_scope.

Record TripRecommendation : Type := {
  intent : intent_extractor.TravelIntent;
  trip_plan : trip_planner.TripPlan;
  outbound_flights : option flights.FlightSearchResult;
  return_flights : option flights.FlightSearchResult;
  total_cost_estimate : float;
  generation_time_ms : float;
  confidence_score : float
}.

(** The table of [_get_airport_code], in the order of the dict literal,
    which is the order the loop visits it in. *)
Definition airport_map : list (string * string) :=
  [ ("bangkok", "BKK");
    ("thailand", "BKK");
    ("new york", "JFK");
    ("nyc", "JFK");
    ("london", "LHR");
    ("paris", "CDG");
    ("tokyo", "NRT");
    ("singapore", "SIN");
    ("dubai", "DXB");
    ("hong kong", "HKG");
    ("bali", "DPS");
    ("phuket", "HKT");
    ("mumbai", "BOM");
    ("delhi", "DEL");
    ("sydney", "SYD") ]%string.

(** The loop [for key, code in airport_map.items(): if key in
    location_lower: return code], and the fallback after it. *)
Fixpoint first_code (table : list (string * string)) (location_lower : string)
  : string :=
  match table with
  | [] => "JFK"
  | (key, code) :: rest =>
      if contains key location_lower then code else first_code rest location_lower
  end.

(** [TripGenieOrchestrator._get_airport_code] *)
Definition _get_airport_code (location : string) : string :=
  let location_lower := lower location in
  first_code airport_map location_lower.

Section TripGenieOrchestrator.
Variable env : Env.
Variable TravelIntent_validate :
  list (string * json) -> result intent_extractor.TravelIntent.
Variable TripPlan_validate : json -> result trip_planner.TripPlan.
Variable amadeus : nat -> flights.SearchOutcome.

(** [flights.search_success and flights.offers], as a truth value. *)
Definition found_offers (f : flights.FlightSearchResult) : bool :=
  flights.search_success f &&
  match flights.offers f with [] => false | _ => true end.

(** [TripGenieOrchestrator._calculate_confidence] *)
Definition _calculate_confidence (intent : intent_extractor.TravelIntent)
    (trip_plan : trip_planner.TripPlan)
    (flights : option flights.FlightSearchResult) : float :=
  let scores := [] in
  let scores := scores ++ [intent_extractor.confidence_score intent] in
  let plan_score :=
    match trip_planner.daily_plans trip_plan with
    | [] => 0.0
    | days =>
        if (Z.of_nat (List.length days) <?
            match intent_extractor.duration_days intent with
            | Some d => if (d =? 0)%Z then 1 else d
            | None => 1
            end)%Z
        then 0.7 else 1.0
    end%float in
  let scores := scores ++ [plan_score] in
  let scores :=
    match flights with
    | Some f =>
        let flight_score := (if found_offers f then 1.0 else 0.5)%float in
        scores ++ [flight_score]
    | None => scores
    end in
  match scores with
  | [] => 0.5%float
  | _ => (fsum env scores / float_of_len (List.length scores))%float
  end.

(** The location the origin airport is resolved from:
    [context.get('origin', 'NYC') if context else 'NYC']; only a [str]
    has the [lower] method that [_get_airport_code] calls on it. *)
Definition origin_location (context : option (list (string * json)))
  : result string :=
  match context with
  | Some ((_ :: _) as d) =>
      match dict_get d "origin" with
      | None => Ok "NYC"%string
      | Some (JStr s) => Ok s
      | Some _ => Raise (Exception "AttributeError" "object has no attribute 'lower'")
      end
  | _ => Ok "NYC"%string
  end.

(** Step 3 of [process_query]: the flight search, when requested and
    possible. *)
Definition search_step (use_real_apis include_flights : bool)
    (intent : intent_extractor.TravelIntent)
    (context : option (list (string * json)))
  : M (option flights.FlightSearchResult) :=
  match intent_extractor.destination intent, intent_extractor.start_date intent with
  | Some destination, Some start_date =>
      if include_flights && str_truthy destination && str_truthy start_date then
        location <- lift (origin_location context) ;;
        let origin_code := _get_airport_code location in
        let dest_code := _get_airport_code destination in
        if use_real_apis then
          found <- flights.search_flights amadeus origin_code dest_code start_date
                     (intent_extractor.end_date intent)
                     (intent_extractor.num_travelers intent)
                     (upper (intent_extractor.flight_class intent)) ;;
          ret (Some found)
        else
          ret (Some (flights.get_mock_flights origin_code dest_code start_date))
      else ret None
  | _, _ => ret None
  end.

(** Step 4 of [process_query]: the total cost. *)
Definition cost_step (intent : intent_extractor.TravelIntent)
    (trip_plan : trip_planner.TripPlan)
    (outbound_flights : option flights.FlightSearchResult) : result float :=
  let total_cost := trip_planner.total_estimated_cost trip_plan in
  match outbound_flights with
  | Some found =>
      match flights.offers found with
      | o :: os =>
          match float_mul_int
                  (min_from (flights.price_usd o) (map flights.price_usd os))
                  (intent_extractor.num_travelers intent) with
          | Raise e => Raise e
          | Ok flight_cost =>
              let flight_cost :=
                if opt_str_truthy (intent_extractor.end_date intent)
                then (flight_cost * 2)%float else flight_cost in
              Ok (total_cost + flight_cost)%float
          end
      | [] => Ok total_cost
      end
  | None => Ok total_cost
  end.

(** [TripGenieOrchestrator.process_query]; [use_real_apis] is the
    attribute of the orchestrator.  The calls of [print] and the
    validation of the intent, whose result is only printed, leave no
    trace in the result. *)
Definition process_query (use_real_apis : bool) (user_query : string)
    (include_flights : bool) (context : option (list (string * json)))
  : M TripRecommendation :=
  start_time <- now env ;;
  intent <- intent_extractor.extract env TravelIntent_validate user_query context ;;
  trip_plan <- trip_planner.plan_trip env TripPlan_validate intent context ;;
  outbound_flights <- search_step use_real_apis include_flights intent context ;;
  let return_flights := None in
  total_cost <- lift (cost_step intent trip_plan outbound_flights) ;;
  let confidence := _calculate_confidence intent trip_plan outbound_flights in
  end_time <- now env ;;
  seconds <- lift (int_truediv (end_time - start_time) 1000000) ;;
  let generation_time := (seconds * 1000)%float in
  ret {| intent := intent;
         trip_plan := trip_plan;
         outbound_flights := outbound_flights;
         return_flights := return_flights;
         total_cost_estimate := total_cost;
         generation_time_ms := generation_time;
         confidence_score := confidence |}.

End TripGenieOrchestrator.
End orchestrator.

(** ** [src/evaluation/evaluator.py] *)

Module evaluator.
Import Py metrics.
Local Open Scope py_scope.

Record EvaluationMetrics : Type := {
  intent_match_score : float;
  budget_adherence_score : float;
  feasibility_score : float;
  completeness_score : float;
  coherence_score : float;
  overall_score : float;
  grade : string;
  latency_ms : float;
  cost_usd : float;
  has_critical_errors : bool;
  error_messages : list string;
  evaluated_at : string
}.

(** Assignments to the attributes of a metrics object. *)
Definition set_intent_match_score (v : float) (m : EvaluationMetrics) :=
  {| intent_match_score := v;
     budget_adherence_score := budget_adherence_score m;
     feasibility_score := feasibility_score m;
     completeness_score := completeness_score m;
     coherence_score := coherence_score m;
     overall_score := overall_score m;
     grade := grade m;
     latency_ms := latency_ms m;
     cost_usd := cost_usd m;
     has_critical_errors := has_critical_errors m;
     error_messages := error_messages m;
     evaluated_at := evaluated_at m |}.

Definition set_budget_adherence_score (v : float) (m : EvaluationMetrics) :=
  {| intent_match_score := intent_match_score m;
     budget_adherence_score := v;
     feasibility_score := feasibility_score m;
     completeness_score := completeness_score m;
     coherence_score := coherence_score m;
     overall_score := overall_score m;
     grade := grade m;
     latency_ms := latency_ms m;
     cost_usd := cost_usd m;
     has_critical_errors := has_critical_errors m;
     error_messages := error_messages m;
     evaluated_at := evaluated_at m |}.

Definition set_feasibility_score (v : float) (m : EvaluationMetrics) :=
  {| intent_match_score := intent_match_score m;
     budget_adherence_score := budget_adherence_score m;
     feasibility_score := v;
     completeness_score := completeness_score m;
     coherence_score := coherence_score m;
     overall_score := overall_score m;
     grade := grade m;
     latency_ms := latency_ms m;
     cost_usd := cost_usd m;
     has_critical_errors := has_critical_errors m;
     error_messages := error_messages m;
     evaluated_at := evaluated_at m |}.

Definition set_completeness_score (v : float) (m : EvaluationMetrics) :=
  {| intent_match_score := intent_match_score m;
     budget_adherence_score := budget_adherence_score m;
     feasibility_score := feasibility_score m;
     completeness_score := v;
     coherence_score := coherence_score m;
     overall_score := overall_score m;
     grade := grade m;
     latency_ms := latency_ms m;
     cost_usd := cost_usd m;
     has_critical_errors := has_critical_errors m;
     error_messages := error_messages m;
     evaluated_at := evaluated_at m |}.

Definition set_coherence_score (v : float) (m : EvaluationMetrics) :=
  {| intent_match_score := intent_match_score m;
     budget_adherence_score := budget_adherence_score m;
     feasibility_score := feasibility_score m;
     completeness_score := completeness_score m;
     coherence_score := v;
     overall_score := overall_score m;
     grade := grade m;
     latency_ms := latency_ms m;
     cost_usd := cost_usd m;
     has_critical_errors := has_critical_errors m;
     error_messages := error_messages m;
     evaluated_at := evaluated_at m |}.

Definition set_overall_score (v : float) (m : EvaluationMetrics) :=
  {| intent_match_score := intent_match_score m;
     budget_adherence_score := budget_adherence_score m;
     feasibility_score := feasibility_score m;
     completeness_score := completeness_score m;
     coherence_score := coherence_score m;
     overall_score := v;
     grade := grade m;
     latency_ms := latency_ms m;
     cost_usd := cost_usd m;
     has_critical_errors := has_critical_errors m;
     error_messages := error_messages m;
     evaluated_at := evaluated_at m |}.

Definition set_grade (v : string) (m : EvaluationMetrics) :=
  {| intent_match_score := intent_match_score m;
     budget_adherence_score := budget_adherence_score m;
     feasibility_score := feasibility_score m;
     completeness_score := completeness_score m;
     coherence_score := coherence_score m;
     overall_score := overall_score m;
     grade := v;
     latency_ms := latency_ms m;
     cost_usd := cost_usd m;
     has_critical_errors := has_critical_errors m;
     error_messages := error_messages m;
     evaluated_at := evaluated_at m |}.

Definition set_has_critical_errors (v : bool) (m : EvaluationMetrics) :=
  {| intent_match_score := intent_match_score m;
     budget_adherence_score := budget_adherence_score m;
     feasibility_score := feasibility_score m;
     completeness_score := completeness_score m;
     coherence_score := coherence_score m;
     overall_score := overall_score m;
     grade := grade m;
     latency_ms := latency_ms m;
     cost_usd := cost_usd m;
     has_critical_errors := v;
     error_messages := error_messages m;
     evaluated_at := evaluated_at m |}.

(** [metrics.error_messages.append(msg)] *)
Definition append_error (msg : string) (m : EvaluationMetrics) :=
  {| intent_match_score := intent_match_score m;
     budget_adherence_score := budget_adherence_score m;
     feasibility_score := feasibility_score m;
     completeness_score := completeness_score m;
     coherence_score := coherence_score m;
     overall_score := overall_score m;
     grade := grade m;
     latency_ms := latency_ms m;
     cost_usd := cost_usd m;
     has_critical_errors := has_critical_errors m;
     error_messages := error_messages m ++ [msg];
     evaluated_at := evaluated_at m |}.

(** [EvaluationMetrics(evaluated_at=..., latency_ms=..., cost_usd=...)]:
    the other fields take the defaults of the class. *)
Definition EvaluationMetrics_with (evaluated_at : string) (latency_ms cost_usd : float)
  : EvaluationMetrics :=
  {| intent_match_score := 0.0;
     budget_adherence_score := 0.0;
     feasibility_score := 0.0;
     completeness_score := 0.0;
     coherence_score := 0.0;
     overall_score := 0.0;
     grade := "F";
     latency_ms := latency_ms;
     cost_usd := cost_usd;
     has_critical_errors := false;
     error_messages := [];
     evaluated_at := evaluated_at |}.

(** Check 1 of [_run_heuristic_checks]: completeness. *)
Definition check_completeness (plan : trip_planner.TripPlan)
    (metrics : EvaluationMetrics) : EvaluationMetrics :=
  let days := trip_planner.daily_plans plan in
  match days with
  | [] =>
      let metrics := append_error "No daily plans generated" metrics in
      let metrics := set_has_critical_errors true metrics in
      set_completeness_score 0.0 metrics
  | _ =>
      if negb (Z.of_nat (List.length days) =? trip_planner.duration_days plan)%Z
      then
        let metrics :=
          append_error
            ("Plan has " ++ str_of_int (Z.of_nat (List.length days))
               ++ " days but should have "
               ++ str_of_int (trip_planner.duration_days plan))%string
            metrics in
        set_completeness_score 5.0 metrics
      else set_completeness_score 10.0 metrics
  end.

(** Check 2 of [_run_heuristic_checks]: budget adherence. *)
Definition check_budget (rec : orchestrator.TripRecommendation)
    (metrics : EvaluationMetrics) : EvaluationMetrics :=
  let intent := orchestrator.intent rec in
  match intent_extractor.budget_usd intent with
  | Some budget_usd =>
      if float_truthy budget_usd && gtb budget_usd 0 then
        let budget_ratio :=
          (orchestrator.total_cost_estimate rec / budget_usd)%float in
        if (budget_ratio <=? 1.0)%float then
          set_budget_adherence_score 10.0 metrics
        else if (budget_ratio <=? 1.2)%float then
          set_budget_adherence_score 7.0 metrics
        else if (budget_ratio <=? 1.5)%float then
          set_budget_adherence_score 4.0 metrics
        else
          let metrics := set_budget_adherence_score 2.0 metrics in
          append_error
            ("Budget exceeded: $"
               ++ format_0f (orchestrator.total_cost_estimate rec)
               ++ " vs $" ++ format_0f budget_usd)%string
            metrics
      else set_budget_adherence_score 8.0 metrics
  | None => set_budget_adherence_score 8.0 metrics
  end.

(** The loop of check 3: [i] is the index [enumerate] gives to the first
    day of [days]; the running coherence and the metrics object are
    returned. *)
Fixpoint coherence_loop (i : nat) (days : list trip_planner.DayPlan)
    (coherence : float) (metrics : EvaluationMetrics)
  : float * EvaluationMetrics :=
  match days with
  | [] => (coherence, metrics)
  | day :: rest =>
      let '(coherence, metrics) :=
        if negb (trip_planner.day day =? Z.of_nat i + 1)%Z then
          ((coherence - 2.0)%float,
           append_error
             ("Day numbering issue at day " ++ str_of_int (Z.of_nat i + 1))%string
             metrics)
        else (coherence, metrics) in
      let coherence :=
        if negb (str_truthy (trip_planner.morning day))
           || negb (str_truthy (trip_planner.afternoon day))
           || negb (str_truthy (trip_planner.evening day))
        then (coherence - 1.0)%float else coherence in
      coherence_loop (S i) rest coherence metrics
  end.

(** Check 3 of [_run_heuristic_checks]: coherence. *)
Definition check_coherence (plan : trip_planner.TripPlan)
    (metrics : EvaluationMetrics) : EvaluationMetrics :=
  let '(coherence, metrics) :=
    coherence_loop 0 (trip_planner.daily_plans plan) 10.0 metrics in
  set_coherence_score (max2 0.0 coherence) metrics.

(** [TripEvaluator._run_heuristic_checks]: the metrics object after the
    three checks. *)
Definition _run_heuristic_checks (rec : orchestrator.TripRecommendation)
    (metrics : EvaluationMetrics) : EvaluationMetrics :=
  let plan := orchestrator.trip_plan rec in
  let metrics := check_completeness plan metrics in
  let metrics := check_budget rec metrics in
  check_coherence plan metrics.

(** [TripEvaluator._calculate_overall_score] *)
Definition _calculate_overall_score (metrics : EvaluationMetrics) : float :=
  if has_critical_errors metrics then 0.0%float
  else
    let score :=
      (intent_match_score metrics * 0.30
       + budget_adherence_score metrics * 0.25
       + feasibility_score metrics * 0.20
       + completeness_score metrics * 0.15
       + coherence_score metrics * 0.10)%float in
    round score 1.

(** [TripEvaluator._score_to_grade] *)
Definition _score_to_grade (score : float) : string :=
  if geb score 9.0 then "A"
  else if geb score 7.5 then "B"
  else if geb score 6.0 then "C"
  else if geb score 4.0 then "D"
  else "F".

Section TripEvaluator.
Variable env : Env.

(** [day.model_dump_json(indent=2)]: the JSON text of a day, or the
    exception the serialiser of the model class raises on a day it
    cannot write, such as one whose text holds a lone surrogate that the
    reply of the text service spelled as an escape. *)
Variable model_dump_json : trip_planner.DayPlan -> result string.

(** The part of the prompt of the judge that can fail: the sample day,
    [daily_plans[0].model_dump_json(indent=2) if daily_plans else
    "No plans"].  The rest of the f-string formats values of type [str],
    [float] and [None]. *)
Definition sample_day (rec : orchestrator.TripRecommendation) : result string :=
  match trip_planner.daily_plans (orchestrator.trip_plan rec) with
  | [] => Ok "No plans"%string
  | day :: _ => model_dump_json day
  end.

(** The body of the [try] block of [_run_llm_evaluation]: the two scores
    read from the reply of the text service.  The assignment of the
    first score before the second is read shows in no result: when the
    block raises, the handler overwrites both. *)
Definition llm_scores_try : M (float * float) :=
  response <- create_message env ;;
  response_text <- lift (list_index (content response) 0) ;;
  response_text <- lift (clean_json response_text) ;;
  eval_data <- lift (json_loads env response_text) ;;
  v <- lift (get_default eval_data "intent_match_score" (JFloat 7.0)) ;;
  intent_match <- lift (float_of_json env v) ;;
  v <- lift (get_default eval_data "feasibility_score" (JFloat 7.0)) ;;
  feasibility <- lift (float_of_json env v) ;;
  end_request env "llm_evaluation" (SECONDARY_MODEL env)
    (usage_input_tokens response) (usage_output_tokens response) true None ;;;
  ret (intent_match, feasibility).

(** [TripEvaluator._run_llm_evaluation].  The prompt is built after
    [start_request] and before the [try]: an exception of the sample day
    leaves the function, with the request started and nothing
    recorded. *)
Definition _run_llm_evaluation (rec : orchestrator.TripRecommendation)
    (metrics : EvaluationMetrics) : M EvaluationMetrics :=
  start_request env ;;;
  user_prompt <- lift (sample_day rec) ;;
  scores <- try_except llm_scores_try
              (fun e =>
                 end_request env "llm_evaluation" (SECONDARY_MODEL env) 0 0 false
                   (Some (str_of_exn e)) ;;;
                 ret (6.0, 6.0)%float) ;;
  ret (set_feasibility_score (snd scores)
         (set_intent_match_score (fst scores) metrics)).

(** [TripEvaluator._calculate_generation_cost] *)
Definition _calculate_generation_cost : M float :=
  fun w => (Ok (total_cost_usd (get_summary env w)), w).

(** [TripEvaluator.evaluate] *)
Definition evaluate (recommendation : orchestrator.TripRecommendation)
  : M EvaluationMetrics :=
  t <- now env ;;
  cost <- _calculate_generation_cost ;;
  let metrics :=
    EvaluationMetrics_with (isoformat env t)
      (orchestrator.generation_time_ms recommendation) cost in
  let metrics := _run_heuristic_checks recommendation metrics in
  metrics <- (if negb (has_critical_errors metrics)
              then _run_llm_evaluation recommendation metrics
              else ret metrics) ;;
  let metrics := set_overall_score (_calculate_overall_score metrics) metrics in
  let metrics := set_grade (_score_to_grade (overall_score metrics)) metrics in
  ret metrics.

(** The dict returned by [batch_evaluate]. *)
Record Aggregate : Type := {
  total_evaluated : Z;
  average_score : float;
  average_latency_ms : float;
  total_cost_usd : float;
  grade_distribution : list (string * Z);
  all_metrics : list EvaluationMetrics
}.

(** The first loop of [batch_evaluate]. *)
Fixpoint evaluate_each (recommendations : list orchestrator.TripRecommendation)
  : M (list EvaluationMetrics) :=
  match recommendations with
  | [] => ret []
  | rec :: rest =>
      metrics <- evaluate rec ;;
      results <- evaluate_each rest ;;
      ret (metrics :: results)
  end.

(** [sum(xs) / len(xs)], where [xs] holds floats: the sum of no element
    is the int [0], and the quotient of two ints raises on [0]. *)
Definition mean (xs : list float) : result float :=
  match xs with
  | [] => int_truediv 0 (Z.of_nat (List.length xs))
  | _ => float_truediv_len (fsum env xs) (List.length xs)
  end.

(** [sum(xs)], where [xs] holds floats; the int [0] that is the sum of no
    element is kept as the float [0.0]. *)
Definition total (xs : list float) : float :=
  match xs with
  | [] => 0.0%float
  | _ => fsum env xs
  end.

(** The second loop of [batch_evaluate]:
    [grade_distribution[m.grade] = grade_distribution.get(m.grade, 0) + 1]. *)
Definition count_grades (results : list EvaluationMetrics) : list (string * Z) :=
  fold_left
    (fun grade_distribution m =>
       dict_set grade_distribution (grade m)
         (match dict_get grade_distribution (grade m) with
          | Some n => n
          | None => 0
          end + 1)%Z)
    results [].

(** [TripEvaluator.batch_evaluate] *)
Definition batch_evaluate (recommendations : list orchestrator.TripRecommendation)
  : M Aggregate :=
  results <- evaluate_each recommendations ;;
  avg_score <- lift (mean (map overall_score results)) ;;
  avg_latency <- lift (mean (map latency_ms results)) ;;
  let total_cost := total (map cost_usd results) in
  let grade_distribution := count_grades results in
  ret {| total_evaluated := Z.of_nat (List.length results);
         average_score := round avg_score 2;
         average_latency_ms := round avg_latency 2;
         total_cost_usd := round total_cost 4;
         grade_distribution := grade_distribution;
         all_metrics := results |}.

End TripEvaluator.
End evaluator.

(** ** [main.py]: the command-line callers *)

Module main.
Import Py metrics.
Local Open Scope py_scope.

(** [QUICK_TESTS] of [src/data/test_queries.py]. *)
Definition QUICK_TESTS : list string :=
  [ "Weekend trip to Bangkok, budget $800";
    "5 days in Bali with my girlfriend, we love beaches and temples";
    "Business trip to Singapore, 3 days, need good hotels near CBD" ]%string.

Section CLI.
Variable env : Env.
Variable TravelIntent_validate :
  list (string * json) -> result intent_extractor.TravelIntent.
Variable TripPlan_validate : json -> result trip_planner.TripPlan.
Variable amadeus : nat -> flights.SearchOutcome.

(** The serialiser of a day that the evaluator calls. *)
Variable model_dump_json : trip_planner.DayPlan -> result string.

(** The writing of the results to their file: done, or the exception of
    the file system. *)
Variable export_results : evaluator.Aggregate -> result unit.

(** [orchestrator.process_query(user_query=..., include_flights=...)] on
    the module-level orchestrator, built with [use_real_apis=False]; the
    context keeps its default [None]. *)
Definition orchestrator_process_query (user_query : string)
    (include_flights : bool) : M orchestrator.TripRecommendation :=
  orchestrator.process_query env TravelIntent_validate TripPlan_validate amadeus
    false user_query include_flights None.


(** The loop of [run_batch_evaluation]: a query whose processing raises
    is reported and skipped. *)
Fixpoint process_tests (tests : list string)
    (recommendations : list orchestrator.TripRecommendation)
  : M (list orchestrator.TripRecommendation) :=
  match tests with
  | [] => ret recommendations
  | test :: rest =>
      recommendations <-
        try_except
          (rec <- orchestrator_process_query test false ;;
           ret (recommendations ++ [rec]))
          (fun e => ret recommendations) ;;
      process_tests rest recommendations
  end.

(** [run_batch_evaluation] over the given test queries: the aggregate
    is printed, written to the file evaluation_results.json and
    returned. *)
Definition run_batch_evaluation_on (tests : list string)
  : M evaluator.Aggregate :=
  recommendations <- process_tests tests [] ;;
  results <- evaluator.batch_evaluate env model_dump_json recommendations ;;
  lift (export_results results) ;;;
  ret results.

(** [run_batch_evaluation] *)
Definition run_batch_evaluation : M evaluator.Aggregate :=
  run_batch_evaluation_on QUICK_TESTS.

End CLI.
End main.

(** * Vocabulary of the specification *)

(** ** Floats and strings *)

Module PySpec.
Import Py.

(** A rounded result that is a zero, a finite number or an infinity of
    the sign [s]. *)
Definition has_sign (s : bool) (x : spec_float) : Prop :=
  match x with
  | S754_zero s' | S754_infinity s' | S754_finite s' _ _ => s' = s
  | S754_nan => False
  end.

(** The float of a small integer. *)
Definition small_float (z : Z) : float :=
  SF2Prim (binary_normalize prec emax z 0 false).

(** [k] occurs in [s]: [s] is some text, then [k], then some text. *)
Definition occurs_in (k s : string) : Prop :=
  exists before after : string, s = (before ++ k ++ after)%string.

End PySpec.

(** ** The two agents that call the text service *)

Module AgentSpec.
Import Py metrics.

(** The three ways the [try] block of [extract] fails when [extract] is
    entered in the state [w]: the call of the text service raises, the
    reply is not JSON, or no [TravelIntent] can be built from it (it is
    not an object, or its fields do not validate). *)
Inductive stage_failure (env : Env)
    (validate : list (string * json) -> result intent_extractor.TravelIntent)
    (user_query : string) (w : World) : Prop :=
| service_call_fails (e : exn) :
    messages_create env (S (events w)) = Raise e ->
    stage_failure env validate user_query w
| json_parse_fails (response : Response) (text cleaned : string) (e : exn) :
    messages_create env (S (events w)) = Ok response ->
    list_index (content response) 0 = Ok text ->
    clean_json text = Ok cleaned ->
    json_loads env cleaned = Raise e ->
    stage_failure env validate user_query w
| construction_fails (response : Response) (text cleaned : string)
    (doc : json) (e : exn) :
    messages_create env (S (events w)) = Ok response ->
    list_index (content response) 0 = Ok text ->
    clean_json text = Ok cleaned ->
    json_loads env cleaned = Ok doc ->
    (setitem doc "original_query" (JStr user_query) = Raise e \/
     exists d, setitem doc "original_query" (JStr user_query) = Ok d /\
               validate d = Raise e) ->
    stage_failure env validate user_query w.

(** The two failures of the [try] block of [plan_trip] that come before
    anything is recorded, when [plan_trip] is entered in the state [w]:
    the call of the text service raises [e], or the reading of its reply
    as JSON raises [e]. *)
Inductive plan_failure (env : Env) (w : World) (e : exn) : Prop :=
| plan_service_fails :
    messages_create env (S (events w)) = Raise e ->
    plan_failure env w e
| plan_parse_fails (response : Response) (text cleaned : string) :
    messages_create env (S (events w)) = Ok response ->
    list_index (content response) 0 = Ok text ->
    clean_json text = Ok cleaned ->
    json_loads env cleaned = Raise e ->
    plan_failure env w e.

End AgentSpec.

(** ** The orchestrator *)

Module OrchestratorSpec.
Import Py metrics orchestrator.

(** The flight search is performed exactly when flights are requested
    and the intent has a destination and a start date. *)
Definition search_performed (include_flights : bool)
    (intent : intent_extractor.TravelIntent) : bool :=
  include_flights
  && opt_str_truthy (intent_extractor.destination intent)
  && opt_str_truthy (intent_extractor.start_date intent).

(** The intent has an end date: one that is present and not empty. *)
Definition has_end_date (intent : intent_extractor.TravelIntent) : bool :=
  opt_str_truthy (intent_extractor.end_date intent).

(** The confidence in the words of the specification: the flight score
    enters the mean as soon as flights were requested. *)
Definition claimed_confidence (env : Env) (include_flights : bool)
    (rec : TripRecommendation) : float :=
  let days := trip_planner.daily_plans (trip_plan rec) in
  let plan_score :=
    match days with
    | [] => 0.0
    | _ =>
        if (Z.of_nat (List.length days) <?
            match intent_extractor.duration_days (intent rec) with
            | Some d => d
            | None => 1
            end)%Z
        then 0.7 else 1.0
    end%float in
  let flight_score :=
    match outbound_flights rec with
    | Some found => if found_offers found then 1.0 else 0.5
    | None => 0.5
    end%float in
  let scores :=
    [intent_extractor.confidence_score (intent rec); plan_score]
      ++ (if include_flights then [flight_score] else []) in
  (fsum env scores / float_of_len (List.length scores))%float.

End OrchestratorSpec.

(** ** The evaluator *)

Module EvaluatorSpec.
Import Py metrics evaluator PySpec.

(** The plan of the recommendation has no day. *)
Definition no_days (rec : orchestrator.TripRecommendation) : bool :=
  match trip_planner.daily_plans (orchestrator.trip_plan rec) with
  | [] => true
  | _ => false
  end.

(** The metrics object [evaluate] returns, from the one the heuristic
    stage produced: the model-judged scores are added unless the flag is
    set, then the overall score and the grade. *)
Definition finish (h : EvaluationMetrics) (im fs : float) : EvaluationMetrics :=
  let m := if has_critical_errors h then h
           else set_feasibility_score fs (set_intent_match_score im h) in
  let m := set_overall_score (_calculate_overall_score m) m in
  set_grade (_score_to_grade (overall_score m)) m.

(** The score of check 1. *)
Definition completeness (plan : trip_planner.TripPlan) : float :=
  match trip_planner.daily_plans plan with
  | [] => 0.0
  | days =>
      if (Z.of_nat (List.length days) =? trip_planner.duration_days plan)%Z
      then 10.0 else 5.0
  end%float.

(** The messages of check 1. *)
Definition completeness_messages (plan : trip_planner.TripPlan) : list string :=
  match trip_planner.daily_plans plan with
  | [] => ["No daily plans generated"%string]
  | days =>
      if (Z.of_nat (List.length days) =? trip_planner.duration_days plan)%Z then []
      else [("Plan has " ++ str_of_int (Z.of_nat (List.length days))
               ++ " days but should have "
               ++ str_of_int (trip_planner.duration_days plan))%string]
  end.

(** A stated budget above zero. *)
Definition positive_budget (rec : orchestrator.TripRecommendation) : option float :=
  match intent_extractor.budget_usd (orchestrator.intent rec) with
  | Some b => if gtb b 0 then Some b else None
  | None => None
  end.

Definition over_budget_message (rec : orchestrator.TripRecommendation)
    (budget : float) : string :=
  ("Budget exceeded: $" ++ format_0f (orchestrator.total_cost_estimate rec)
     ++ " vs $" ++ format_0f budget)%string.

(** The score of check 2, by the cascade of the source. *)
Definition budget_score (rec : orchestrator.TripRecommendation) : float :=
  match positive_budget rec with
  | Some b =>
      let ratio := (orchestrator.total_cost_estimate rec / b)%float in
      if (ratio <=? 1.0)%float then 10.0
      else if (ratio <=? 1.2)%float then 7.0
      else if (ratio <=? 1.5)%float then 4.0
      else 2.0
  | None => 8.0
  end%float.

(** The messages of check 2: one, when the cascade reaches its last
    branch. *)
Definition budget_messages (rec : orchestrator.TripRecommendation) : list string :=
  match positive_budget rec with
  | Some b =>
      let ratio := (orchestrator.total_cost_estimate rec / b)%float in
      if (ratio <=? 1.0)%float || (ratio <=? 1.2)%float || (ratio <=? 1.5)%float
      then [] else [over_budget_message rec b]
  | None => []
  end.

(** The 1-based positions of the days whose [day] field is not their
    position, for a sequence whose first day has the 0-based index [i]. *)
Fixpoint misnumbered (i : nat) (days : list trip_planner.DayPlan) : list Z :=
  match days with
  | [] => []
  | d :: rest =>
      if (trip_planner.day d =? Z.of_nat i + 1)%Z then misnumbered (S i) rest
      else (Z.of_nat i + 1)%Z :: misnumbered (S i) rest
  end.

(** A day with an empty morning, afternoon or evening text. *)
Definition missing_text (d : trip_planner.DayPlan) : bool :=
  negb (str_truthy (trip_planner.morning d))
  || negb (str_truthy (trip_planner.afternoon d))
  || negb (str_truthy (trip_planner.evening d)).

Definition numbering_message (position : Z) : string :=
  ("Day numbering issue at day " ++ str_of_int position)%string.

Definition is_numbering_message (s : string) : bool :=
  String.prefix "Day numbering issue at day " s.

(** [metrics.error_messages.append] for each message in turn. *)
Definition append_errors (msgs : list string) (m : EvaluationMetrics)
  : EvaluationMetrics :=
  fold_left (fun m msg => append_error msg m) msgs m.

(** The running coherence [c] tracks the exact count [z]: it is that
    integer while the count is above -3, and at most zero below. *)
Definition tracks (c : float) (z : Z) : Prop :=
  (z <= 10)%Z /\
  if (-3 <? z)%Z then c = small_float z else (c <=? 0)%float = true.

Ltac small_cases z :=
  let H := fresh in
  assert (H : (z = -2 \/ z = -1 \/ z = 0 \/ z = 1 \/ z = 2 \/ z = 3 \/ z = 4 \/
              z = 5 \/ z = 6 \/ z = 7 \/ z = 8 \/ z = 9 \/ z = 10)%Z) by lia;
  repeat (destruct H as [H|H]); subst z.

(** [sum(grade_distribution.values())] *)
Definition sum_counts (d : list (string * Z)) : Z :=
  fold_right (fun kv acc => (snd kv + acc)%Z) 0%Z d.

End EvaluatorSpec.

(** ** The ledger *)

Module LedgerSpec.
Import Py metrics.

(** The running state [w'] has the ledger of [w] followed by [added]. *)
Definition appends (w w' : World) (added : list RequestMetrics) : Prop :=
  requests w' = requests w ++ added.

(** A computation that never removes or changes an entry of the ledger,
    whether it returns or raises. *)
Definition append_only {A : Type} (m : M A) : Prop :=
  forall w, exists added, appends w (snd (m w)) added.

(** The text service fails every call with the exception [e]. *)
Definition service_down (env : Env) (e : exn) : Prop :=
  forall n, messages_create env n = Raise e.

(** [sum(r.input_tokens + r.output_tokens for r in requests)] *)
Definition ledger_tokens (rs : list RequestMetrics) : Z :=
  fold_right (fun r acc => (input_tokens r + output_tokens r + acc)%Z) 0%Z rs.

End LedgerSpec.
(** ** Fenced replies *)

Module FenceSpec.
Import Py.

(** The text holds no backquote. *)
Fixpoint no_backtick (s : string) : bool :=
  match s with
  | EmptyString => true
  | String c s' => negb (Ascii.eqb c "`"%char) && no_backtick s'
  end.

End FenceSpec.
(** ** Plain text *)

Module CaseSpec.
Import Py.

(** The text is ASCII: every character is below 128.  On such text
    [lower] and [upper] are the methods of [str]. *)
Definition is_ascii (s : string) : bool :=
  forallb (fun c => (nat_of_ascii c <? 128)%nat) (list_ascii_of_string s).

End CaseSpec.
(** ** Grades *)

Module GradeSpec.
Import Py evaluator.

(** The letters from best to worst are A, B, C, D, F. *)
Definition grade_rank (g : string) : nat :=
  if String.eqb g "A" then 4
  else if String.eqb g "B" then 3
  else if String.eqb g "C" then 2
  else if String.eqb g "D" then 1
  else 0.

(** The number of results that carry the grade [g]. *)
Definition count_grade (g : string) (results : list EvaluationMetrics) : Z :=
  Z.of_nat (List.length (filter (fun m => String.eqb (grade m) g) results)).

End GradeSpec.
(** ** Well-formed plans *)

Module PlanSpec.
Import Py EvaluatorSpec.

(** The [day] fields are 1, 2, 3, ... in the order of the days. *)
Definition numbered_in_order (days : list trip_planner.DayPlan) : Prop :=
  map trip_planner.day days
  = map (fun i => (Z.of_nat i + 1)%Z) (seq 0 (List.length days)).

(** Every day has a morning, an afternoon and an evening text. *)
Definition all_texts (days : list trip_planner.DayPlan) : Prop :=
  Forall (fun d => missing_text d = false) days.

End PlanSpec.

(** * Concrete environments and inputs *)

Module Fixtures.
Import Py metrics.

Definition model_name : string := "claude-sonnet-4-20250514".

Definition reply : Response :=
  {| content := ["```json {} ```"%string];
     usage_input_tokens := 1200;
     usage_output_tokens := 800 |}.

(** An environment in which the text service answers every call. *)
Definition online : Env :=
  {| time_time := fun n => float_of_len (1000 + n);
     datetime_now := fun n => (Z.of_nat n * 250000)%Z;
     isoformat := fun _ => "2026-01-15T09:00:00"%string;
     messages_create := fun _ => Ok reply;
     json_loads := fun _ => Ok (JDict []);
     float_of_str := fun _ =>
       Raise (Exception "ValueError" "could not convert string to float");
     fsum := sum_left;
     PRIMARY_MODEL := model_name;
     SECONDARY_MODEL := model_name |}.

(** An environment in which every call of the text service fails. *)
Definition offline : Env :=
  {| time_time := fun n => float_of_len (1000 + n);
     datetime_now := fun n => (Z.of_nat n * 250000)%Z;
     isoformat := fun _ => "2026-01-15T09:00:00"%string;
     messages_create := fun _ =>
       Raise (Exception "APIConnectionError" "Connection error.");
     json_loads := fun _ => Ok (JDict []);
     float_of_str := fun _ =>
       Raise (Exception "ValueError" "could not convert string to float");
     fsum := sum_left;
     PRIMARY_MODEL := model_name;
     SECONDARY_MODEL := model_name |}.

(** The state of a process that has called nothing yet. *)
Definition fresh : World :=
  {| requests := []; _start_time := None; events := 0 |}.

Definition bangkok_intent (q : string) : intent_extractor.TravelIntent :=
  {| intent_extractor.destination := Some "Bangkok, Thailand"%string;
     intent_extractor.start_date := Some "2026-03-15"%string;
     intent_extractor.end_date := Some "2026-03-18"%string;
     intent_extractor.duration_days := Some 3%Z;
     intent_extractor.num_travelers := 2;
     intent_extractor.traveler_type := Some "couple"%string;
     intent_extractor.budget_usd := Some 2000%float;
     intent_extractor.budget_flexibility := "moderate";
     intent_extractor.interests := ["food"%string];
     intent_extractor.accommodation_type := None;
     intent_extractor.pace := Some "moderate"%string;
     intent_extractor.flight_class := "economy";
     intent_extractor.direct_flights_only := false;
     intent_extractor.must_include := [];
     intent_extractor.must_avoid := [];
     intent_extractor.original_query := q;
     intent_extractor.confidence_score := 0.9 |}.

(** An intent that names no destination. *)
Definition vague_intent (q : string) : intent_extractor.TravelIntent :=
  {| intent_extractor.destination := None;
     intent_extractor.start_date := Some "2026-03-15"%string;
     intent_extractor.end_date := None;
     intent_extractor.duration_days := Some 1%Z;
     intent_extractor.num_travelers := 1;
     intent_extractor.traveler_type := None;
     intent_extractor.budget_usd := None;
     intent_extractor.budget_flexibility := "moderate";
     intent_extractor.interests := [];
     intent_extractor.accommodation_type := None;
     intent_extractor.pace := Some "moderate"%string;
     intent_extractor.flight_class := "economy";
     intent_extractor.direct_flights_only := false;
     intent_extractor.must_include := [];
     intent_extractor.must_avoid := [];
     intent_extractor.original_query := q;
     intent_extractor.confidence_score := 0.4 |}.

Definition a_day (n : Z) : trip_planner.DayPlan :=
  {| trip_planner.day := n;
     trip_planner.date := "2026-03-15";
     trip_planner.morning := "Temple visit";
     trip_planner.afternoon := "Market";
     trip_planner.evening := "River cruise";
     trip_planner.estimated_cost_usd := 250;
     trip_planner.notes := "" |}.

Definition three_day_plan : trip_planner.TripPlan :=
  {| trip_planner.destination := "Bangkok";
     trip_planner.duration_days := 3;
     trip_planner.daily_plans := [a_day 1; a_day 2; a_day 3];
     trip_planner.total_estimated_cost := 750;
     trip_planner.highlights := [];
     trip_planner.practical_tips := [] |}.

Definition one_day_plan : trip_planner.TripPlan :=
  {| trip_planner.destination := "Somewhere warm";
     trip_planner.duration_days := 1;
     trip_planner.daily_plans := [a_day 1];
     trip_planner.total_estimated_cost := 250;
     trip_planner.highlights := [];
     trip_planner.practical_tips := [] |}.

Definition intent_from (i : string -> intent_extractor.TravelIntent)
    (d : list (string * json)) : result intent_extractor.TravelIntent :=
  match dict_get d "original_query" with
  | Some (JStr q) => Ok (i q)
  | _ => Raise (Exception "ValidationError" "original_query")
  end.

Definition no_network (n : nat) : flights.SearchOutcome := flights.NoToken.

Definition connection_error : exn :=
  Exception "APIConnectionError" "Connection error.".

(** A plan whose day fields are 1, 2 and 4. *)
Definition gap_plan : trip_planner.TripPlan :=
  {| trip_planner.destination := "Bangkok";
     trip_planner.duration_days := 3;
     trip_planner.daily_plans := [a_day 1; a_day 2; a_day 4];
     trip_planner.total_estimated_cost := 750;
     trip_planner.highlights := [];
     trip_planner.practical_tips := [] |}.

(** A plan without days. *)
Definition empty_plan : trip_planner.TripPlan :=
  {| trip_planner.destination := "Bangkok";
     trip_planner.duration_days := 3;
     trip_planner.daily_plans := [];
     trip_planner.total_estimated_cost := 0;
     trip_planner.highlights := [];
     trip_planner.practical_tips := [] |}.

(** A recommendation without flights, for a budget of 1000 and the
    given total cost. *)
Definition budgeted (total : float) (plan : trip_planner.TripPlan)
  : orchestrator.TripRecommendation :=
  {| orchestrator.intent :=
       {| intent_extractor.destination := Some "Bangkok, Thailand"%string;
          intent_extractor.start_date := Some "2026-03-15"%string;
          intent_extractor.end_date := Some "2026-03-18"%string;
          intent_extractor.duration_days := Some 3%Z;
          intent_extractor.num_travelers := 2;
          intent_extractor.traveler_type := Some "couple"%string;
          intent_extractor.budget_usd := Some 1000%float;
          intent_extractor.budget_flexibility := "moderate";
          intent_extractor.interests := ["food"%string];
          intent_extractor.accommodation_type := None;
          intent_extractor.pace := Some "moderate"%string;
          intent_extractor.flight_class := "economy";
          intent_extractor.direct_flights_only := false;
          intent_extractor.must_include := [];
          intent_extractor.must_avoid := [];
          intent_extractor.original_query := "3 days in Bangkok";
          intent_extractor.confidence_score := 0.9 |};
     orchestrator.trip_plan := plan;
     orchestrator.outbound_flights := None;
     orchestrator.return_flights := None;
     orchestrator.total_cost_estimate := total;
     orchestrator.generation_time_ms := 2250;
     orchestrator.confidence_score := 0.95 |}.

(** A line feed, and a reply of the text service in its three shapes:
    fenced as JSON, fenced, and bare. *)
Definition lf : string := String (ascii_of_nat 10) EmptyString.
Definition document : string := "{}".
Definition fenced_json : string := "```json" ++ lf ++ document ++ lf ++ "```".
Definition fenced : string := "```" ++ lf ++ document ++ lf ++ "```".

(** A serialiser that writes every day. *)
Definition dump_day (d : trip_planner.DayPlan) : result string :=
  Ok "{}"%string.

(** The three bytes that stand for the lone surrogate U+D800, which no
    JSON text can hold; a day whose morning is that text; a plan that
    starts with it; and a serialiser that refuses such a day. *)
Definition lone_surrogate : string :=
  String (ascii_of_nat 237)
    (String (ascii_of_nat 160) (String (ascii_of_nat 128) EmptyString)).

Definition unwritable_day : trip_planner.DayPlan :=
  {| trip_planner.day := 1;
     trip_planner.date := "2026-03-15";
     trip_planner.morning := lone_surrogate;
     trip_planner.afternoon := "Market";
     trip_planner.evening := "River cruise";
     trip_planner.estimated_cost_usd := 250;
     trip_planner.notes := "" |}.

Definition unwritable_plan : trip_planner.TripPlan :=
  {| trip_planner.destination := "Bangkok";
     trip_planner.duration_days := 1;
     trip_planner.daily_plans := [unwritable_day];
     trip_planner.total_estimated_cost := 250;
     trip_planner.highlights := [];
     trip_planner.practical_tips := [] |}.

Definition serialization_error : exn :=
  Exception "PydanticSerializationError"
    "Error serializing to JSON: surrogates not allowed".

Definition strict_dump (d : trip_planner.DayPlan) : result string :=
  if contains lone_surrogate (trip_planner.morning d)
     || contains lone_surrogate (trip_planner.afternoon d)
     || contains lone_surrogate (trip_planner.evening d)
  then Raise serialization_error
  else Ok "{}"%string.

End Fixtures.

(** * Facts and theorems *)

(** ** Floats *)

Module FloatFacts.
Import Py PySpec.

(** Two floats that the IEEE equality test tells apart are different. *)
Lemma eqb_false_neq (x y : float) :
  (x =? y)%float = false -> (y =? y)%float = true -> x <> y.
Proof.
  intros Hxy Hyy E. rewrite E in Hxy. congruence.
Qed.

Lemma SFcompare_Lt_swap (x y : spec_float) :
  SFcompare x y = Some Lt -> SFcompare y x = Some Gt.
Proof.
  destruct x as [sx|sx| |sx mx ex], y as [sy|sy| |sy my ey]; simpl;
    try discriminate; try (destruct sx; discriminate || reflexivity);
    try (destruct sy; discriminate || reflexivity);
    try (destruct sx, sy; discriminate || reflexivity).
  destruct sx, sy; try discriminate; try reflexivity.
  - rewrite (Z.compare_antisym ey ex).
    destruct (ey ?= ex)%Z eqn:E; simpl; try discriminate; try reflexivity.
    apply Z.compare_eq in E. subst.
    change (Pos.compare_cont Eq mx my) with (Pos.compare mx my);
    change (Pos.compare_cont Eq my mx) with (Pos.compare my mx).
    rewrite (Pos.compare_antisym my mx).
    destruct (my ?= mx)%positive; simpl; intros; try discriminate; reflexivity.
  - rewrite (Z.compare_antisym ey ex).
    destruct (ey ?= ex)%Z eqn:E; simpl; try discriminate; try reflexivity.
    change (Pos.compare_cont Eq mx my) with (Pos.compare mx my);
    change (Pos.compare_cont Eq my mx) with (Pos.compare my mx).
    rewrite (Pos.compare_antisym my mx).
    destruct (my ?= mx)%positive; simpl; intros; try discriminate; reflexivity.
Qed.

(** [x < y] excludes [y <= x]. *)
Lemma ltb_true_leb_false (x y : float) :
  (x <? y)%float = true -> (y <=? x)%float = false.
Proof.
  rewrite ltb_spec, leb_spec. unfold SFltb, SFleb.
  destruct (SFcompare (Prim2SF x) (Prim2SF y)) as [[]|] eqn:E; try discriminate.
  intros _. now rewrite (SFcompare_Lt_swap _ _ E).
Qed.

Lemma leb_true_ltb_false (x y : float) :
  (x <=? y)%float = true -> (y <? x)%float = false.
Proof.
  intros H. destruct (y <? x)%float eqn:E; [|reflexivity].
  apply ltb_true_leb_false in E. congruence.
Qed.

(** A float above zero is a true value. *)
Lemma gtb_zero_truthy (x : float) :
  gtb x 0 = true -> float_truthy x = true.
Proof.
  unfold gtb, float_truthy. rewrite ltb_spec, eqb_spec.
  unfold SFltb, SFeqb. intros H.
  destruct (SFcompare (Prim2SF 0) (Prim2SF x)) as [[]|] eqn:E; try discriminate.
  now rewrite (SFcompare_Lt_swap _ _ E).
Qed.

(** Float multiplication is commutative. *)
Lemma SFmul_comm (x y : spec_float) : SFmul prec emax x y = SFmul prec emax y x.
Proof.
  destruct x as [sx|sx| |sx mx ex], y as [sy|sy| |sy my ey]; simpl;
    try reflexivity; try (now rewrite xorb_comm).
  now rewrite xorb_comm, Pos.mul_comm, Z.add_comm.
Qed.

Lemma mul_comm (x y : float) : (x * y)%float = (y * x)%float.
Proof.
  apply Prim2SF_inj. rewrite !mul_spec. apply SFmul_comm.
Qed.

(** Rounding keeps a non-negative mantissa non-negative, so a rounded
    result is a zero, a finite number or an infinity of the given sign. *)
Lemma shr_1_nonneg (mrs : shr_record) :
  (0 <= shr_m mrs)%Z -> (0 <= shr_m (shr_1 mrs))%Z.
Proof.
  destruct mrs as [m r s]. simpl.
  destruct m as [|[p|p|]|[p|p|]]; simpl; lia.
Qed.

Lemma iter_shr_1_nonneg (p : positive) (mrs : shr_record) :
  (0 <= shr_m mrs)%Z -> (0 <= shr_m (iter_pos shr_1 p mrs))%Z.
Proof.
  revert mrs. induction p as [p IH|p IH|]; intros mrs H; simpl.
  - apply IH, IH, shr_1_nonneg, H.
  - apply IH, IH, H.
  - apply shr_1_nonneg, H.
Qed.

Lemma shr_fexp_nonneg (m e : Z) (l : location) :
  (0 <= m)%Z -> (0 <= shr_m (fst (shr_fexp prec emax m e l)))%Z.
Proof.
  intros H. unfold shr_fexp, shr.
  assert (H0 : (0 <= shr_m (shr_record_of_loc m l))%Z)
    by (destruct l as [|[]]; exact H).
  destruct (fexp prec emax (Zdigits2 m + e) - e)%Z; simpl; auto.
  apply iter_shr_1_nonneg, H0.
Qed.

Lemma round_nearest_even_nonneg (m : Z) (l : location) :
  (0 <= m)%Z -> (0 <= round_nearest_even m l)%Z.
Proof.
  intros H. destruct l as [|[]]; simpl; try lia.
  destruct (Z.even m); lia.
Qed.

Lemma binary_round_aux_sign (s : bool) (m e : Z) (l : location) :
  (0 <= m)%Z -> has_sign s (binary_round_aux prec emax s m e l).
Proof.
  intros H. unfold binary_round_aux.
  pose proof (shr_fexp_nonneg m e l H) as H1.
  destruct (shr_fexp prec emax m e l) as [mrs' e'].
  pose proof (shr_fexp_nonneg _ e' loc_Exact
                (round_nearest_even_nonneg _ (loc_of_shr_record mrs') H1)) as H2.
  destruct (shr_fexp prec emax _ e' loc_Exact) as [mrs'' e''].
  simpl in H2. destruct (shr_m mrs''); simpl; try reflexivity; try lia.
  match goal with |- context [if ?c then _ else _] => destruct c end; reflexivity.
Qed.

Lemma binary_round_sign (s : bool) (m : positive) (e : Z) :
  has_sign s (binary_round prec emax s m e).
Proof.
  unfold binary_round.
  destruct (shl_align m e _) as [mz ez].
  apply binary_round_aux_sign. lia.
Qed.

Lemma has_sign_true_leb_zero (x : spec_float) :
  has_sign true x -> SFleb x (S754_zero false) = true.
Proof.
  destruct x as [s|s| |s m e]; simpl; intros H; try contradiction; subst; reflexivity.
Qed.

(** Taking a positive finite number from a float that is at most zero
    leaves a float that is at most zero. *)
Lemma sub_pos_nonpos (x y : float) (my : positive) (ey : Z) :
  Prim2SF y = S754_finite false my ey ->
  (x <=? 0)%float = true -> (x - y <=? 0)%float = true.
Proof.
  intros Hy. rewrite !leb_spec, sub_spec, Hy.
  change (Prim2SF 0) with (S754_zero false).
  destruct (Prim2SF x) as [s|s| |s m e]; simpl; try discriminate.
  - intros _. reflexivity.
  - destruct s; [reflexivity|discriminate].
  - destruct s; [|discriminate]. intros _.
    apply has_sign_true_leb_zero.
    unfold SF64sub, SFsub. simpl cond_Zopp.
    apply binary_round_sign.
Qed.

Lemma sub_one_nonpos (x : float) :
  (x <=? 0)%float = true -> (x - 1.0 <=? 0)%float = true.
Proof. apply (sub_pos_nonpos x 1.0%float 4503599627370496%positive (-52)%Z). reflexivity. Qed.

Lemma sub_two_nonpos (x : float) :
  (x <=? 0)%float = true -> (x - 2.0 <=? 0)%float = true.
Proof. apply (sub_pos_nonpos x 2.0%float 4503599627370496%positive (-51)%Z). reflexivity. Qed.

(** Between two positive finite floats [a < b] there is no [x] with
    [x <= a] and [b < x]. *)
Lemma leb_ltb_between (x a b : float) (ma mb : positive) (ea eb : Z) :
  Prim2SF a = S754_finite false ma ea ->
  Prim2SF b = S754_finite false mb eb ->
  (ea < eb \/ (ea = eb /\ (ma < mb)%positive))%Z ->
  (x <=? a)%float = true -> (b <? x)%float = false.
Proof.
  intros Ha Hb Hab. rewrite leb_spec, ltb_spec, Ha, Hb.
  unfold SFleb, SFltb.
  destruct (Prim2SF x) as [s|s| |s m e]; simpl;
    try (intros _; reflexivity); try discriminate.
  - destruct s; [reflexivity|discriminate].
  - destruct s; [reflexivity|].
    change (Pos.compare_cont Eq m ma) with (Pos.compare m ma).
    change (Pos.compare_cont Eq mb m) with (Pos.compare mb m).
    destruct (Z.compare_spec e ea) as [E|E|E];
      destruct (Z.compare_spec eb e) as [E'|E'|E'];
      intros H; try reflexivity; try discriminate; try lia.
    revert H.
    destruct (Pos.compare_spec m ma) as [F|F|F];
      destruct (Pos.compare_spec mb m) as [F'|F'|F'];
      intros H; try reflexivity; try discriminate; try lia.
Qed.

End FloatFacts.

(** ** Strings *)

Module Py_facts.
Import Py PySpec.

Lemma prefix_true_iff (k s : string) :
  String.prefix k s = true <-> exists after, s = (k ++ after)%string.
Proof.
  revert s. induction k as [|c k IH]; intros s.
  - split; [intros _; exists s; reflexivity|intros _; destruct s; reflexivity].
  - destruct s as [|c' s]; cbn [String.prefix String.append].
    + split; [discriminate|intros [a H]; discriminate].
    + destruct (ascii_dec c c') as [->|N].
      * rewrite IH. split; intros [a H]; exists a; congruence.
      * split; [discriminate|intros [a H]; congruence].
Qed.

(** [contains] decides occurrence as a substring. *)
Lemma contains_true_iff (k s : string) :
  contains k s = true <-> occurs_in k s.
Proof.
  unfold occurs_in. induction s as [|c s IH]; cbn [contains].
  - rewrite orb_false_r, prefix_true_iff. split.
    + intros [a H]. exists EmptyString, a. exact H.
    + intros ([|b bs] & a & H); [exists a; exact H|discriminate].
  - rewrite orb_true_iff, prefix_true_iff, IH. split.
    + intros [[a H]|(b & a & H)].
      * exists EmptyString, a. exact H.
      * exists (String c b), a. cbn. now rewrite H.
    + intros ([|b bs] & a & H).
      * left. exists a. exact H.
      * right. exists bs, a. cbn in H. congruence.
Qed.

(** [round] on ties of the binary value and of the decimal one. *)
Example round_examples :
  round 7.25 1 = 7.2%float /\ round 7.35 1 = 7.3%float /\
  round 0.25 1 = 0.2%float /\ round 2.675 2 = 2.67%float /\
  round (-0.04) 1 = (-0)%float /\ round nan 1 = nan.
Proof. repeat split; reflexivity. Qed.

(** The three shapes of a reply are cleaned to the same document. *)
Example clean_json_shapes :
  clean_json Fixtures.fenced_json = Ok Fixtures.document /\
  clean_json Fixtures.fenced = Ok Fixtures.document /\
  clean_json Fixtures.document = Ok Fixtures.document.
Proof. repeat split; reflexivity. Qed.

End Py_facts.

(** ** The metrics tracker *)

Module metrics_facts.
Import Py metrics.

(** Closing a request with no tokens cannot raise: it appends one entry
    with the given tag and outcome to the ledger. *)
Lemma end_request_zero_tokens (env : Env) (op mdl : string) (succ : bool)
    (err : option string) (w : World) :
  exists r w',
    end_request env op mdl 0 0 succ err w = (Ok r, w') /\
    requests w' = requests w ++ [r] /\
    operation r = op /\ input_tokens r = 0%Z /\ output_tokens r = 0%Z /\
    success r = succ /\ error r = err.
Proof.
  unfold end_request, bind, get_start_time, lift, time, now, ret,
    append_request, set_start_time.
  destruct (_start_time w) as [t0|]; [destruct (float_truthy t0)|];
    cbn; eexists; eexists; (split; [reflexivity|]); cbn; repeat split.
Qed.

Lemma start_request_ok (env : Env) (w : World) :
  exists w', start_request env w = (Ok tt, w') /\ requests w' = requests w
    /\ events w' = S (events w).
Proof.
  unfold start_request, bind, time, set_start_time. cbn.
  eexists; split; [reflexivity|]. split; reflexivity.
Qed.

End metrics_facts.

(** ** The intent extractor *)

Module intent_extractor_facts.
Import Py metrics intent_extractor metrics_facts AgentSpec.

(** A failure of one of its stages makes the [try] block of [extract]
    raise. *)
Lemma extract_try_raises (env : Env)
    (validate : list (string * json) -> result TravelIntent)
    (user_query : string) (w w1 : World) :
  start_request env w = (Ok tt, w1) ->
  stage_failure env validate user_query w ->
  exists e w2, extract_try env validate user_query w1 = (Raise e, w2).
Proof.
  intros Hs F.
  destruct (start_request_ok env w) as (w1' & Hs' & _ & Hev).
  rewrite Hs in Hs'. injection Hs' as <-.
  unfold extract_try, bind, create_message, lift. rewrite Hev.
  destruct F as [e H|r t c e H Ht Hc Hj|r t c doc e H Ht Hc Hj Hd].
  - rewrite H. eauto.
  - rewrite H, Ht, Hc, Hj. eauto.
  - rewrite H, Ht, Hc, Hj.
    destruct Hd as [Hd|(d & Hd & Hv)]; rewrite Hd; [eauto|].
    destruct (end_request env _ _ _ _ _ _ _) as [[x|e'] w2]; [|eauto].
    rewrite Hv. eauto.
Qed.

(** Whatever its [try] block does, [extract] returns an intent. *)
Lemma extract_never_raises (env : Env)
    (validate : list (string * json) -> result TravelIntent)
    (user_query : string) (context : option (list (string * json)))
    (w : World) :
  exists intent w', extract env validate user_query context w = (Ok intent, w').
Proof.
  unfold extract, bind, try_except.
  destruct (start_request_ok env w) as (w1 & Hs & _). rewrite Hs.
  destruct (extract_try env validate user_query w1) as [[i|e] w2]; [eauto|].
  destruct (end_request_zero_tokens env "intent_extraction" (PRIMARY_MODEL env)
              false (Some (str_of_exn e)) w2) as (r & w3 & Hr & _).
  rewrite Hr. unfold ret. eauto.
Qed.

(** An intent extracted with a confidence below 0.3 is reported as
    lacking a high-confidence extraction. *)
Lemma validate_intent_low_confidence (intent : TravelIntent) :
  (confidence_score intent <? 0.3)%float = true ->
  fst (validate_intent intent) = false /\
  In "high confidence extraction"%string (snd (validate_intent intent)).
Proof.
  intros H. unfold validate_intent. rewrite H.
  destruct (negb (opt_str_truthy (destination intent)));
    destruct (negb (opt_str_truthy (start_date intent)) && _);
    cbn; split; try reflexivity; tauto.
Qed.

(** C3. When the text-service call, the JSON parse or the construction
    of the record fails, [extract] returns, without raising, the intent
    that holds the query, the confidence 0.1 and the default of every
    other field. *)
Theorem extract_fails_soft (env : Env)
    (validate : list (string * json) -> result TravelIntent)
    (user_query : string) (context : option (list (string * json)))
    (w : World) :
  stage_failure env validate user_query w ->
  exists w',
    extract env validate user_query context w =
    (Ok {| destination := None;
           start_date := None;
           end_date := None;
           duration_days := None;
           num_travelers := 1;
           traveler_type := None;
           budget_usd := None;
           budget_flexibility := "moderate";
           interests := [];
           accommodation_type := None;
           pace := Some "moderate"%string;
           flight_class := "economy";
           direct_flights_only := false;
           must_include := [];
           must_avoid := [];
           original_query := user_query;
           confidence_score := 0.1 |}, w').
Proof.
  intros F. unfold extract, bind, try_except.
  destruct (start_request_ok env w) as (w1 & Hs & _). rewrite Hs.
  destruct (extract_try_raises env validate user_query w w1 Hs F) as (e & w2 & Hb).
  rewrite Hb.
  destruct (end_request_zero_tokens env "intent_extraction" (PRIMARY_MODEL env)
              false (Some (str_of_exn e)) w2) as (r & w3 & Hr & _).
  rewrite Hr. unfold ret, TravelIntent_with. eauto.
Qed.

(** C3 at a query sent while the text service refuses the connection. *)
Lemma extract_fails_soft_witness :
  stage_failure Fixtures.offline (Fixtures.intent_from Fixtures.vague_intent)
    "5-day beach vacation in Thailand under $2000" Fixtures.fresh /\
  exists w',
    extract Fixtures.offline (Fixtures.intent_from Fixtures.vague_intent)
      "5-day beach vacation in Thailand under $2000" None Fixtures.fresh
    = (Ok (TravelIntent_with "5-day beach vacation in Thailand under $2000" 0.1),
       w').
Proof.
  assert (F : stage_failure Fixtures.offline
                (Fixtures.intent_from Fixtures.vague_intent)
                "5-day beach vacation in Thailand under $2000" Fixtures.fresh)
    by (apply service_call_fails with (e := Fixtures.connection_error);
        reflexivity).
  split; [exact F|].
  exact (extract_fails_soft Fixtures.offline _ _ None Fixtures.fresh F).
Defined.

End intent_extractor_facts.

(** ** The plan generator *)

Module trip_planner_facts.
Import Py metrics trip_planner metrics_facts AgentSpec.

(** C4. When the text-service call or the JSON parse fails in
    [plan_trip], exactly one entry is added to the ledger, tagged
    trip_planning, with no tokens and success false, and the same
    exception is raised to the caller: no plan is returned. *)
Theorem plan_trip_fails_hard (env : Env)
    (validate : json -> result TripPlan)
    (intent : intent_extractor.TravelIntent)
    (context : option (list (string * json))) (w : World) (e : exn) :
  plan_failure env w e ->
  exists r w',
    plan_trip env validate intent context w = (Raise e, w') /\
    requests w' = requests w ++ [r] /\
    operation r = "trip_planning"%string /\
    input_tokens r = 0%Z /\ output_tokens r = 0%Z /\ success r = false.
Proof.
  intros F. unfold plan_trip, bind, try_except.
  destruct (start_request_ok env w) as (w1 & Hs & Hreq & Hev). rewrite Hs.
  assert (Hb : exists w2, plan_trip_try env validate w1 = (Raise e, w2)
                          /\ requests w2 = requests w1).
  { unfold plan_trip_try, bind, create_message, lift. rewrite Hev.
    destruct F as [H|r t c H Ht Hc Hj].
    - rewrite H. eexists; split; reflexivity.
    - rewrite H, Ht, Hc, Hj. eexists; split; reflexivity. }
  destruct Hb as (w2 & Hb & Hreq2). rewrite Hb.
  destruct (end_request_zero_tokens env "trip_planning" (PRIMARY_MODEL env)
              false (Some (str_of_exn e)) w2)
    as (r & w3 & Hr & Hreq3 & Hop & Hi & Ho & Hsucc & _).
  rewrite Hr. unfold raise. exists r, w3.
  repeat split; try assumption. congruence.
Qed.

(** C4 for a plan requested while the text service refuses the
    connection. *)
Lemma plan_trip_fails_hard_witness :
  plan_failure Fixtures.offline Fixtures.fresh Fixtures.connection_error /\
  exists r w',
    plan_trip Fixtures.offline (fun _ => Ok Fixtures.three_day_plan)
      (Fixtures.vague_intent "somewhere warm") None Fixtures.fresh
    = (Raise Fixtures.connection_error, w') /\
    requests w' = requests Fixtures.fresh ++ [r] /\
    operation r = "trip_planning"%string /\
    input_tokens r = 0%Z /\ output_tokens r = 0%Z /\ success r = false.
Proof.
  assert (F : plan_failure Fixtures.offline Fixtures.fresh
                Fixtures.connection_error)
    by (apply plan_service_fails; reflexivity).
  split; [exact F|].
  exact (plan_trip_fails_hard Fixtures.offline _ _ None Fixtures.fresh
           Fixtures.connection_error F).
Defined.

End trip_planner_facts.

(** ** The orchestrator *)

Module orchestrator_facts.
Import Py metrics orchestrator PySpec Py_facts OrchestratorSpec.

Lemma first_code_first_match (table : list (string * string)) (s : string) :
  (exists before key code after,
     table = before ++ (key, code) :: after /\
     contains key s = true /\
     (forall k c, In (k, c) before -> contains k s = false) /\
     first_code table s = code)
  \/ ((forall k c, In (k, c) table -> contains k s = false) /\
      first_code table s = "JFK"%string).
Proof.
  induction table as [|[key code] rest IH]; cbn [first_code].
  - right. split; [intros k c []|reflexivity].
  - destruct (contains key s) eqn:E.
    + left. exists [], key, code, rest. repeat split; try assumption.
      intros k c [].
    + destruct IH as [(before & k' & c' & after & Ht & Hc & Hb & Hr)|[Hn Hr]].
      * left. exists ((key, code) :: before), k', c', after.
        repeat split; try assumption.
        -- cbn. now rewrite Ht.
        -- intros k c [H|H]; [congruence|eauto].
      * right. split; [|assumption].
        intros k c [H|H]; [congruence|eauto].
Qed.

(** C9, as amended. The code returned for a location written in ASCII
    characters, on which [lower] is the method of [str], is that of the
    first entry of the table, in the order of the table, whose key
    occurs in the lower-cased location; when no key occurs in it the
    code is JFK. *)
Theorem airport_code_first_match (location : string) :
  CaseSpec.is_ascii location = true ->
  (exists before key code after,
     airport_map = before ++ (key, code) :: after /\
     occurs_in key (lower location) /\
     (forall k c, In (k, c) before -> ~ occurs_in k (lower location)) /\
     _get_airport_code location = code)
  \/ ((forall k c, In (k, c) airport_map -> ~ occurs_in k (lower location)) /\
      _get_airport_code location = "JFK"%string).
Proof.
  intros _. unfold _get_airport_code.
  destruct (first_code_first_match airport_map (lower location))
    as [(before & key & code & after & Ht & Hc & Hb & Hr)|[Hn Hr]].
  - left. exists before, key, code, after. repeat split; try assumption.
    + now apply contains_true_iff.
    + intros k c Hin Ho. apply contains_true_iff in Ho.
      rewrite (Hb k c Hin) in Ho. discriminate.
  - right. split; [|assumption].
    intros k c Hin Ho. apply contains_true_iff in Ho.
    rewrite (Hn k c Hin) in Ho. discriminate.
Qed.

(** C9 as stated: the code of the longest key that occurs in the
    lower-cased location.  It fails on a location that names Paris
    before Singapore: the longest key in it is singapore, the code
    returned is that of paris. *)
Lemma airport_code_not_longest_match :
  exists location key code : string,
    In (key, code) airport_map /\
    occurs_in key (lower location) /\
    (forall k c, In (k, c) airport_map -> occurs_in k (lower location) ->
                 (String.length k <= String.length key)%nat) /\
    _get_airport_code location = "CDG"%string /\
    _get_airport_code location <> code.
Proof.
  exists "Paris, then Singapore"%string, "singapore"%string, "SIN"%string.
  split; [cbn; tauto|]. split; [apply contains_true_iff; reflexivity|].
  split; [|split; [reflexivity|discriminate]].
  intros k c Hin _. cbn in Hin.
  repeat (destruct Hin as [Hin|Hin]; [injection Hin as <- <-; cbn; lia|]).
  contradiction.
Qed.

(** C9, as amended, on the location of the counterexample. *)
Lemma airport_code_first_match_witness :
  CaseSpec.is_ascii "Paris, then Singapore" = true /\
  ((exists before key code after,
      airport_map = before ++ (key, code) :: after /\
      occurs_in key (lower "Paris, then Singapore") /\
      (forall k c, In (k, c) before ->
                   ~ occurs_in k (lower "Paris, then Singapore")) /\
      _get_airport_code "Paris, then Singapore" = code)
   \/ ((forall k c, In (k, c) airport_map ->
                    ~ occurs_in k (lower "Paris, then Singapore")) /\
       _get_airport_code "Paris, then Singapore" = "JFK"%string)).
Proof.
  split; [reflexivity|].
  exact (airport_code_first_match "Paris, then Singapore" eq_refl).
Defined.

Lemma search_step_result (amadeus : nat -> flights.SearchOutcome)
    (use_real_apis include_flights : bool)
    (intent : intent_extractor.TravelIntent)
    (context : option (list (string * json))) (w w' : World)
    (found : option flights.FlightSearchResult) :
  search_step amadeus use_real_apis include_flights intent context w
  = (Ok found, w') ->
  (found <> None <-> search_performed include_flights intent = true).
Proof.
  unfold search_step, search_performed.
  destruct (intent_extractor.destination intent) as [d|];
    destruct (intent_extractor.start_date intent) as [sd|];
    cbn [opt_str_truthy];
    try (rewrite ?andb_false_r; unfold ret; intros [= <- <-];
         split; [congruence|discriminate]).
  rewrite <- andb_assoc.
  destruct (include_flights && (str_truthy d && str_truthy sd)).
  - unfold bind, lift. destruct (origin_location context); [|discriminate].
    destruct use_real_apis.
    + unfold flights.search_flights, ret. intros [= <- <-].
      split; [reflexivity|discriminate].
    + unfold ret. intros [= <- <-]. split; [reflexivity|discriminate].
  - unfold ret. intros [= <- <-]. split; [congruence|discriminate].
Qed.

(** What a completed [process_query] put in the recommendation. *)
Lemma process_query_result (env : Env)
    (TravelIntent_validate :
       list (string * json) -> result intent_extractor.TravelIntent)
    (TripPlan_validate : json -> result trip_planner.TripPlan)
    (amadeus : nat -> flights.SearchOutcome)
    (use_real_apis : bool) (user_query : string) (include_flights : bool)
    (context : option (list (string * json))) (w w' : World)
    (rec : TripRecommendation) :
  process_query env TravelIntent_validate TripPlan_validate amadeus
    use_real_apis user_query include_flights context w = (Ok rec, w') ->
  cost_step (intent rec) (trip_plan rec) (outbound_flights rec)
  = Ok (total_cost_estimate rec) /\
  confidence_score rec
  = _calculate_confidence env (intent rec) (trip_plan rec) (outbound_flights rec) /\
  (outbound_flights rec <> None
   <-> search_performed include_flights (intent rec) = true) /\
  return_flights rec = None.
Proof.
  unfold process_query, bind, now.
  destruct (intent_extractor.extract _ _ _ _ _) as [[i|e] w1]; [|discriminate].
  destruct (trip_planner.plan_trip _ _ _ _ _) as [[p|e] w2]; [|discriminate].
  destruct (search_step _ _ _ _ _ _) as [[f|e] w3] eqn:Hs; [|discriminate].
  unfold lift.
  destruct (cost_step i p f) as [c|e] eqn:Hc; [|discriminate].
  destruct (int_truediv _ _) as [t|e]; [|discriminate].
  unfold ret. intros [= <- <-]. cbn.
  repeat split; try assumption;
    apply (search_step_result _ _ _ _ _ _ _ _ Hs).
Qed.

(** C2. In every recommendation [process_query] assembles, the total
    cost estimate is the total estimated cost of the plan, plus, when
    the outbound search returned at least one offer, the least offer
    price times the number of travelers, times 2 when the intent has an
    end date; with no search or no offer it is the cost of the plan. *)
Theorem total_cost_estimate_formula (env : Env)
    (TravelIntent_validate :
       list (string * json) -> result intent_extractor.TravelIntent)
    (TripPlan_validate : json -> result trip_planner.TripPlan)
    (amadeus : nat -> flights.SearchOutcome)
    (use_real_apis : bool) (user_query : string) (include_flights : bool)
    (context : option (list (string * json))) (w w' : World)
    (rec : TripRecommendation) :
  process_query env TravelIntent_validate TripPlan_validate amadeus
    use_real_apis user_query include_flights context w = (Ok rec, w') ->
  let plan_cost := trip_planner.total_estimated_cost (trip_plan rec) in
  match outbound_flights rec with
  | Some found =>
      match flights.offers found with
      | first :: others =>
          exists travelers : float,
            float_of_int (intent_extractor.num_travelers (intent rec))
            = Ok travelers /\
            let cheapest :=
              min_from (flights.price_usd first) (map flights.price_usd others) in
            total_cost_estimate rec
            = (if has_end_date (intent rec)
               then plan_cost + cheapest * travelers * 2
               else plan_cost + cheapest * travelers)%float
      | [] => total_cost_estimate rec = plan_cost
      end
  | None => total_cost_estimate rec = plan_cost
  end.
Proof.
  intros H. apply process_query_result in H. destruct H as (Hc & _).
  unfold cost_step in Hc. cbv zeta.
  destruct (outbound_flights rec) as [found|]; [|congruence].
  destruct (flights.offers found) as [|first others]; [congruence|].
  unfold float_mul_int in Hc.
  destruct (float_of_int _) as [n|e]; [|discriminate].
  exists n. split; [reflexivity|]. unfold has_end_date.
  destruct (opt_str_truthy _); congruence.
Qed.

(** C8, as amended. The confidence of an assembled recommendation is
    the arithmetic mean of the confidence of the intent, of a plan score
    (0.0 without days, 0.7 with fewer days than the requested duration,
    a missing duration counting as 1, and 1.0 otherwise) and, when a
    flight search was performed, which takes a request for flights and
    an intent with a destination and a start date, of a flight score
    (1.0 for a successful search with an offer, 0.5 otherwise). *)
Theorem confidence_is_mean (env : Env)
    (TravelIntent_validate :
       list (string * json) -> result intent_extractor.TravelIntent)
    (TripPlan_validate : json -> result trip_planner.TripPlan)
    (amadeus : nat -> flights.SearchOutcome)
    (use_real_apis : bool) (user_query : string) (include_flights : bool)
    (context : option (list (string * json))) (w w' : World)
    (rec : TripRecommendation) :
  process_query env TravelIntent_validate TripPlan_validate amadeus
    use_real_apis user_query include_flights context w = (Ok rec, w') ->
  let days := trip_planner.daily_plans (trip_plan rec) in
  let plan_score :=
    match days with
    | [] => 0.0
    | _ =>
        if (Z.of_nat (List.length days) <?
            match intent_extractor.duration_days (intent rec) with
            | Some d => d
            | None => 1
            end)%Z
        then 0.7 else 1.0
    end%float in
  let flight_scores :=
    match outbound_flights rec with
    | Some found =>
        [if flights.search_success found
            && negb (Nat.eqb (List.length (flights.offers found)) 0)
         then 1.0 else 0.5]
    | None => []
    end%float in
  let scores :=
    [intent_extractor.confidence_score (intent rec); plan_score] ++ flight_scores in
  confidence_score rec
  = (fsum env scores / float_of_len (List.length scores))%float /\
  (outbound_flights rec <> None <->
   include_flights = true /\
   opt_str_truthy (intent_extractor.destination (intent rec)) = true /\
   opt_str_truthy (intent_extractor.start_date (intent rec)) = true).
Proof.
  intros H. apply process_query_result in H. destruct H as (_ & Hc & Hs & _).
  cbv zeta. split.
  - rewrite Hc. unfold _calculate_confidence, found_offers. cbn [app].
    destruct (trip_planner.daily_plans (trip_plan rec)) as [|d0 ds].
    + destruct (outbound_flights rec) as [found|];
        [destruct (flights.offers found)|]; reflexivity.
    + assert (E :
        (Z.of_nat (List.length (d0 :: ds)) <?
         match intent_extractor.duration_days (intent rec) with
         | Some d => if (d =? 0)%Z then 1 else d
         | None => 1
         end)%Z
        = (Z.of_nat (List.length (d0 :: ds)) <?
           match intent_extractor.duration_days (intent rec) with
           | Some d => d
           | None => 1
           end)%Z).
      { destruct (intent_extractor.duration_days (intent rec)) as [d|];
          [|reflexivity].
        destruct (Z.eqb_spec d 0) as [->|N]; [|reflexivity].
        cbn [List.length].
        transitivity false; [|symmetry]; apply Z.ltb_ge; lia. }
      rewrite E.
      destruct (outbound_flights rec) as [found|];
        [destruct (flights.offers found)|]; reflexivity.
  - rewrite Hs. unfold search_performed. rewrite !andb_true_iff. tauto.
Qed.

(** C2 for two travelers with an end date and the offline offers: the
    plan costs 750 and the cheapest offer 385. *)
Lemma total_cost_estimate_witness :
  exists rec w',
    process_query Fixtures.online (Fixtures.intent_from Fixtures.bangkok_intent)
      (fun _ => Ok Fixtures.three_day_plan) Fixtures.no_network false
      "3 days in Bangkok" true None Fixtures.fresh = (Ok rec, w') /\
    total_cost_estimate rec = (750 + 385 * 2 * 2)%float.
Proof.
  destruct (process_query Fixtures.online
              (Fixtures.intent_from Fixtures.bangkok_intent)
              (fun _ => Ok Fixtures.three_day_plan) Fixtures.no_network false
              "3 days in Bangkok" true None Fixtures.fresh)
    as [[rec|e] w'] eqn:H.
  - exists rec, w'. split; [reflexivity|].
    pose proof (total_cost_estimate_formula _ _ _ _ _ _ _ _ _ _ _ H) as T.
    vm_compute in H. injection H as <- <-.
    cbn in T. destruct T as (travelers & Hn & Ht).
    vm_compute in Hn. injection Hn as <-.
    rewrite Ht. reflexivity.
  - vm_compute in H. discriminate H.
Defined.

(** C8, as amended, on the same request: intent 0.9, full plan, offers
    found. *)
Lemma confidence_is_mean_witness :
  exists rec w',
    process_query Fixtures.online (Fixtures.intent_from Fixtures.bangkok_intent)
      (fun _ => Ok Fixtures.three_day_plan) Fixtures.no_network false
      "3 days in Bangkok" true None Fixtures.fresh = (Ok rec, w') /\
    confidence_score rec = (sum_left [0.9; 1.0; 1.0] / 3)%float.
Proof.
  destruct (process_query Fixtures.online
              (Fixtures.intent_from Fixtures.bangkok_intent)
              (fun _ => Ok Fixtures.three_day_plan) Fixtures.no_network false
              "3 days in Bangkok" true None Fixtures.fresh)
    as [[rec|e] w'] eqn:H.
  - exists rec, w'. split; [reflexivity|].
    pose proof (confidence_is_mean _ _ _ _ _ _ _ _ _ _ _ H) as T.
    vm_compute in H. injection H as <- <-.
    destruct T as (Ht & _). rewrite Ht. reflexivity.
  - vm_compute in H. discriminate H.
Defined.

(** C8 as stated fails when flights are requested for an intent that
    names no destination: no search is performed and the confidence is
    the mean of two scores, where the claim counts a third one, 0.5. *)
Lemma confidence_without_search :
  exists rec w',
    process_query Fixtures.online (Fixtures.intent_from Fixtures.vague_intent)
      (fun _ => Ok Fixtures.one_day_plan) Fixtures.no_network false
      "somewhere warm" true None Fixtures.fresh = (Ok rec, w') /\
    outbound_flights rec = None /\
    confidence_score rec = (sum_left [0.4; 1.0] / 2)%float /\
    claimed_confidence Fixtures.online true rec
    = (sum_left [0.4; 1.0; 0.5] / 3)%float /\
    confidence_score rec <> claimed_confidence Fixtures.online true rec.
Proof.
  eexists. eexists. split; [vm_compute; reflexivity|].
  split; [reflexivity|]. split; [reflexivity|]. split; [reflexivity|].
  apply FloatFacts.eqb_false_neq; reflexivity.
Qed.

End orchestrator_facts.

(** ** The evaluator *)

Module evaluator_facts.
Import Py metrics evaluator PySpec metrics_facts FloatFacts EvaluatorSpec.

(** The model-judged stage raises only what the sample day of its
    prompt raises: once the prompt is built it returns, with the two
    scores set to those of the reply or to the fallback. *)
Lemma _run_llm_evaluation_ok (env : Env) (dump : trip_planner.DayPlan -> result string)
    (rec : orchestrator.TripRecommendation)
    (m : EvaluationMetrics) (w : World) (sample : string) :
  sample_day dump rec = Ok sample ->
  exists im fs w',
    _run_llm_evaluation env dump rec m w =
    (Ok (set_feasibility_score fs (set_intent_match_score im m)), w').
Proof.
  intros Hd. unfold _run_llm_evaluation, bind, try_except, lift.
  destruct (start_request_ok env w) as (w1 & Hs & _). rewrite Hs, Hd.
  destruct (llm_scores_try env w1) as [[[im fs]|e] w2].
  - unfold ret. simpl. eauto.
  - destruct (end_request_zero_tokens env "llm_evaluation" (SECONDARY_MODEL env)
                false (Some (str_of_exn e)) w2) as (r & w3 & Hr & _).
    rewrite Hr. unfold ret. simpl. eauto.
Qed.

(** When it returns, it has set the two scores and nothing else. *)
Lemma _run_llm_evaluation_inv (env : Env) (dump : trip_planner.DayPlan -> result string)
    (rec : orchestrator.TripRecommendation)
    (m m' : EvaluationMetrics) (w w' : World) :
  _run_llm_evaluation env dump rec m w = (Ok m', w') ->
  exists im fs, m' = set_feasibility_score fs (set_intent_match_score im m).
Proof.
  destruct (sample_day dump rec) as [sample|e] eqn:Hd.
  - destruct (_run_llm_evaluation_ok env dump rec m w sample Hd)
      as (im & fs & w1 & ->).
    intros [= <- _]. eauto.
  - unfold _run_llm_evaluation, bind, lift.
    destruct (start_request_ok env w) as (w1 & Hs & _). rewrite Hs, Hd.
    discriminate.
Qed.

(** [evaluate] returns whenever the sample day can be written, and so
    for every plan without days. *)
Lemma evaluate_ok (env : Env) (dump : trip_planner.DayPlan -> result string)
    (rec : orchestrator.TripRecommendation) (w : World) (sample : string) :
  sample_day dump rec = Ok sample ->
  exists m w', evaluate env dump rec w = (Ok m, w').
Proof.
  intros Hd. unfold evaluate, bind, now, _calculate_generation_cost.
  set (h := _run_heuristic_checks rec _).
  destruct (has_critical_errors h); cbn [negb].
  - unfold ret. eauto.
  - destruct (_run_llm_evaluation_ok env dump rec h (next_event w) sample Hd)
      as (im & fs & w' & Hl).
    rewrite Hl. unfold ret. eauto.
Qed.

(** What [evaluate] returns, when it returns. *)
Lemma evaluate_inv (env : Env) (dump : trip_planner.DayPlan -> result string)
    (rec : orchestrator.TripRecommendation) (w w' : World)
    (m : EvaluationMetrics) :
  evaluate env dump rec w = (Ok m, w') ->
  exists t cost im fs,
    m = finish (_run_heuristic_checks rec
                  (EvaluationMetrics_with t (orchestrator.generation_time_ms rec) cost))
          im fs.
Proof.
  intros H.
  exists (isoformat env (datetime_now env (events w))).
  exists (metrics.total_cost_usd (get_summary env (next_event w))).
  revert H. unfold evaluate, bind, now, _calculate_generation_cost, finish.
  set (h := _run_heuristic_checks rec _).
  destruct (has_critical_errors h) eqn:Hc; cbn [negb].
  - unfold ret. intros [= <- _]. exists 0%float, 0%float. reflexivity.
  - destruct (_run_llm_evaluation env dump rec h (next_event w))
      as [[m'|e] w1] eqn:E; [|discriminate].
    destruct (_run_llm_evaluation_inv _ _ _ _ _ _ _ E) as (im & fs & ->).
    unfold ret. intros [= <- _]. exists im, fs. reflexivity.
Qed.

(** *** The heuristic stage, check by check *)

Lemma error_messages_append_errors (msgs : list string) (m : EvaluationMetrics) :
  error_messages (append_errors msgs m) = error_messages m ++ msgs.
Proof.
  revert m. induction msgs as [|s msgs IH]; intros m; simpl.
  - now rewrite app_nil_r.
  - rewrite IH. simpl. now rewrite <- app_assoc.
Qed.

(** The loop of check 3 only appends its messages to the metrics object. *)
Lemma coherence_loop_metrics (days : list trip_planner.DayPlan) : forall i c m,
  snd (coherence_loop i days c m)
  = append_errors (map numbering_message (misnumbered i days)) m.
Proof.
  induction days as [|d rest IH]; intros i c m; [reflexivity|].
  cbn [coherence_loop misnumbered].
  destruct (trip_planner.day d =? Z.of_nat i + 1)%Z; cbn [negb]; rewrite IH; reflexivity.
Qed.

(** The invariant of the loop of check 3 survives both penalties. *)
Lemma tracks_sub_two (c : float) (z : Z) : tracks c z -> tracks (c - 2.0)%float (z - 2).
Proof.
  intros [Hle H]. split; [lia|].
  destruct (-3 <? z)%Z eqn:E.
  - apply Z.ltb_lt in E. subst c. small_cases z; reflexivity.
  - apply Z.ltb_ge in E.
    replace (-3 <? z - 2)%Z with false by (symmetry; apply Z.ltb_ge; lia).
    now apply sub_two_nonpos.
Qed.

Lemma tracks_sub_one (c : float) (z : Z) : tracks c z -> tracks (c - 1.0)%float (z - 1).
Proof.
  intros [Hle H]. split; [lia|].
  destruct (-3 <? z)%Z eqn:E.
  - apply Z.ltb_lt in E. subst c. small_cases z; reflexivity.
  - apply Z.ltb_ge in E.
    replace (-3 <? z - 1)%Z with false by (symmetry; apply Z.ltb_ge; lia).
    now apply sub_one_nonpos.
Qed.

(** The floor at zero turns the tracked coherence into the float of the
    floored count. *)
Lemma tracks_floor (c : float) (z : Z) :
  tracks c z -> Ok (max2 0.0 c) = float_of_int (Z.max 0 z).
Proof.
  intros [Hle H].
  destruct (-3 <? z)%Z eqn:E.
  - apply Z.ltb_lt in E. subst c. small_cases z; reflexivity.
  - apply Z.ltb_ge in E. replace (Z.max 0 z) with 0%Z by lia.
    unfold max2, gtb. rewrite (leb_true_ltb_false _ _ H). reflexivity.
Qed.

(** The loop takes 2 for each misnumbered day and 1 for each day that
    misses a text. *)
Lemma coherence_loop_tracks (days : list trip_planner.DayPlan) : forall i c z m,
  tracks c z ->
  tracks (fst (coherence_loop i days c m))
    (z - 2 * Z.of_nat (List.length (misnumbered i days))
       - Z.of_nat (List.length (filter missing_text days))).
Proof.
  induction days as [|d rest IH]; intros i c z m T.
  - cbn [coherence_loop fst misnumbered filter List.length].
    now replace (z - 2 * Z.of_nat 0 - Z.of_nat 0)%Z with z by lia.
  - cbn [coherence_loop misnumbered filter].
    fold (missing_text d).
    destruct (trip_planner.day d =? Z.of_nat i + 1)%Z; cbn [negb];
      destruct (missing_text d); cbn [List.length].
    + apply tracks_sub_one in T.
      specialize (IH (S i) _ _ m T).
      replace (z - 2 * Z.of_nat (List.length (misnumbered (S i) rest))
                 - Z.of_nat (S (List.length (filter missing_text rest))))%Z
        with (z - 1 - 2 * Z.of_nat (List.length (misnumbered (S i) rest))
                - Z.of_nat (List.length (filter missing_text rest)))%Z by lia.
      exact IH.
    + apply IH, T.
    + apply tracks_sub_two, tracks_sub_one in T.
      specialize (IH (S i) _ _ (append_error (numbering_message (Z.of_nat i + 1)) m) T).
      replace (z - 2 * Z.of_nat (S (List.length (misnumbered (S i) rest)))
                 - Z.of_nat (S (List.length (filter missing_text rest))))%Z
        with (z - 2 - 1 - 2 * Z.of_nat (List.length (misnumbered (S i) rest))
                - Z.of_nat (List.length (filter missing_text rest)))%Z by lia.
      exact IH.
    + apply tracks_sub_two in T.
      specialize (IH (S i) _ _ (append_error (numbering_message (Z.of_nat i + 1)) m) T).
      replace (z - 2 * Z.of_nat (S (List.length (misnumbered (S i) rest)))
                 - Z.of_nat (List.length (filter missing_text rest)))%Z
        with (z - 2 - 2 * Z.of_nat (List.length (misnumbered (S i) rest))
                - Z.of_nat (List.length (filter missing_text rest)))%Z by lia.
      exact IH.
Qed.

Lemma check_coherence_eq (plan : trip_planner.TripPlan) (m : EvaluationMetrics) :
  check_coherence plan m
  = set_coherence_score
      (max2 0.0 (fst (coherence_loop 0 (trip_planner.daily_plans plan) 10.0 m)))
      (append_errors
         (map numbering_message (misnumbered 0 (trip_planner.daily_plans plan))) m).
Proof.
  unfold check_coherence. rewrite <- coherence_loop_metrics with (c := 10.0%float).
  destruct (coherence_loop 0 _ _ m); reflexivity.
Qed.

(** Appending messages changes no other field. *)
Lemma append_errors_frame (msgs : list string) : forall m,
  completeness_score (append_errors msgs m) = completeness_score m /\
  budget_adherence_score (append_errors msgs m) = budget_adherence_score m /\
  has_critical_errors (append_errors msgs m) = has_critical_errors m.
Proof.
  induction msgs as [|s msgs IH]; intros m; [repeat split|].
  destruct (IH (append_error s m)) as (H1 & H2 & H3). simpl.
  unfold append_errors in *. rewrite H1, H2, H3. repeat split.
Qed.

Lemma truthy_and_positive (b : float) :
  float_truthy b && gtb b 0 = gtb b 0.
Proof.
  destruct (gtb b 0) eqn:E; [|apply andb_false_r].
  now rewrite (gtb_zero_truthy _ E).
Qed.

Lemma check_budget_eq (rec : orchestrator.TripRecommendation) (m : EvaluationMetrics) :
  check_budget rec m
  = append_errors (budget_messages rec)
      (set_budget_adherence_score (budget_score rec) m).
Proof.
  unfold check_budget, budget_messages, budget_score, positive_budget.
  destruct (intent_extractor.budget_usd (orchestrator.intent rec)) as [b|];
    [|reflexivity].
  rewrite truthy_and_positive. destruct (gtb b 0); [|reflexivity].
  cbv zeta.
  destruct (_ <=? 1.0)%float; [reflexivity|].
  destruct (_ <=? 1.2)%float; [reflexivity|].
  destruct (_ <=? 1.5)%float; reflexivity.
Qed.

Lemma check_completeness_eq (plan : trip_planner.TripPlan) (m : EvaluationMetrics) :
  check_completeness plan m
  = set_completeness_score (completeness plan)
      (set_has_critical_errors
         (has_critical_errors m
          || match trip_planner.daily_plans plan with [] => true | _ => false end)
         (append_errors (completeness_messages plan) m)).
Proof.
  unfold check_completeness, completeness, completeness_messages.
  destruct m. destruct (trip_planner.daily_plans plan) as [|d ds].
  - cbn. now rewrite orb_true_r.
  - destruct (Z.of_nat _ =? _)%Z; cbn; now rewrite orb_false_r.
Qed.

(** The metrics object after the heuristic stage. *)
Lemma _run_heuristic_checks_fields (rec : orchestrator.TripRecommendation)
    (m : EvaluationMetrics) :
  let plan := orchestrator.trip_plan rec in
  let days := trip_planner.daily_plans plan in
  let h := _run_heuristic_checks rec m in
  completeness_score h = completeness plan /\
  has_critical_errors h = has_critical_errors m || no_days rec /\
  budget_adherence_score h = budget_score rec /\
  error_messages h
  = error_messages m ++ completeness_messages plan ++ budget_messages rec
      ++ map numbering_message (misnumbered 0 days) /\
  Ok (coherence_score h)
  = float_of_int
      (Z.max 0 (10 - 2 * Z.of_nat (List.length (misnumbered 0 days))
                  - Z.of_nat (List.length (filter missing_text days)))).
Proof.
  intros plan days h. subst h. unfold _run_heuristic_checks. fold plan.
  rewrite check_coherence_eq, check_budget_eq, check_completeness_eq. fold days.
  set (m1 := set_completeness_score _ _).
  set (m2 := set_budget_adherence_score _ m1).
  set (m3 := append_errors (budget_messages rec) m2).
  destruct (append_errors_frame (map numbering_message (misnumbered 0 days)) m3)
    as (F1 & F2 & F3).
  destruct (append_errors_frame (budget_messages rec) m2) as (G1 & G2 & G3).
  destruct (append_errors_frame (completeness_messages plan) m) as (K1 & K2 & K3).
  cbn [completeness_score has_critical_errors budget_adherence_score
       error_messages coherence_score set_coherence_score].
  repeat split.
  - rewrite F1. subst m3. rewrite G1. reflexivity.
  - rewrite F3. subst m3. rewrite G3. reflexivity.
  - rewrite F2. subst m3. rewrite G2. reflexivity.
  - rewrite error_messages_append_errors. subst m3.
    rewrite error_messages_append_errors. subst m2 m1.
    cbn [error_messages set_budget_adherence_score set_completeness_score
         set_has_critical_errors].
    rewrite error_messages_append_errors. now rewrite <- !app_assoc.
  - apply tracks_floor.
    apply (coherence_loop_tracks days 0 10.0%float 10 m3).
    split; [lia|reflexivity].
Qed.

(** The later stages keep what the heuristic stage wrote. *)
Lemma finish_fields (h : EvaluationMetrics) (im fs : float) :
  completeness_score (finish h im fs) = completeness_score h /\
  has_critical_errors (finish h im fs) = has_critical_errors h /\
  budget_adherence_score (finish h im fs) = budget_adherence_score h /\
  error_messages (finish h im fs) = error_messages h /\
  coherence_score (finish h im fs) = coherence_score h.
Proof.
  unfold finish. destruct (has_critical_errors h) eqn:E; cbn; rewrite ?E; repeat split.
Qed.

Lemma above_1_2_not_below_1_0 (r : float) :
  gtb r 1.2 = true -> (r <=? 1.0)%float = false.
Proof.
  unfold gtb. intros H. destruct (r <=? 1.0)%float eqn:E; [|reflexivity].
  rewrite (leb_ltb_between r 1.0 1.2 4503599627370496%positive 5404319552844595%positive (-52)%Z (-52)%Z)
    in H; try reflexivity; [discriminate|right; split; reflexivity|exact E].
Qed.

Lemma above_1_5_not_below_1_0 (r : float) :
  gtb r 1.5 = true -> (r <=? 1.0)%float = false.
Proof.
  unfold gtb. intros H. destruct (r <=? 1.0)%float eqn:E; [|reflexivity].
  rewrite (leb_ltb_between r 1.0 1.5 4503599627370496%positive 6755399441055744%positive (-52)%Z (-52)%Z)
    in H; try reflexivity; [discriminate|right; split; reflexivity|exact E].
Qed.

Lemma above_1_5_not_below_1_2 (r : float) :
  gtb r 1.5 = true -> (r <=? 1.2)%float = false.
Proof.
  unfold gtb. intros H. destruct (r <=? 1.2)%float eqn:E; [|reflexivity].
  rewrite (leb_ltb_between r 1.2 1.5 5404319552844595%positive 6755399441055744%positive (-52)%Z (-52)%Z)
    in H; try reflexivity; [discriminate|right; split; reflexivity|exact E].
Qed.

Lemma float_0_neq_5 : 0.0%float <> 5.0%float.
Proof. apply eqb_false_neq; reflexivity. Qed.

Lemma float_0_neq_10 : 0.0%float <> 10.0%float.
Proof. apply eqb_false_neq; reflexivity. Qed.

Lemma float_5_neq_10 : 5.0%float <> 10.0%float.
Proof. apply eqb_false_neq; reflexivity. Qed.

(** The result of [evaluate] carries the fields the heuristic stage
    computed from the recommendation. *)
Lemma evaluate_heuristics (env : Env) (dump : trip_planner.DayPlan -> result string)
    (rec : orchestrator.TripRecommendation) (w w' : World)
    (m : EvaluationMetrics) :
  evaluate env dump rec w = (Ok m, w') ->
  let plan := orchestrator.trip_plan rec in
  let days := trip_planner.daily_plans plan in
  completeness_score m = completeness plan /\
  has_critical_errors m = no_days rec /\
  budget_adherence_score m = budget_score rec /\
  error_messages m
  = completeness_messages plan ++ budget_messages rec
      ++ map numbering_message (misnumbered 0 days) /\
  Ok (coherence_score m)
  = float_of_int
      (Z.max 0 (10 - 2 * Z.of_nat (List.length (misnumbered 0 days))
                  - Z.of_nat (List.length (filter missing_text days)))) /\
  overall_score m = _calculate_overall_score m /\
  grade m = _score_to_grade (overall_score m).
Proof.
  intros He plan days.
  destruct (evaluate_inv env dump rec w w' m He) as (t & cost & im & fs & ->).
  set (m0 := EvaluationMetrics_with t (orchestrator.generation_time_ms rec) cost).
  destruct (_run_heuristic_checks_fields rec m0) as (H1 & H2 & H3 & H4 & H5).
  destruct (finish_fields (_run_heuristic_checks rec m0) im fs)
    as (F1 & F2 & F3 & F4 & F5).
  rewrite F1, F2, F3, F4, F5. repeat split; assumption.
Qed.

(** C5. The completeness score of an evaluated recommendation, one for
    which [evaluate] returned, is 0
    exactly when the plan has no day (the critical-error flag is then
    set and a message recorded), 5 exactly when it has days but not as
    many as its stated duration, and 10 in the remaining case. *)
Theorem completeness_score_cases (env : Env) (dump : trip_planner.DayPlan -> result string)
    (rec : orchestrator.TripRecommendation) (w w' : World)
    (m : EvaluationMetrics) :
  evaluate env dump rec w = (Ok m, w') ->
  let plan := orchestrator.trip_plan rec in
  let days := trip_planner.daily_plans plan in
  (completeness_score m = 0.0%float <-> days = []) /\
  (days = [] ->
   has_critical_errors m = true /\
   In "No daily plans generated"%string (error_messages m)) /\
  (completeness_score m = 5.0%float <->
   days <> [] /\ Z.of_nat (List.length days) <> trip_planner.duration_days plan) /\
  (completeness_score m = 10.0%float <->
   days <> [] /\ Z.of_nat (List.length days) = trip_planner.duration_days plan).
Proof.
  intros He plan days.
  destruct (evaluate_heuristics env dump rec w w' m He) as (Hc & Hf & _ & Hm & _).
  rewrite Hc, Hf, Hm. unfold completeness, no_days, completeness_messages.
  fold plan. fold days.
  pose proof float_0_neq_5. pose proof float_0_neq_10. pose proof float_5_neq_10.
  destruct days as [|d ds].
  - repeat split; try congruence; try (intros [? _]; congruence);
      try (intros; exfalso; congruence).
    left. reflexivity.
  - destruct (Z.eqb_spec (Z.of_nat (List.length (d :: ds)))
                (trip_planner.duration_days plan)) as [E|E];
      repeat split; try congruence; try (intros [_ ?]; congruence);
      try (intros; exfalso; congruence).
Qed.

(** C1. With the critical-error flag set (which only the heuristic stage
    does, when the plan has no day) the overall score is 0 and the grade
    F, whatever the other scores are; otherwise the overall score is the
    weighted sum of the five scores rounded to one decimal, and the
    grade follows the thresholds 9.0, 7.5, 6.0 and 4.0.  The second part
    is about every recommendation for which [evaluate] returned. *)
Theorem overall_score_and_grade :
  (forall metrics : EvaluationMetrics,
     has_critical_errors metrics = true ->
     _calculate_overall_score metrics = 0.0%float /\
     _score_to_grade (_calculate_overall_score metrics) = "F"%string) /\
  (forall (env : Env) (dump : trip_planner.DayPlan -> result string)
          (rec : orchestrator.TripRecommendation) (w w' : World)
          (m : EvaluationMetrics),
     evaluate env dump rec w = (Ok m, w') ->
     has_critical_errors m = no_days rec /\
     (has_critical_errors m = true ->
      overall_score m = 0.0%float /\ grade m = "F"%string) /\
     (has_critical_errors m = false ->
      overall_score m
      = round (0.30 * intent_match_score m
               + 0.25 * budget_adherence_score m
               + 0.20 * feasibility_score m
               + 0.15 * completeness_score m
               + 0.10 * coherence_score m)%float 1 /\
      grade m
      = (if geb (overall_score m) 9.0 then "A"
         else if geb (overall_score m) 7.5 then "B"
         else if geb (overall_score m) 6.0 then "C"
         else if geb (overall_score m) 4.0 then "D"
         else "F")%string)).
Proof.
  split.
  - intros metrics H. unfold _calculate_overall_score. rewrite H.
    split; reflexivity.
  - intros env dump rec w w' m He.
    destruct (evaluate_heuristics env dump rec w w' m He)
      as (_ & Hf & _ & _ & _ & Ho & Hg).
    repeat split; try assumption.
    + rewrite Ho. unfold _calculate_overall_score. now rewrite H.
    + rewrite Hg, Ho. unfold _calculate_overall_score. now rewrite H.
    + rewrite Ho at 1. unfold _calculate_overall_score. rewrite H.
      now rewrite !(mul_comm _ (intent_match_score m)),
        !(mul_comm _ (budget_adherence_score m)),
        !(mul_comm _ (feasibility_score m)),
        !(mul_comm _ (completeness_score m)),
        !(mul_comm _ (coherence_score m)).
Qed.

(** C6. In every evaluation that [evaluate] returns, with a positive
    stated budget the budget-adherence score follows
    ratio = total cost estimate / budget: 10 up to 1.0, 7 above 1.0 up
    to 1.2, 4 above 1.2 up to 1.5, and 2 with an over-budget message
    above 1.5; with no positive budget the score is 8. *)
Theorem budget_adherence_thresholds (env : Env) (dump : trip_planner.DayPlan -> result string)
    (rec : orchestrator.TripRecommendation) (w w' : World)
    (m : EvaluationMetrics) :
  evaluate env dump rec w = (Ok m, w') ->
  (forall budget : float,
     intent_extractor.budget_usd (orchestrator.intent rec) = Some budget ->
     gtb budget 0 = true ->
     let ratio := (orchestrator.total_cost_estimate rec / budget)%float in
     ((ratio <=? 1.0)%float = true -> budget_adherence_score m = 10.0%float) /\
     (gtb ratio 1.0 = true -> (ratio <=? 1.2)%float = true ->
      budget_adherence_score m = 7.0%float) /\
     (gtb ratio 1.2 = true -> (ratio <=? 1.5)%float = true ->
      budget_adherence_score m = 4.0%float) /\
     (gtb ratio 1.5 = true ->
      budget_adherence_score m = 2.0%float /\
      In (over_budget_message rec budget) (error_messages m))) /\
  (positive_budget rec = None -> budget_adherence_score m = 8.0%float).
Proof.
  intros He.
  destruct (evaluate_heuristics env dump rec w w' m He) as (_ & _ & Hb & Hm & _).
  rewrite Hb, Hm. unfold budget_score, budget_messages, positive_budget. split.
  - intros budget HB Hpos. rewrite HB, Hpos. set (ratio := (_ / budget)%float).
    split; [|split; [|split]].
    + now intros ->.
    + intros H1 H2. unfold gtb in H1.
      now rewrite (ltb_true_leb_false _ _ H1), H2.
    + intros H1 H2.
      rewrite (above_1_2_not_below_1_0 _ H1). unfold gtb in H1.
      now rewrite (ltb_true_leb_false _ _ H1), H2.
    + intros H.
      rewrite (above_1_5_not_below_1_0 _ H), (above_1_5_not_below_1_2 _ H).
      unfold gtb in H. rewrite (ltb_true_leb_false _ _ H).
      split; [reflexivity|]. cbn [orb].
      apply in_or_app. right. apply in_or_app. left. left. reflexivity.
  - destruct (intent_extractor.budget_usd (orchestrator.intent rec)) as [b|];
      [|reflexivity].
    destruct (gtb b 0); [discriminate|reflexivity].
Qed.

Lemma filter_numbering_messages (positions : list Z) :
  filter is_numbering_message (map numbering_message positions)
  = map numbering_message positions.
Proof.
  induction positions as [|p ps IH]; [reflexivity|].
  cbn [map filter]. rewrite IH.
  replace (is_numbering_message (numbering_message p)) with true; [reflexivity|].
  unfold is_numbering_message, numbering_message. cbn.
  destruct (str_of_int p); reflexivity.
Qed.

Lemma filter_completeness_messages (plan : trip_planner.TripPlan) :
  filter is_numbering_message (completeness_messages plan) = [].
Proof.
  unfold completeness_messages.
  destruct (trip_planner.daily_plans plan); [reflexivity|].
  destruct (_ =? _)%Z; reflexivity.
Qed.

Lemma filter_budget_messages (rec : orchestrator.TripRecommendation) :
  filter is_numbering_message (budget_messages rec) = [].
Proof.
  unfold budget_messages. destruct (positive_budget rec); [|reflexivity].
  cbv zeta. destruct (_ || _); reflexivity.
Qed.

(** C7. The coherence score of an evaluated recommendation, one for
    which [evaluate] returned, is 10, less 2 for each day whose [day] field
    is not its 1-based position and less 1 for each day with an empty
    morning, afternoon or evening text, floored at 0; each misnumbered
    day leaves one message, and these are all the numbering messages.
    For day fields 1, 2, 4 and all texts present the score is 8, with
    exactly one such message. *)
Theorem coherence_score_formula (env : Env) (dump : trip_planner.DayPlan -> result string)
    (rec : orchestrator.TripRecommendation) (w w' : World)
    (m : EvaluationMetrics) :
  evaluate env dump rec w = (Ok m, w') ->
  let days := trip_planner.daily_plans (orchestrator.trip_plan rec) in
  Ok (coherence_score m)
  = float_of_int
      (Z.max 0 (10 - 2 * Z.of_nat (List.length (misnumbered 0 days))
                  - 1 * Z.of_nat (List.length (filter missing_text days)))) /\
  filter is_numbering_message (error_messages m)
  = map numbering_message (misnumbered 0 days) /\
  (forall d1 d2 d3 : trip_planner.DayPlan,
     days = [d1; d2; d3] ->
     trip_planner.day d1 = 1%Z -> trip_planner.day d2 = 2%Z ->
     trip_planner.day d3 = 4%Z ->
     missing_text d1 = false -> missing_text d2 = false ->
     missing_text d3 = false ->
     coherence_score m = 8.0%float /\
     filter is_numbering_message (error_messages m)
     = ["Day numbering issue at day 3"%string]).
Proof.
  intros He days.
  destruct (evaluate_heuristics env dump rec w w' m He) as (_ & _ & _ & Hm & Hc & _).
  fold days in Hm, Hc.
  assert (Hf : filter is_numbering_message (error_messages m)
               = map numbering_message (misnumbered 0 days)).
  { rewrite Hm, !filter_app, filter_completeness_messages, filter_budget_messages.
    apply filter_numbering_messages. }
  split; [|split; [exact Hf|]].
  - rewrite Hc. f_equal. lia.
  - intros d1 d2 d3 Hd E1 E2 E3 M1 M2 M3.
    rewrite Hf. rewrite Hd in Hc |- *.
    cbn [misnumbered filter] in Hc |- *.
    rewrite E1, E2, E3, M1, M2, M3 in Hc. rewrite E1, E2, E3.
    split; [|reflexivity].
    cbn in Hc. congruence.
Qed.

(** The first loop of [batch_evaluate] returns one result per
    recommendation, when it returns; and it returns when every sample
    day can be written. *)
Lemma evaluate_each_inv (env : Env) (dump : trip_planner.DayPlan -> result string)
    (recs : list orchestrator.TripRecommendation) :
  forall w w' results,
    evaluate_each env dump recs w = (Ok results, w') ->
    List.length results = List.length recs.
Proof.
  induction recs as [|rec rest IH]; intros w w' results.
  - cbn [evaluate_each]. unfold ret. now intros [= <- _].
  - cbn [evaluate_each]. unfold bind.
    destruct (evaluate env dump rec w) as [[m|e] w1]; [|discriminate].
    destruct (evaluate_each env dump rest w1) as [[ms|e] w2] eqn:E; [|discriminate].
    unfold ret. intros [= <- _]. cbn [List.length]. f_equal. exact (IH _ _ _ E).
Qed.

Lemma evaluate_each_ok (env : Env) (dump : trip_planner.DayPlan -> result string)
    (recs : list orchestrator.TripRecommendation) :
  Forall (fun rec => exists sample, sample_day dump rec = Ok sample) recs ->
  forall w, exists results w',
    evaluate_each env dump recs w = (Ok results, w').
Proof.
  induction 1 as [|rec rest (sample & Hd) _ IH]; intros w.
  - exists [], w. reflexivity.
  - cbn [evaluate_each]. unfold bind.
    destruct (evaluate_ok env dump rec w sample Hd) as (m & w1 & ->).
    destruct (IH w1) as (results & w2 & ->).
    exists (m :: results), w2. reflexivity.
Qed.

(** Counting one more grade adds one to the sum of the counts. *)
Lemma sum_counts_increment (d : list (string * Z)) (g : string) :
  sum_counts
    (dict_set d g (match dict_get d g with Some n => n | None => 0 end + 1)%Z)
  = (sum_counts d + 1)%Z.
Proof.
  induction d as [|[k v] d IH]; [reflexivity|].
  cbn [dict_set dict_get]. destruct (String.eqb k g).
  - cbn [sum_counts fold_right snd]. lia.
  - cbn [sum_counts fold_right snd]. fold (sum_counts d) in *.
    fold (sum_counts (dict_set d g
            (match dict_get d g with Some n => n | None => 0 end + 1)%Z)).
    rewrite IH. lia.
Qed.

Lemma count_grades_sum (results : list EvaluationMetrics) :
  sum_counts (count_grades results) = Z.of_nat (List.length results).
Proof.
  unfold count_grades.
  assert (H : forall d,
             sum_counts
               (fold_left
                  (fun grade_distribution m =>
                     dict_set grade_distribution (grade m)
                       (match dict_get grade_distribution (grade m) with
                        | Some n => n
                        | None => 0
                        end + 1)%Z) results d)
             = (sum_counts d + Z.of_nat (List.length results))%Z).
  { induction results as [|m ms IH]; intros d.
    - cbn [fold_left List.length]. lia.
    - cbn [fold_left List.length]. rewrite IH, sum_counts_increment. lia. }
  rewrite H. reflexivity.
Qed.

Lemma mean_nonempty (env : Env) (x : float) (xs : list float) :
  exists v, mean env (x :: xs) = Ok v.
Proof. eexists. reflexivity. Qed.

(** What [batch_evaluate] returns, when it returns. *)
Lemma batch_evaluate_inv (env : Env) (dump : trip_planner.DayPlan -> result string)
    (recs : list orchestrator.TripRecommendation) (w w' : World)
    (aggregate : Aggregate) :
  batch_evaluate env dump recs w = (Ok aggregate, w') ->
  List.length (all_metrics aggregate) = List.length recs /\
  total_evaluated aggregate = Z.of_nat (List.length recs) /\
  grade_distribution aggregate = count_grades (all_metrics aggregate).
Proof.
  unfold batch_evaluate, bind.
  destruct (evaluate_each env dump recs w) as [[results|e] w1] eqn:E;
    [|discriminate].
  pose proof (evaluate_each_inv env dump recs _ _ _ E) as Hl.
  unfold lift.
  destruct (mean env (map overall_score results)) as [a|e]; [|discriminate].
  destruct (mean env (map latency_ms results)) as [l|e]; [|discriminate].
  unfold ret. intros [= <- _].
  cbn [all_metrics total_evaluated grade_distribution].
  rewrite Hl. repeat split.
Qed.

(** X23. [batch_evaluate] returns an aggregate for every non-empty list
    of recommendations whose sample days, the first day of each plan
    with days, can be written by the serialiser; whenever it returns,
    the list was not empty, [total_evaluated] is its length and the
    grade counts sum to it; on the empty list the mean of the scores
    divides by zero and the call raises. *)
Theorem batch_evaluate_needs_input (env : Env) (dump : trip_planner.DayPlan -> result string) :
  (forall (rec : orchestrator.TripRecommendation)
          (rest : list orchestrator.TripRecommendation) (w : World),
     Forall (fun rec => exists sample, sample_day dump rec = Ok sample)
       (rec :: rest) ->
     exists aggregate w',
       batch_evaluate env dump (rec :: rest) w = (Ok aggregate, w')) /\
  (forall (recs : list orchestrator.TripRecommendation) (w w' : World)
          (aggregate : Aggregate),
     batch_evaluate env dump recs w = (Ok aggregate, w') ->
     recs <> [] /\
     total_evaluated aggregate = Z.of_nat (List.length recs) /\
     sum_counts (grade_distribution aggregate) = Z.of_nat (List.length recs)) /\
  (forall w : World,
     batch_evaluate env dump [] w
     = (Raise (Exception "ZeroDivisionError" "division by zero"), w)).
Proof.
  split; [|split; [|reflexivity]].
  - intros rec rest w F. unfold batch_evaluate, bind.
    destruct (evaluate_each_ok env dump (rec :: rest) F w) as (results & w' & Hr).
    pose proof (evaluate_each_inv env dump _ _ _ _ Hr) as Hl.
    rewrite Hr. destruct results as [|m ms]; [discriminate|].
    cbn [map]. unfold lift.
    destruct (mean_nonempty env (overall_score m) (map overall_score ms)) as (a & ->).
    destruct (mean_nonempty env (latency_ms m) (map latency_ms ms)) as (l & ->).
    unfold ret. eauto.
  - intros recs w w' aggregate H.
    destruct (batch_evaluate_inv env dump recs w w' aggregate H) as (Hl & Ht & Hg).
    split; [|split; [exact Ht|]].
    + intros ->. discriminate H.
    + now rewrite Hg, count_grades_sum, Hl.
Qed.

(** C10. The claim asks for an aggregate on every non-empty list.  The
    code does not give one on the list of the one recommendation whose
    first day holds a lone surrogate: the serialisation of that day for
    the prompt of the judge raises, after [start_request] and outside
    the [try] whose handler would have fallen back to the default
    scores, and [batch_evaluate] raises with the ledger empty and the
    request left started. *)
Lemma batch_evaluate_raises_on_unwritable_day :
  exists recs : list orchestrator.TripRecommendation,
    recs <> [] /\
    batch_evaluate Fixtures.online Fixtures.strict_dump recs Fixtures.fresh
    = (Raise Fixtures.serialization_error,
       {| requests := []; _start_time := Some 1001%float; events := 2 |}) /\
    forall aggregate w',
      batch_evaluate Fixtures.online Fixtures.strict_dump recs Fixtures.fresh
      <> (Ok aggregate, w').
Proof.
  exists [Fixtures.budgeted 250 Fixtures.unwritable_plan].
  split; [discriminate|].
  assert (H : batch_evaluate Fixtures.online Fixtures.strict_dump
                [Fixtures.budgeted 250 Fixtures.unwritable_plan] Fixtures.fresh
              = (Raise Fixtures.serialization_error,
                 {| requests := []; _start_time := Some 1001%float; events := 2 |}))
    by (vm_compute; reflexivity).
  split; [exact H|]. intros aggregate w'. rewrite H. discriminate.
Qed.

(** The boundaries of the budget cascade, for a budget of 1000: ratios
    1.0, 1.1, 1.2, 1.21, 1.5 and 1.51. *)
Example budget_score_boundaries :
  budget_score (Fixtures.budgeted 1000 Fixtures.three_day_plan) = 10.0%float /\
  budget_score (Fixtures.budgeted 1100 Fixtures.three_day_plan) = 7.0%float /\
  budget_score (Fixtures.budgeted 1200 Fixtures.three_day_plan) = 7.0%float /\
  budget_score (Fixtures.budgeted 1210 Fixtures.three_day_plan) = 4.0%float /\
  budget_score (Fixtures.budgeted 1500 Fixtures.three_day_plan) = 4.0%float /\
  budget_score (Fixtures.budgeted 1510 Fixtures.three_day_plan) = 2.0%float /\
  budget_messages (Fixtures.budgeted 1510 Fixtures.three_day_plan)
  = ["Budget exceeded: $1510 vs $1000"%string].
Proof. repeat split; reflexivity. Qed.

(** The evaluation of a plan with day fields 1, 2, 4 whose total cost is
    ten percent over the budget, when the judge returns no score of its
    own (both default to 7.0). *)
Example evaluate_gap_plan :
  exists m w',
    evaluate Fixtures.online Fixtures.dump_day
      (Fixtures.budgeted 1100 Fixtures.gap_plan) Fixtures.fresh = (Ok m, w') /\
    completeness_score m = 10.0%float /\
    budget_adherence_score m = 7.0%float /\
    coherence_score m = 8.0%float /\
    error_messages m = ["Day numbering issue at day 3"%string] /\
    overall_score m = 7.5%float /\
    grade m = "B"%string.
Proof.
  eexists. eexists. split; [vm_compute; reflexivity|]. repeat split; reflexivity.
Qed.

(** The evaluation of a plan without days: the flag is set, the text
    service is not called, and the result is 0 with grade F. *)
Example evaluate_empty_plan :
  exists m w',
    evaluate Fixtures.online Fixtures.dump_day
      (Fixtures.budgeted 900 Fixtures.empty_plan) Fixtures.fresh = (Ok m, w') /\
    has_critical_errors m = true /\
    completeness_score m = 0.0%float /\
    budget_adherence_score m = 10.0%float /\
    error_messages m = ["No daily plans generated"%string] /\
    overall_score m = 0.0%float /\
    grade m = "F"%string /\
    requests w' = [].
Proof.
  eexists. eexists. split; [vm_compute; reflexivity|]. repeat split; reflexivity.
Qed.

(** C5 on the plan with day fields 1, 2, 4 and a stated duration of 3. *)
Lemma completeness_score_cases_witness :
  exists m w',
    evaluate Fixtures.online Fixtures.dump_day
      (Fixtures.budgeted 1100 Fixtures.gap_plan) Fixtures.fresh = (Ok m, w') /\
    completeness_score m = 10.0%float.
Proof.
  destruct (evaluate Fixtures.online Fixtures.dump_day
              (Fixtures.budgeted 1100 Fixtures.gap_plan) Fixtures.fresh)
    as [[m|e] w'] eqn:H.
  - exists m, w'. split; [reflexivity|].
    pose proof (completeness_score_cases _ _ _ _ _ _ H) as T. cbv zeta in T.
    destruct T as (_ & _ & _ & T). apply (proj2 T).
    split; [discriminate|reflexivity].
  - vm_compute in H. discriminate H.
Defined.

(** C1 on the same evaluation: the judge's defaults 7.0 and 7.0, budget
    7, completeness 10 and coherence 8 give 7.55, which is rounded to 7.5
    (the float below 7.55), grade B. *)
Lemma overall_score_and_grade_witness :
  exists m w',
    evaluate Fixtures.online Fixtures.dump_day
      (Fixtures.budgeted 1100 Fixtures.gap_plan) Fixtures.fresh = (Ok m, w') /\
    overall_score m
    = round (0.30 * 7.0 + 0.25 * 7.0 + 0.20 * 7.0 + 0.15 * 10.0 + 0.10 * 8.0)%float 1 /\
    overall_score m = 7.5%float /\
    grade m = "B"%string.
Proof.
  destruct (evaluate Fixtures.online Fixtures.dump_day
              (Fixtures.budgeted 1100 Fixtures.gap_plan) Fixtures.fresh)
    as [[m|e] w'] eqn:H.
  - exists m, w'. split; [reflexivity|].
    destruct overall_score_and_grade as [_ T].
    destruct (T _ _ _ _ _ _ H) as (Hf & _ & T2).
    assert (Hn : has_critical_errors m = false) by (rewrite Hf; reflexivity).
    destruct (T2 Hn) as (Ho & Hg).
    vm_compute in H. injection H as <- <-.
    split; [rewrite Ho; reflexivity|].
    split; [rewrite Ho; reflexivity|]. rewrite Hg. reflexivity.
  - vm_compute in H. discriminate H.
Defined.

(** C6 on the same evaluation: a cost of 1100 for a budget of 1000. *)
Lemma budget_adherence_thresholds_witness :
  exists m w',
    evaluate Fixtures.online Fixtures.dump_day
      (Fixtures.budgeted 1100 Fixtures.gap_plan) Fixtures.fresh = (Ok m, w') /\
    budget_adherence_score m = 7.0%float.
Proof.
  destruct (evaluate Fixtures.online Fixtures.dump_day
              (Fixtures.budgeted 1100 Fixtures.gap_plan) Fixtures.fresh)
    as [[m|e] w'] eqn:H.
  - exists m, w'. split; [reflexivity|].
    destruct (budget_adherence_thresholds _ _ _ _ _ _ H) as [T _].
    destruct (T 1000%float eq_refl eq_refl) as (_ & T7 & _).
    apply T7; reflexivity.
  - vm_compute in H. discriminate H.
Defined.

(** C7 on the same evaluation: day fields 1, 2, 4. *)
Lemma coherence_score_formula_witness :
  exists m w',
    evaluate Fixtures.online Fixtures.dump_day
      (Fixtures.budgeted 1100 Fixtures.gap_plan) Fixtures.fresh = (Ok m, w') /\
    coherence_score m = 8.0%float /\
    filter is_numbering_message (error_messages m)
    = ["Day numbering issue at day 3"%string].
Proof.
  destruct (evaluate Fixtures.online Fixtures.dump_day
              (Fixtures.budgeted 1100 Fixtures.gap_plan) Fixtures.fresh)
    as [[m|e] w'] eqn:H.
  - exists m, w'. split; [reflexivity|].
    pose proof (coherence_score_formula _ _ _ _ _ _ H) as T. cbv zeta in T.
    destruct T as (_ & _ & T).
    apply (T (Fixtures.a_day 1) (Fixtures.a_day 2) (Fixtures.a_day 4));
      reflexivity.
  - vm_compute in H. discriminate H.
Defined.

End evaluator_facts.

(** ** More on the metrics tracker *)

Module tracker_props.
Import Py metrics metrics_facts LedgerSpec.

(** [end_request] either raises, on a token count too large for a float,
    before it touches the ledger, or appends the entry it returns and
    clears the start time. *)
Lemma end_request_cases (env : Env) (op mdl : string) (i o : Z) (succ : bool)
    (err : option string) (w : World) :
  (exists e w', end_request env op mdl i o succ err w = (Raise e, w') /\
                requests w' = requests w) \/
  (exists r w', end_request env op mdl i o succ err w = (Ok r, w') /\
                requests w' = requests w ++ [r] /\ _start_time w' = None /\
                operation r = op /\ model r = mdl /\
                input_tokens r = i /\ output_tokens r = o /\
                success r = succ /\ error r = err /\
                (_start_time w = None -> latency_ms r = 0%float)).
Proof.
  unfold end_request.
  remember (int_truediv i 1000000) as ri eqn:Eri.
  remember (int_truediv o 1000000) as ro eqn:Ero.
  unfold bind, get_start_time, lift, time, now, ret, append_request,
    set_start_time.
  destruct (_start_time w) as [t0|] eqn:Est; [destruct (float_truthy t0)|];
    (destruct ri as [ci|e1]; [|left; eauto]);
    (destruct ro as [co|e2]; [|left; eauto]);
    right; eexists; eexists; (split; [reflexivity|]); cbn;
    repeat split; try discriminate; reflexivity.
Qed.

(** X1. A request timed by [start_request] and closed by [end_request]
    gets the elapsed clock time in milliseconds, unless the clock read
    exactly 0.0 at the start, which counts as no start; and an
    [end_request] that follows without a new start records latency 0. *)
Theorem request_latency (env : Env) (op mdl : string) (i o : Z) (succ : bool)
    (err : option string) (w w' : World) (r : RequestMetrics) :
  bind (start_request env) (fun _ => end_request env op mdl i o succ err) w
  = (Ok r, w') ->
  latency_ms r
  = (if float_truthy (time_time env (events w))
     then (time_time env (S (events w)) - time_time env (events w)) * 1000
     else 0)%float /\
  (forall op' mdl' i' o' succ' err' r' w'',
     end_request env op' mdl' i' o' succ' err' w' = (Ok r', w'') ->
     latency_ms r' = 0%float).
Proof.
  assert (Hs : start_request env w
               = (Ok tt, {| requests := requests w;
                            _start_time := Some (time_time env (events w));
                            events := S (events w) |})) by reflexivity.
  unfold bind at 1. rewrite Hs. intros H. split.
  - revert H. unfold end_request.
    remember (int_truediv i 1000000) as ri eqn:Eri.
    remember (int_truediv o 1000000) as ro eqn:Ero.
    unfold bind, get_start_time, lift, time, now, ret, append_request,
      set_start_time. cbn [_start_time events requests next_event].
    destruct (float_truthy (time_time env (events w)));
      destruct ri as [ci|e1]; cbn; try discriminate;
      destruct ro as [co|e2]; cbn; try discriminate;
      intros [= <- _]; reflexivity.
  - intros op' mdl' i' o' succ' err' r' w'' H'.
    destruct (end_request_cases env op mdl i o succ err
                {| requests := requests w;
                   _start_time := Some (time_time env (events w));
                   events := S (events w) |})
      as [(e & w1 & E & _)|(r1 & w1 & E & _ & Hst & _)];
      rewrite E in H; [discriminate|]. injection H as <- <-.
    destruct (end_request_cases env op' mdl' i' o' succ' err' w1)
      as [(e & w2 & E' & _)|(r2 & w2 & E' & _ & _ & _ & _ & _ & _ & _ & _ & L)];
      rewrite E' in H'; [discriminate|]. injection H' as <- <-.
    exact (L Hst).
Qed.

(** C-style left fold of the token counts agrees with the right fold. *)
Lemma fold_left_tokens (rs : list RequestMetrics) (acc : Z) :
  fold_left Z.add (map (fun r => (input_tokens r + output_tokens r)%Z) rs) acc
  = (acc + ledger_tokens rs)%Z.
Proof.
  revert acc. induction rs as [|r rs IH]; intros acc; cbn [map fold_left ledger_tokens fold_right].
  - lia.
  - rewrite IH. fold (ledger_tokens rs). lia.
Qed.

Lemma ledger_tokens_app (a b : list RequestMetrics) :
  ledger_tokens (a ++ b) = (ledger_tokens a + ledger_tokens b)%Z.
Proof.
  induction a as [|r a IH]; cbn [app ledger_tokens fold_right]; [reflexivity|].
  fold (ledger_tokens (a ++ b)). fold (ledger_tokens a). rewrite IH. lia.
Qed.

(** What [get_summary] counts, for any ledger. *)
Lemma get_summary_counts (env : Env) (w : World) :
  total_requests (get_summary env w) = List.length (requests w) /\
  total_tokens (get_summary env w) = ledger_tokens (requests w).
Proof.
  unfold get_summary. destruct (requests w) as [|r rs]; [split; reflexivity|].
  cbn [total_requests total_tokens]. split; [reflexivity|].
  rewrite fold_left_tokens. lia.
Qed.

(** X2. Each request that [end_request] records shows in the summary:
    one more request, and its input and output tokens more. *)
Theorem summary_counts_request (env : Env) (op mdl : string) (i o : Z)
    (succ : bool) (err : option string) (w w' : World) (r : RequestMetrics) :
  end_request env op mdl i o succ err w = (Ok r, w') ->
  total_requests (get_summary env w') = S (total_requests (get_summary env w)) /\
  total_tokens (get_summary env w')
  = (total_tokens (get_summary env w) + i + o)%Z.
Proof.
  intros H.
  destruct (end_request_cases env op mdl i o succ err w)
    as [(e & w1 & E & _)|(r1 & w1 & E & Hreq & _ & _ & _ & Hi & Ho & _)];
    rewrite E in H; [discriminate|]. injection H as <- <-.
  destruct (get_summary_counts env w) as (N & T).
  destruct (get_summary_counts env w1) as (N' & T').
  rewrite N, N', T, T', Hreq, length_app, ledger_tokens_app.
  cbn [List.length ledger_tokens fold_right]. split; lia.
Qed.

(** A request timed from the first event of a fresh process: the clock
    reads 1000 and then 1001 seconds. *)
Lemma request_latency_witness :
  exists r w',
    bind (start_request Fixtures.online)
      (fun _ => end_request Fixtures.online "trip_planning" Fixtures.model_name
                  1200 800 true None) Fixtures.fresh = (Ok r, w') /\
    latency_ms r = 1000%float.
Proof.
  destruct (bind (start_request Fixtures.online)
              (fun _ => end_request Fixtures.online "trip_planning"
                          Fixtures.model_name 1200 800 true None)
              Fixtures.fresh) as [[r|e] w'] eqn:H.
  - exists r, w'. split; [reflexivity|].
    destruct (request_latency _ _ _ _ _ _ _ _ _ _ H) as [L _].
    rewrite L. reflexivity.
  - vm_compute in H. discriminate H.
Defined.

(** The first request of a fresh process, with 1200 and 800 tokens. *)
Lemma summary_counts_request_witness :
  exists r w',
    end_request Fixtures.online "trip_planning" Fixtures.model_name
      1200 800 true None Fixtures.fresh = (Ok r, w') /\
    total_requests (get_summary Fixtures.online w') = 1%nat /\
    total_tokens (get_summary Fixtures.online w') = 2000%Z.
Proof.
  destruct (end_request Fixtures.online "trip_planning" Fixtures.model_name
              1200 800 true None Fixtures.fresh) as [[r|e] w'] eqn:H.
  - exists r, w'. split; [reflexivity|].
    exact (summary_counts_request _ _ _ _ _ _ _ _ _ _ H).
  - vm_compute in H. discriminate H.
Defined.

End tracker_props.

(** ** More on the two agents *)

Module agent_props.
Import Py metrics metrics_facts LedgerSpec tracker_props.

(** Insert then look up: the key holds the value just set. *)
Lemma dict_get_set_same {V : Type} (d : list (string * V)) (k : string) (v : V) :
  dict_get (dict_set d k v) k = Some v.
Proof.
  induction d as [|[k' v'] d IH]; cbn [dict_set dict_get].
  - now rewrite String.eqb_refl.
  - destruct (String.eqb k' k) eqn:E; cbn [dict_get]; rewrite E; [reflexivity|exact IH].
Qed.

(** The other keys keep their values. *)
Lemma dict_get_set_other {V : Type} (d : list (string * V)) (k k' : string) (v : V) :
  k' <> k -> dict_get (dict_set d k v) k' = dict_get d k'.
Proof.
  intros N. induction d as [|[k0 v0] d IH]; cbn [dict_set dict_get].
  - destruct (String.eqb_spec k k'); [congruence|reflexivity].
  - destruct (String.eqb_spec k0 k) as [->|N0]; cbn [dict_get].
    + destruct (String.eqb_spec k k'); [congruence|reflexivity].
    + destruct (String.eqb k0 k'); [reflexivity|exact IH].
Qed.

(** The shape of a document that took the query. *)
Lemma setitem_ok (doc : json) (k : string) (v : json) (d' : list (string * json)) :
  setitem doc k v = Ok d' -> exists d, doc = JDict d /\ d' = dict_set d k v.
Proof.
  destruct doc; cbn; try discriminate. intros [= <-]. eauto.
Qed.

(** What the [try] block of [extract] does: it raises with the ledger
    as it was, or it has recorded a success; in the latter case the
    intent, if one is returned, was built from a document that holds
    the query. *)
Lemma extract_try_cases (env : Env)
    (validate : list (string * json) -> result intent_extractor.TravelIntent)
    (user_query : string) (w : World) :
  (exists e w', intent_extractor.extract_try env validate user_query w
                = (Raise e, w') /\ requests w' = requests w) \/
  (exists r w' d,
     requests w' = requests w ++ [r] /\
     operation r = "intent_extraction"%string /\ success r = true /\
     dict_get d "original_query" = Some (JStr user_query) /\
     intent_extractor.extract_try env validate user_query w = (validate d, w')).
Proof.
  unfold intent_extractor.extract_try, bind, create_message, lift.
  destruct (messages_create env (events w)) as [resp|e]; [|left; eauto].
  destruct (list_index (content resp) 0) as [t|e]; [|left; eauto].
  destruct (clean_json t) as [c|e]; [|left; eauto].
  destruct (json_loads env c) as [doc|e]; [|left; eauto].
  destruct (setitem doc "original_query" (JStr user_query)) as [d|e] eqn:Es;
    [|left; eauto].
  destruct (end_request_cases env "intent_extraction" (PRIMARY_MODEL env)
              (usage_input_tokens resp) (usage_output_tokens resp) true None
              (next_event w))
    as [(e & w1 & E & Hreq)|(r & w1 & E & Hreq & _ & Hop & _ & _ & _ & Hs & _)];
    rewrite E.
  - left. eauto.
  - right. exists r, w1, d. repeat split; try assumption.
    apply setitem_ok in Es. destruct Es as (d0 & _ & ->).
    apply dict_get_set_same.
Qed.

(** The outcomes of [extract]: it always returns, after one ledger
    entry or two. *)
Lemma extract_cases (env : Env)
    (validate : list (string * json) -> result intent_extractor.TravelIntent)
    (user_query : string) (context : option (list (string * json)))
    (w : World) :
  exists intent w' added,
    intent_extractor.extract env validate user_query context w = (Ok intent, w') /\
    appends w w' added /\
    ((exists r d, added = [r] /\ success r = true /\
                  operation r = "intent_extraction"%string /\
                  validate d = Ok intent /\
                  dict_get d "original_query" = Some (JStr user_query)) \/
     (exists r, added = [r] /\ success r = false /\
                operation r = "intent_extraction"%string /\
                input_tokens r = 0%Z /\ output_tokens r = 0%Z /\
                intent = intent_extractor.TravelIntent_with user_query 0.1) \/
     (exists r1 r2, added = [r1; r2] /\
                    success r1 = true /\ success r2 = false /\
                    operation r1 = "intent_extraction"%string /\
                    operation r2 = "intent_extraction"%string /\
                    intent = intent_extractor.TravelIntent_with user_query 0.1)).
Proof.
  unfold intent_extractor.extract, bind, try_except, appends.
  destruct (start_request_ok env w) as (w1 & Hs & Hreq1 & _). rewrite Hs.
  destruct (extract_try_cases env validate user_query w1)
    as [(e & w2 & E & Hreq2)|(r & w2 & d & Hreq2 & Hop & Hsucc & Hd & E)];
    rewrite E.
  - destruct (end_request_zero_tokens env "intent_extraction" (PRIMARY_MODEL env)
                false (Some (str_of_exn e)) w2)
      as (r & w3 & Hr & Hreq3 & Hop & Hi & Ho & Hsucc & _).
    rewrite Hr. unfold ret. do 2 eexists. exists [r].
    split; [reflexivity|]. split; [congruence|].
    right. left. exists r. repeat split; assumption.
  - destruct (validate d) as [i|e] eqn:Ev.
    + do 2 eexists. exists [r]. split; [reflexivity|]. split; [congruence|].
      left. exists r, d. repeat split; assumption.
    + destruct (end_request_zero_tokens env "intent_extraction" (PRIMARY_MODEL env)
                  false (Some (str_of_exn e)) w2)
        as (r2 & w3 & Hr & Hreq3 & Hop2 & _ & _ & Hsucc2 & _).
      rewrite Hr. unfold ret. do 2 eexists. exists [r; r2].
      split; [reflexivity|]. split.
      * rewrite Hreq3, Hreq2, Hreq1, <- app_assoc. reflexivity.
      * right. right. exists r, r2. repeat split; assumption.
Qed.

(** X3. The intent [extract] returns is the fail-soft one, or it was
    validated from a document in which [original_query] is the query of
    the caller, whatever the text service wrote under that key. *)
Theorem extract_result_origin (env : Env)
    (validate : list (string * json) -> result intent_extractor.TravelIntent)
    (user_query : string) (context : option (list (string * json)))
    (w : World) :
  exists intent w',
    intent_extractor.extract env validate user_query context w = (Ok intent, w') /\
    (intent = intent_extractor.TravelIntent_with user_query 0.1 \/
     exists d, validate d = Ok intent /\
               dict_get d "original_query" = Some (JStr user_query)).
Proof.
  destruct (extract_cases env validate user_query context w)
    as (i & w' & added & E & _ & [(r & d & _ & _ & _ & Hv & Hd)
                                 |[(r & _ & _ & _ & _ & _ & Hi)
                                  |(r1 & r2 & _ & _ & _ & _ & _ & Hi)]]).
  - exists i, w'. split; [exact E|]. right. eauto.
  - exists i, w'. split; [exact E|]. left. exact Hi.
  - exists i, w'. split; [exact E|]. left. exact Hi.
Qed.

(** X4. Every call of [extract] adds to the ledger one entry tagged
    intent_extraction, or two: a success followed by a failure, when
    the reply was recorded as a success and then did not validate; the
    intent returned is then the fail-soft one. *)
Theorem extract_ledger_entries (env : Env)
    (validate : list (string * json) -> result intent_extractor.TravelIntent)
    (user_query : string) (context : option (list (string * json)))
    (w : World) :
  exists intent w' added,
    intent_extractor.extract env validate user_query context w = (Ok intent, w') /\
    appends w w' added /\
    Forall (fun r => operation r = "intent_extraction"%string) added /\
    ((exists r, added = [r]) \/
     (exists r1 r2, added = [r1; r2] /\ success r1 = true /\ success r2 = false /\
                    intent = intent_extractor.TravelIntent_with user_query 0.1)).
Proof.
  destruct (extract_cases env validate user_query context w)
    as (i & w' & added & E & Ha & [(r & d & -> & _ & Hop & _)
                                  |[(r & -> & _ & Hop & _)
                                   |(r1 & r2 & -> & S1 & S2 & O1 & O2 & Hi)]]);
    exists i, w'; eexists; (split; [exact E|]); (split; [exact Ha|]).
  - split; [repeat constructor; assumption|]. left. eauto.
  - split; [repeat constructor; assumption|]. left. eauto.
  - split; [repeat constructor; assumption|]. right. exists r1, r2. auto.
Qed.

(** X5. [validate_intent] accepts an intent exactly when it has a
    destination, a start date or a duration, and a confidence that is
    not below 0.3; its list of missing fields is empty exactly then; and
    the fail-soft intent of [extract] is reported with all three
    missing. *)
Theorem validate_intent_verdict (intent : intent_extractor.TravelIntent) :
  (fst (intent_extractor.validate_intent intent) = true <->
   opt_str_truthy (intent_extractor.destination intent) = true /\
   (opt_str_truthy (intent_extractor.start_date intent) = true \/
    exists d, intent_extractor.duration_days intent = Some d /\ d <> 0%Z) /\
   (intent_extractor.confidence_score intent <? 0.3)%float = false) /\
  (fst (intent_extractor.validate_intent intent) = true <->
   snd (intent_extractor.validate_intent intent) = []) /\
  (forall q : string,
     intent_extractor.validate_intent (intent_extractor.TravelIntent_with q 0.1)
     = (false, ["destination"; "dates or duration";
                "high confidence extraction"]%string)).
Proof.
  split; [|split; [|reflexivity]].
  - unfold intent_extractor.validate_intent.
    destruct (opt_str_truthy (intent_extractor.destination intent));
      destruct (opt_str_truthy (intent_extractor.start_date intent));
      destruct (intent_extractor.duration_days intent) as [d|];
      try destruct (Z.eqb_spec d 0);
      destruct (intent_extractor.confidence_score intent <? 0.3)%float;
      cbn;
      (split;
       [ intros H; try discriminate H;
         repeat split; try reflexivity;
         first [ left; reflexivity
               | right; eexists; split; [reflexivity|assumption] ]
       | intros (Hd & [Hs|(d' & Hd1 & Hd2)] & Hc);
         try reflexivity; congruence ]).
  - unfold intent_extractor.validate_intent.
    destruct (negb (opt_str_truthy (intent_extractor.destination intent)));
      destruct (negb (opt_str_truthy (intent_extractor.start_date intent)) && _);
      destruct (intent_extractor.confidence_score intent <? 0.3)%float;
      cbn; split; try discriminate; reflexivity.
Qed.

(** What the [try] block of [plan_trip] does. *)
Lemma plan_trip_try_cases (env : Env)
    (validate : json -> result trip_planner.TripPlan) (w : World) :
  (exists e w', trip_planner.plan_trip_try env validate w = (Raise e, w') /\
                requests w' = requests w) \/
  (exists r w' doc,
     requests w' = requests w ++ [r] /\
     operation r = "trip_planning"%string /\ success r = true /\
     trip_planner.plan_trip_try env validate w = (validate doc, w')).
Proof.
  unfold trip_planner.plan_trip_try, bind, create_message, lift.
  destruct (messages_create env (events w)) as [resp|e]; [|left; eauto].
  destruct (list_index (content resp) 0) as [t|e]; [|left; eauto].
  destruct (clean_json t) as [c|e]; [|left; eauto].
  destruct (json_loads env c) as [doc|e]; [|left; eauto].
  destruct (end_request_cases env "trip_planning" (PRIMARY_MODEL env)
              (usage_input_tokens resp) (usage_output_tokens resp) true None
              (next_event w))
    as [(e & w1 & E & Hreq)|(r & w1 & E & Hreq & _ & Hop & _ & _ & _ & Hs & _)];
    rewrite E.
  - left. eauto.
  - right. exists r, w1, doc. repeat split; assumption.
Qed.

(** What one call of [plan_trip] does to the ledger, with its result. *)
Lemma plan_trip_cases (env : Env)
    (validate : json -> result trip_planner.TripPlan)
    (intent : intent_extractor.TravelIntent)
    (context : option (list (string * json))) (w : World) :
  exists res w' added,
    trip_planner.plan_trip env validate intent context w = (res, w') /\
    appends w w' added /\
    Forall (fun r => operation r = "trip_planning"%string) added /\
    ((exists r plan, added = [r] /\ success r = true /\ res = Ok plan) \/
     (exists r e, added = [r] /\ success r = false /\ res = Raise e /\
                  error r = Some (str_of_exn e) /\
                  input_tokens r = 0%Z /\ output_tokens r = 0%Z) \/
     (exists r1 r2 e, added = [r1; r2] /\ success r1 = true /\
                      success r2 = false /\ res = Raise e /\
                      error r2 = Some (str_of_exn e))).
Proof.
  unfold trip_planner.plan_trip, bind, try_except, appends.
  destruct (start_request_ok env w) as (w1 & Hs & Hreq1 & _). rewrite Hs.
  destruct (plan_trip_try_cases env validate w1)
    as [(e & w2 & E & Hreq2)|(r & w2 & doc & Hreq2 & Hop & Hsucc & E)];
    rewrite E.
  - destruct (end_request_zero_tokens env "trip_planning" (PRIMARY_MODEL env)
                false (Some (str_of_exn e)) w2)
      as (r & w3 & Hr & Hreq3 & Hop & Hi & Ho & Hsucc & Herr).
    rewrite Hr. unfold raise. do 2 eexists. exists [r].
    split; [reflexivity|]. split; [congruence|].
    split; [repeat constructor; assumption|].
    right. left. exists r, e. repeat split; assumption.
  - destruct (validate doc) as [p|e] eqn:Ev.
    + do 2 eexists. exists [r]. split; [reflexivity|]. split; [congruence|].
      split; [repeat constructor; assumption|].
      left. exists r, p. repeat split; assumption.
    + destruct (end_request_zero_tokens env "trip_planning" (PRIMARY_MODEL env)
                  false (Some (str_of_exn e)) w2)
        as (r2 & w3 & Hr & Hreq3 & Hop2 & _ & _ & Hsucc2 & Herr).
      rewrite Hr. unfold raise. do 2 eexists. exists [r; r2].
      split; [reflexivity|]. split.
      * rewrite Hreq3, Hreq2, Hreq1, <- app_assoc. reflexivity.
      * split; [repeat constructor; assumption|].
        right. right. exists r, r2, e. repeat split; assumption.
Qed.

(** X6. [plan_trip] returns a plan after exactly one ledger entry, a
    success; when it raises, the last entry is a failure that carries
    the text of the exception raised, and it is the second entry of the
    call when the reply had been recorded as a success before it failed
    to validate. *)
Theorem plan_trip_outcome (env : Env)
    (validate : json -> result trip_planner.TripPlan)
    (intent : intent_extractor.TravelIntent)
    (context : option (list (string * json))) (w : World) :
  exists res w' added,
    trip_planner.plan_trip env validate intent context w = (res, w') /\
    appends w w' added /\
    Forall (fun r => operation r = "trip_planning"%string) added /\
    ((exists r plan, added = [r] /\ success r = true /\ res = Ok plan) \/
     (exists r e, added = [r] /\ success r = false /\ res = Raise e /\
                  error r = Some (str_of_exn e) /\
                  input_tokens r = 0%Z /\ output_tokens r = 0%Z) \/
     (exists r1 r2 e, added = [r1; r2] /\ success r1 = true /\
                      success r2 = false /\ res = Raise e /\
                      error r2 = Some (str_of_exn e))).
Proof. exact (plan_trip_cases env validate intent context w). Qed.

End agent_props.

(** ** The unwrapping of fenced replies *)

Module fence_props.
Import Py PySpec Py_facts FenceSpec CaseSpec.
Local Open Scope string_scope.

Lemma append_nil_r (s : string) : s ++ "" = s.
Proof. induction s as [|c s IH]; cbn; [reflexivity|now rewrite IH]. Qed.

Lemma append_assoc (a b c : string) : (a ++ b) ++ c = a ++ (b ++ c).
Proof. induction a as [|x a IH]; cbn; [reflexivity|now rewrite IH]. Qed.

Lemma split_from_not_nil (sep : string) (s : string) :
  forall skip cur, (1 <= List.length (split_from sep skip cur s))%nat.
Proof.
  induction s as [|c s IH]; intros skip cur; cbn [split_from].
  - cbn. lia.
  - destruct skip as [|k]; [|apply IH].
    destruct (String.prefix sep (String c s)); [cbn; lia|apply IH].
Qed.

(** A text in which the separator occurs splits in two pieces at least. *)
Lemma split_from_two (sep : string) (s : string) :
  sep <> "" -> forall cur,
  contains sep s = true -> (2 <= List.length (split_from sep 0 cur s))%nat.
Proof.
  intros Hsep. induction s as [|c s IH]; intros cur; cbn [contains split_from].
  - destruct sep; [congruence|]. cbn. discriminate.
  - destruct (String.prefix sep (String c s)) eqn:E.
    + intros _. cbn [List.length].
      pose proof (split_from_not_nil sep s (String.length sep - 1) "").
      lia.
    + cbn [orb]. apply IH.
Qed.

Lemma list_index_in_range {A : Type} (xs : list A) (i : nat) :
  (i < List.length xs)%nat -> exists x, list_index xs i = Ok x.
Proof.
  intros H. unfold list_index.
  destruct (nth_error xs i) as [x|] eqn:E; [eauto|].
  apply nth_error_None in E. lia.
Qed.

Lemma no_backtick_app (a b : string) :
  no_backtick (a ++ b) = no_backtick a && no_backtick b.
Proof.
  induction a as [|c a IH]; cbn [append no_backtick]; [reflexivity|].
  now rewrite IH, andb_assoc.
Qed.

(** A separator that starts with a backquote is no prefix of a text that
    starts otherwise. *)
Lemma prefix_tick_false (k : string) (c : ascii) (s : string) :
  Ascii.eqb c "`" = false -> String.prefix (String "`" k) (String c s) = false.
Proof.
  intros H. cbn [String.prefix].
  destruct (ascii_dec "`" c) as [<-|N]; [discriminate H|reflexivity].
Qed.

Lemma prefix_tick_no_backtick (k s : string) :
  no_backtick s = true -> String.prefix (String "`" k) s = false.
Proof.
  destruct s as [|c s]; [reflexivity|]. cbn [no_backtick].
  intros H. apply andb_true_iff in H. destruct H as [H _].
  apply prefix_tick_false. now apply negb_true_iff.
Qed.

(** Text without backquotes is collected into the running piece. *)
Lemma split_from_no_backtick (k pre t : string) : forall cur,
  no_backtick pre = true ->
  split_from (String "`" k) 0 cur (pre ++ t)
  = split_from (String "`" k) 0 (cur ++ pre) t.
Proof.
  induction pre as [|c pre IH]; intros cur H; cbn [append].
  - now rewrite append_nil_r.
  - cbn [no_backtick] in H. apply andb_true_iff in H. destruct H as [Hc Hp].
    apply negb_true_iff in Hc. cbn [split_from].
    rewrite (prefix_tick_false k c (pre ++ t) Hc), (IH _ Hp).
    now rewrite append_assoc.
Qed.

Lemma prefix_nil (s : string) : String.prefix "" s = true.
Proof. destruct s; reflexivity. Qed.

(** At a fence the running piece is closed and the fence passed over. *)
Lemma split_from_at_fence_json (cur t : string) :
  split_from fence_json 0 cur (fence_json ++ t)
  = cur :: split_from fence_json 0 "" t.
Proof.
  unfold fence_json. cbn -[split_from].
  cbn [split_from String.length Nat.sub]. cbn [String.prefix].
  repeat (destruct (ascii_dec _ _) as [_|N]; [|now elim N]).
  rewrite prefix_nil. reflexivity.
Qed.

Lemma split_from_at_fence (cur t : string) :
  split_from fence 0 cur (fence ++ t) = cur :: split_from fence 0 "" t.
Proof.
  unfold fence. cbn -[split_from].
  cbn [split_from String.length Nat.sub]. cbn [String.prefix].
  repeat (destruct (ascii_dec _ _) as [_|N]; [|now elim N]).
  rewrite prefix_nil. reflexivity.
Qed.

(** Text without a backquote is collected into the running piece. *)
Lemma split_from_fence_skip (pre t cur : string) :
  no_backtick pre = true ->
  split_from fence 0 cur (pre ++ t) = split_from fence 0 (cur ++ pre) t.
Proof. intros H. exact (split_from_no_backtick _ pre t cur H). Qed.

Lemma split_from_fence_json_skip (pre t cur : string) :
  no_backtick pre = true ->
  split_from fence_json 0 cur (pre ++ t)
  = split_from fence_json 0 (cur ++ pre) t.
Proof. intros H. exact (split_from_no_backtick _ pre t cur H). Qed.

Lemma contains_fence_json_skip (pre t : string) :
  no_backtick pre = true ->
  contains fence_json (pre ++ t) = contains fence_json t.
Proof.
  induction pre as [|c pre IH]; intros H; [reflexivity|].
  cbn [no_backtick] in H. apply andb_true_iff in H. destruct H as [Hc Hp].
  apply negb_true_iff in Hc.
  cbn [append contains]. unfold fence_json at 1.
  now rewrite (prefix_tick_false _ c _ Hc), (IH Hp).
Qed.

(** X7. [clean_json] never raises: the pieces it indexes exist whenever
    a fence occurs; and a reply without a backquote is returned as it
    is, not even stripped. *)
Theorem clean_json_total (response_text : string) :
  (exists cleaned, clean_json response_text = Ok cleaned) /\
  (no_backtick response_text = true ->
   clean_json response_text = Ok response_text).
Proof.
  split.
  - unfold clean_json.
    assert (Hfirst : forall t, exists u, list_index (split t fence) 0 = Ok u).
    { intros t. apply list_index_in_range.
      pose proof (split_from_not_nil fence t 0 ""). unfold split. lia. }
    destruct (contains fence_json response_text) eqn:Ej.
    + destruct (list_index_in_range (split response_text fence_json) 1) as (t & ->).
      { pose proof (split_from_two fence_json response_text) as H.
        unfold split. specialize (H ltac:(discriminate) "" Ej). lia. }
      destruct (Hfirst t) as (u & ->). eauto.
    + destruct (contains fence response_text) eqn:Ef; [|eauto].
      destruct (list_index_in_range (split response_text fence) 1) as (t & ->).
      { pose proof (split_from_two fence response_text) as H.
        unfold split. specialize (H ltac:(discriminate) "" Ef). lia. }
      destruct (Hfirst t) as (u & ->). eauto.
  - intros H. unfold clean_json.
    assert (Hc : forall k, contains (String "`" k) response_text = false).
    { intros k. revert H. induction response_text as [|c s IH]; intros H.
      - reflexivity.
      - cbn [contains]. rewrite (prefix_tick_no_backtick k _ H).
        cbn [no_backtick] in H. apply andb_true_iff in H. destruct H as [_ H].
        now apply IH. }
    unfold fence_json, fence. now rewrite !Hc.
Qed.

Lemma split_fence_no_backtick (s : string) :
  no_backtick s = true -> split s fence = [s].
Proof.
  intros H. unfold split.
  rewrite <- (append_nil_r s) at 1.
  now rewrite (split_from_fence_skip s "" "" H).
Qed.

Lemma contains_fence_json_no_backtick (s : string) :
  no_backtick s = true -> contains fence_json s = false.
Proof.
  intros H. rewrite <- (append_nil_r s).
  now rewrite (contains_fence_json_skip s "" H).
Qed.

(** After the three backquotes of a fence, the tagged fence needs the
    tag. *)
Lemma prefix_fence_json_fence (t : string) :
  String.prefix fence_json (fence ++ t) = String.prefix "json" t.
Proof.
  unfold fence_json, fence. cbn [append String.prefix].
  repeat (destruct (ascii_dec "`" "`") as [_|N]; [|now elim N]). reflexivity.
Qed.

Lemma prefix_fence_json_two (t : string) :
  no_backtick t = true -> String.prefix fence_json ("``" ++ t) = false.
Proof.
  intros H. unfold fence_json. cbn [append String.prefix].
  repeat (destruct (ascii_dec "`" "`") as [_|N]; [|now elim N]).
  now apply prefix_tick_no_backtick.
Qed.

Lemma prefix_fence_json_one (t : string) :
  no_backtick t = true -> String.prefix fence_json ("`" ++ t) = false.
Proof.
  intros H. unfold fence_json. cbn [append String.prefix].
  repeat (destruct (ascii_dec "`" "`") as [_|N]; [|now elim N]).
  now apply prefix_tick_no_backtick.
Qed.

(** A closing fence that no tag follows is no tagged fence: the rest of
    the text stays in the running piece. *)
Lemma split_from_untagged_fence (cur post : string) :
  no_backtick post = true -> String.prefix "json" post = false ->
  split_from fence_json 0 cur (fence ++ post) = [cur ++ fence ++ post].
Proof.
  intros Hn Hj.
  assert (H1 : String.prefix fence_json (fence ++ post) = false)
    by now rewrite prefix_fence_json_fence.
  pose proof (prefix_fence_json_two post Hn) as H2.
  pose proof (prefix_fence_json_one post Hn) as H3.
  unfold fence in *. cbn [append] in *. cbn [split_from].
  rewrite H1, H2, H3.
  rewrite <- (append_nil_r post) at 1.
  rewrite (split_from_fence_json_skip post "" _ Hn). cbn [split_from].
  rewrite !append_assoc. reflexivity.
Qed.

(** The first piece of a text that runs up to a fence. *)
Lemma split_fence_first (body rest : string) :
  no_backtick body = true ->
  exists others, split (body ++ fence ++ rest) fence = body :: others.
Proof.
  intros H. unfold split.
  rewrite (split_from_fence_skip body (fence ++ rest) "" H).
  rewrite split_from_at_fence. cbn [append]. eauto.
Qed.

(** X8. A reply that wraps its document in a fence tagged json, with no
    other backquote around or inside, is cleaned to the document,
    stripped of the white space at its ends; the document is ASCII text,
    on which [strip] is the method of [str]. *)
Theorem clean_json_tagged_fence (pre body post : string) :
  no_backtick pre = true -> no_backtick body = true ->
  no_backtick post = true -> is_ascii body = true ->
  clean_json (pre ++ fence_json ++ body ++ fence ++ post) = Ok (strip body).
Proof.
  intros Hpre Hbody Hpost _. unfold clean_json.
  assert (Hc : contains fence_json (pre ++ fence_json ++ body ++ fence ++ post) = true).
  { apply contains_true_iff. exists pre, (body ++ fence ++ post). reflexivity. }
  rewrite Hc.
  assert (Hs : exists t others,
             split (pre ++ fence_json ++ body ++ fence ++ post) fence_json
             = pre :: t :: others /\
             (t = body \/ t = body ++ fence ++ post)).
  { unfold split.
    rewrite (split_from_fence_json_skip pre _ "" Hpre).
    rewrite split_from_at_fence_json. cbn [append].
    rewrite (split_from_fence_json_skip body _ "" Hbody).
    cbn [append].
    destruct (String.prefix "json" post) eqn:Ej.
    - apply prefix_true_iff in Ej. destruct Ej as (post' & ->).
      change (fence ++ "json" ++ post') with (fence_json ++ post').
      rewrite split_from_at_fence_json. eauto.
    - rewrite (split_from_untagged_fence body post Hpost Ej). eauto. }
  destruct Hs as (t & others & -> & Ht). cbn [list_index nth_error].
  destruct Ht as [->| ->].
  - rewrite (split_fence_no_backtick body Hbody). reflexivity.
  - destruct (split_fence_first body post Hbody) as (others' & ->). reflexivity.
Qed.

(** A tag needs its letters before the next backquote. *)
Lemma prefix_before_backtick (k a b : string) :
  no_backtick k = true ->
  String.prefix k (a ++ String "`" b) = true -> String.prefix k a = true.
Proof.
  revert a. induction k as [|c k IH]; intros a Hk H.
  - apply prefix_nil.
  - cbn [no_backtick] in Hk. apply andb_true_iff in Hk. destruct Hk as [Hc Hk].
    apply negb_true_iff in Hc.
    destruct a as [|c' a]; cbn [append String.prefix] in *.
    + destruct (ascii_dec c "`") as [->|N]; [discriminate Hc|discriminate H].
    + destruct (ascii_dec c c'); [now apply IH|discriminate H].
Qed.

(** Where the tagged fence can occur in a text that starts with a
    fence. *)
Lemma contains_fence_json_fence (t : string) :
  contains fence_json (fence ++ t)
  = String.prefix "json" t
    || String.prefix fence_json ("``" ++ t)
    || String.prefix fence_json ("`" ++ t)
    || contains fence_json t.
Proof.
  rewrite <- prefix_fence_json_fence. unfold fence. cbn [append contains].
  now rewrite !orb_assoc.
Qed.

Lemma contains_fence_json_closing (post : string) :
  no_backtick post = true -> String.prefix "json" post = false ->
  contains fence_json (fence ++ post) = false.
Proof.
  intros Hn Hj.
  now rewrite contains_fence_json_fence, Hj, (prefix_fence_json_two _ Hn),
    (prefix_fence_json_one _ Hn), (contains_fence_json_no_backtick _ Hn).
Qed.

(** X9. A reply that wraps its document in a plain fence, with no other
    backquote around or inside and no json tag after either fence, is
    cleaned to the document, stripped of the white space at its ends;
    the document is ASCII text, on which [strip] is the method of
    [str]. *)
Theorem clean_json_plain_fence (pre body post : string) :
  no_backtick pre = true -> no_backtick body = true ->
  no_backtick post = true -> is_ascii body = true ->
  String.prefix "json" body = false -> String.prefix "json" post = false ->
  clean_json (pre ++ fence ++ body ++ fence ++ post) = Ok (strip body).
Proof.
  intros Hpre Hbody Hpost _ Hjb Hjp. unfold clean_json.
  pose proof (contains_fence_json_closing post Hpost Hjp) as Hpost'.
  assert (Hn : contains fence_json (pre ++ fence ++ body ++ fence ++ post) = false).
  { rewrite (contains_fence_json_skip pre _ Hpre).
    rewrite contains_fence_json_fence.
    assert (H1 : String.prefix "json" (body ++ fence ++ post) = false).
    { destruct (String.prefix "json" (body ++ fence ++ post)) eqn:E; [|reflexivity].
      unfold fence in E. cbn [append] in E.
      apply prefix_before_backtick in E; [congruence|reflexivity]. }
    rewrite H1. cbn [orb].
    destruct body as [|c body'].
    - cbn [append]. unfold fence_json at 1 2, fence at 1 2.
      cbn [append String.prefix].
      repeat (destruct (ascii_dec "`" "`") as [_|N]; [|now elim N]).
      destruct (ascii_dec "j" "`") as [N|_]; [discriminate N|].
      cbn [orb]. exact Hpost'.
    - pose proof Hbody as Hb'.
      cbn [no_backtick] in Hbody. apply andb_true_iff in Hbody.
      destruct Hbody as [Hc Hb]. apply negb_true_iff in Hc.
      unfold fence_json at 1 2. cbn [append String.prefix].
      destruct (ascii_dec "`" c) as [E|_];
        [rewrite <- E in Hc; discriminate Hc|].
      repeat (destruct (ascii_dec "`" "`") as [_|N]; [|now elim N]).
      cbn [orb].
      change (String c (body' ++ fence ++ post))
        with (String c body' ++ fence ++ post).
      rewrite (contains_fence_json_skip (String c body') _ Hb').
      exact Hpost'. }
  rewrite Hn.
  assert (Hc : contains fence (pre ++ fence ++ body ++ fence ++ post) = true).
  { apply contains_true_iff. exists pre, (body ++ fence ++ post). reflexivity. }
  rewrite Hc.
  assert (Hs : exists others,
             split (pre ++ fence ++ body ++ fence ++ post) fence
             = pre :: body :: others).
  { unfold split.
    rewrite (split_from_fence_skip pre _ "" Hpre).
    rewrite split_from_at_fence. cbn [append].
    destruct (split_fence_first body post Hbody) as (others & E).
    unfold split in E. rewrite E. eauto. }
  destruct Hs as (others & ->). cbn [list_index nth_error].
  rewrite (split_fence_no_backtick body Hbody). reflexivity.
Qed.

(** A tagged fence between two sentences. *)
Lemma clean_json_tagged_fence_witness :
  clean_json ("Here is the plan: " ++ fence_json
                ++ (Fixtures.lf ++ Fixtures.document ++ Fixtures.lf)
                ++ fence ++ " Enjoy!")
  = Ok Fixtures.document.
Proof.
  exact (clean_json_tagged_fence "Here is the plan: "
           (Fixtures.lf ++ Fixtures.document ++ Fixtures.lf) " Enjoy!"
           eq_refl eq_refl eq_refl eq_refl).
Defined.

(** A plain fence between two sentences. *)
Lemma clean_json_plain_fence_witness :
  clean_json ("Here is the plan: " ++ fence
                ++ (Fixtures.lf ++ Fixtures.document ++ Fixtures.lf)
                ++ fence ++ " Enjoy!")
  = Ok Fixtures.document.
Proof.
  exact (clean_json_plain_fence "Here is the plan: "
           (Fixtures.lf ++ Fixtures.document ++ Fixtures.lf) " Enjoy!"
           eq_refl eq_refl eq_refl eq_refl eq_refl eq_refl).
Defined.

End fence_props.

(** ** The pipeline of the orchestrator *)

Module pipeline_props.
Import Py metrics orchestrator PySpec OrchestratorSpec LedgerSpec CaseSpec.
Import metrics_facts orchestrator_facts agent_props.



(** With the text service down, the [try] blocks of the two agents
    raise its exception at once. *)
Lemma extract_service_down (env : Env)
    (validate : list (string * json) -> result intent_extractor.TravelIntent)
    (user_query : string) (context : option (list (string * json)))
    (w : World) (e : exn) :
  service_down env e ->
  exists r w',
    intent_extractor.extract env validate user_query context w
    = (Ok (intent_extractor.TravelIntent_with user_query 0.1), w') /\
    requests w' = requests w ++ [r] /\
    operation r = "intent_extraction"%string /\
    input_tokens r = 0%Z /\ output_tokens r = 0%Z /\
    success r = false /\ error r = Some (str_of_exn e).
Proof.
  intros D. unfold intent_extractor.extract, bind, try_except.
  destruct (start_request_ok env w) as (w1 & Hs & Hreq1 & _). rewrite Hs.
  unfold intent_extractor.extract_try, bind, create_message. rewrite (D (events w1)).
  destruct (end_request_zero_tokens env "intent_extraction" (PRIMARY_MODEL env)
              false (Some (str_of_exn e)) (next_event w1))
    as (r & w2 & Hr & Hreq2 & Hop & Hi & Ho & Hsucc & Herr).
  rewrite Hr. unfold ret. exists r, w2.
  split; [reflexivity|]. cbn [requests next_event] in Hreq2.
  split; [congruence|]. repeat split; assumption.
Qed.

Lemma plan_trip_service_down (env : Env)
    (validate : json -> result trip_planner.TripPlan)
    (intent : intent_extractor.TravelIntent)
    (context : option (list (string * json))) (w : World) (e : exn) :
  service_down env e ->
  exists r w',
    trip_planner.plan_trip env validate intent context w = (Raise e, w') /\
    requests w' = requests w ++ [r] /\
    operation r = "trip_planning"%string /\
    input_tokens r = 0%Z /\ output_tokens r = 0%Z /\
    success r = false /\ error r = Some (str_of_exn e).
Proof.
  intros D. unfold trip_planner.plan_trip, bind, try_except.
  destruct (start_request_ok env w) as (w1 & Hs & Hreq1 & _). rewrite Hs.
  unfold trip_planner.plan_trip_try, bind, create_message. rewrite (D (events w1)).
  destruct (end_request_zero_tokens env "trip_planning" (PRIMARY_MODEL env)
              false (Some (str_of_exn e)) (next_event w1))
    as (r & w2 & Hr & Hreq2 & Hop & Hi & Ho & Hsucc & Herr).
  rewrite Hr. unfold raise. exists r, w2.
  split; [reflexivity|]. cbn [requests next_event] in Hreq2.
  split; [congruence|]. repeat split; assumption.
Qed.

(** The whole pipeline, with the text service down. *)
Lemma process_query_down (env : Env)
    (TravelIntent_validate :
       list (string * json) -> result intent_extractor.TravelIntent)
    (TripPlan_validate : json -> result trip_planner.TripPlan)
    (amadeus : nat -> flights.SearchOutcome)
    (use_real_apis : bool) (user_query : string) (include_flights : bool)
    (context : option (list (string * json))) (w : World) (e : exn) :
  service_down env e ->
  exists r1 r2 w',
    process_query env TravelIntent_validate TripPlan_validate amadeus
      use_real_apis user_query include_flights context w = (Raise e, w') /\
    requests w' = requests w ++ [r1; r2] /\
    operation r1 = "intent_extraction"%string /\
    operation r2 = "trip_planning"%string /\
    success r1 = false /\ success r2 = false /\
    error r1 = Some (str_of_exn e) /\ error r2 = Some (str_of_exn e).
Proof.
  intros D. unfold process_query, bind, now.
  destruct (extract_service_down env TravelIntent_validate user_query context
              (next_event w) e D)
    as (r1 & w1 & E1 & Hreq1 & Hop1 & _ & _ & Hs1 & He1).
  rewrite E1. cbn [requests next_event] in Hreq1.
  destruct (plan_trip_service_down env TripPlan_validate
              (intent_extractor.TravelIntent_with user_query 0.1) context w1 e D)
    as (r2 & w2 & E2 & Hreq2 & Hop2 & _ & _ & Hs2 & He2).
  rewrite E2. exists r1, r2, w2. split; [reflexivity|].
  split; [rewrite Hreq2, Hreq1, <- app_assoc; reflexivity|].
  repeat split; assumption.
Qed.

(** X11. When every call of the text service fails, [process_query]
    raises the exception of the service, whatever the query: the
    fail-soft intent of the extraction does not save the request, since
    the planning calls the same service.  The ledger gains two failures
    that carry the text of the exception. *)
Theorem process_query_service_down (env : Env)
    (TravelIntent_validate :
       list (string * json) -> result intent_extractor.TravelIntent)
    (TripPlan_validate : json -> result trip_planner.TripPlan)
    (amadeus : nat -> flights.SearchOutcome)
    (use_real_apis : bool) (user_query : string) (include_flights : bool)
    (context : option (list (string * json))) (w : World) (e : exn) :
  service_down env e ->
  exists r1 r2 w',
    process_query env TravelIntent_validate TripPlan_validate amadeus
      use_real_apis user_query include_flights context w = (Raise e, w') /\
    requests w' = requests w ++ [r1; r2] /\
    operation r1 = "intent_extraction"%string /\
    operation r2 = "trip_planning"%string /\
    success r1 = false /\ success r2 = false /\
    error r1 = Some (str_of_exn e) /\ error r2 = Some (str_of_exn e).
Proof. apply process_query_down. Qed.

(** The steps behind a recommendation. *)
Lemma process_query_steps (env : Env)
    (TravelIntent_validate :
       list (string * json) -> result intent_extractor.TravelIntent)
    (TripPlan_validate : json -> result trip_planner.TripPlan)
    (amadeus : nat -> flights.SearchOutcome)
    (use_real_apis : bool) (user_query : string) (include_flights : bool)
    (context : option (list (string * json))) (w w' : World)
    (rec : TripRecommendation) :
  process_query env TravelIntent_validate TripPlan_validate amadeus
    use_real_apis user_query include_flights context w = (Ok rec, w') ->
  exists w1 w2,
    search_step amadeus use_real_apis include_flights (intent rec) context w1
    = (Ok (outbound_flights rec), w2) /\
    cost_step (intent rec) (trip_plan rec) (outbound_flights rec)
    = Ok (total_cost_estimate rec) /\
    return_flights rec = None.
Proof.
  unfold process_query, bind, now.
  destruct (intent_extractor.extract _ _ _ _ _) as [[i|e] w1]; [|discriminate].
  destruct (trip_planner.plan_trip _ _ _ _ _) as [[p|e] w2]; [|discriminate].
  destruct (search_step _ _ _ _ _ _) as [[f|e] w3] eqn:Hs; [|discriminate].
  unfold lift.
  destruct (cost_step i p f) as [c|e] eqn:Hc; [|discriminate].
  destruct (int_truediv _ _) as [t|e]; [|discriminate].
  unfold ret. intros [= <- <-]. cbn. eauto.
Qed.

(** X12. What an orchestrator whose [use_real_apis] is false puts into
    a recommendation: never a return search; when flights are requested
    and the intent has a destination and a start date, the mock result
    for the start date, three offers of which the cheapest costs 385,
    between two airports that, for an origin and a destination written
    in ASCII, are those resolved from the origin of the context and from
    the destination; and the plan's cost plus 385 per traveller, doubled
    when the intent has an end date; otherwise no search and the plan's
    cost. *)
Theorem mock_flight_cost (env : Env)
    (TravelIntent_validate :
       list (string * json) -> result intent_extractor.TravelIntent)
    (TripPlan_validate : json -> result trip_planner.TripPlan)
    (amadeus : nat -> flights.SearchOutcome)
    (user_query : string) (include_flights : bool)
    (context : option (list (string * json))) (w w' : World)
    (rec : TripRecommendation) :
  process_query env TravelIntent_validate TripPlan_validate amadeus
    false user_query include_flights context w = (Ok rec, w') ->
  return_flights rec = None /\
  if search_performed include_flights (intent rec) then
    exists location destination start_date found travelers,
      origin_location context = Ok location /\
      intent_extractor.destination (intent rec) = Some destination /\
      intent_extractor.start_date (intent rec) = Some start_date /\
      outbound_flights rec = Some found /\
      found = flights.get_mock_flights (flights.origin found)
                (flights.destination found) start_date /\
      (is_ascii location = true ->
       flights.origin found = _get_airport_code location) /\
      (is_ascii destination = true ->
       flights.destination found = _get_airport_code destination) /\
      float_of_int (intent_extractor.num_travelers (intent rec)) = Ok travelers /\
      total_cost_estimate rec
      = (trip_planner.total_estimated_cost (trip_plan rec)
         + (if has_end_date (intent rec) then 385 * travelers * 2
            else 385 * travelers))%float
  else
    outbound_flights rec = None /\
    total_cost_estimate rec = trip_planner.total_estimated_cost (trip_plan rec).
Proof.
  intros H.
  destruct (process_query_steps _ _ _ _ _ _ _ _ _ _ _ H)
    as (w1 & w2 & Hs & Hc & Hr).
  split; [exact Hr|].
  unfold search_step, search_performed in *.
  destruct (intent_extractor.destination (intent rec)) as [d|];
    destruct (intent_extractor.start_date (intent rec)) as [sd|];
    cbn [opt_str_truthy];
    rewrite ?andb_false_r;
    try (unfold ret in Hs; injection Hs as Hf _; rewrite <- Hf in *;
         cbn [cost_step] in Hc; injection Hc as <-; split; reflexivity).
  destruct (include_flights && str_truthy d && str_truthy sd).
  - unfold bind, lift in Hs.
    destruct (origin_location context) as [loc|e]; [|discriminate Hs].
    unfold ret in Hs. injection Hs as Hf _. rewrite <- Hf in Hc.
    unfold cost_step, float_mul_int in Hc.
    cbn [flights.offers flights.get_mock_flights] in Hc.
    destruct (float_of_int (intent_extractor.num_travelers (intent rec)))
      as [n|e]; [|discriminate Hc].
    injection Hc as <-.
    exists loc, d, sd,
      (flights.get_mock_flights (_get_airport_code loc) (_get_airport_code d) sd),
      n.
    split; [reflexivity|]. split; [reflexivity|]. split; [reflexivity|].
    split; [symmetry; exact Hf|]. split; [reflexivity|].
    split; [intros _; reflexivity|]. split; [intros _; reflexivity|].
    split; [reflexivity|].
    unfold has_end_date.
    destruct (opt_str_truthy (intent_extractor.end_date (intent rec)));
      reflexivity.
  - unfold ret in Hs. injection Hs as Hf _. rewrite <- Hf in *.
    cbn [cost_step] in Hc. injection Hc as <-. split; reflexivity.
Qed.

(** A letter folded to upper case folds back to the same lower case. *)
Lemma lower_upper_ascii (c : ascii) :
  lower_ascii (upper_ascii c) = lower_ascii c.
Proof.
  destruct c as [[] [] [] [] [] [] [] []]; reflexivity.
Qed.

Lemma lower_lower_ascii (c : ascii) :
  lower_ascii (lower_ascii c) = lower_ascii c.
Proof.
  destruct c as [[] [] [] [] [] [] [] []]; reflexivity.
Qed.

Lemma lower_upper (s : string) : lower (upper s) = lower s.
Proof.
  induction s as [|c s IH]; [reflexivity|].
  cbn [upper lower]. now rewrite lower_upper_ascii, IH.
Qed.

Lemma lower_lower (s : string) : lower (lower s) = lower s.
Proof.
  induction s as [|c s IH]; [reflexivity|].
  cbn [lower]. now rewrite lower_lower_ascii, IH.
Qed.

(** X13. The airport of a location does not depend on the case of its
    letters: the location in upper case, or in lower case, resolves to
    the same code. *)
Theorem airport_code_ignores_case (location : string) :
  is_ascii location = true ->
  _get_airport_code (upper location) = _get_airport_code location /\
  _get_airport_code (lower location) = _get_airport_code location.
Proof.
  intros _. unfold _get_airport_code.
  now rewrite lower_upper, lower_lower.
Qed.

(** X14. A flight search that fails does not fail the request, and
    costs nothing: a recommendation whose outbound search reports no
    success comes from the real search, has no offer and an error
    message, searched for the start date of the intent, and its total
    cost is the cost of the plan. *)
Theorem failed_search_recommendation (env : Env)
    (TravelIntent_validate :
       list (string * json) -> result intent_extractor.TravelIntent)
    (TripPlan_validate : json -> result trip_planner.TripPlan)
    (amadeus : nat -> flights.SearchOutcome)
    (use_real_apis : bool) (user_query : string) (include_flights : bool)
    (context : option (list (string * json))) (w w' : World)
    (rec : TripRecommendation) (found : flights.FlightSearchResult) :
  process_query env TravelIntent_validate TripPlan_validate amadeus
    use_real_apis user_query include_flights context w = (Ok rec, w') ->
  outbound_flights rec = Some found ->
  flights.search_success found = false ->
  use_real_apis = true /\
  flights.offers found = [] /\
  (exists message, flights.error_message found = Some message) /\
  intent_extractor.start_date (intent rec) = Some (flights.date found) /\
  total_cost_estimate rec = trip_planner.total_estimated_cost (trip_plan rec).
Proof.
  intros H Hf Hfail.
  destruct (process_query_steps _ _ _ _ _ _ _ _ _ _ _ H)
    as (w1 & w2 & Hs & Hc & _).
  rewrite Hf in Hs, Hc. unfold search_step in Hs.
  destruct (intent_extractor.destination (intent rec)) as [d|];
    [|destruct (intent_extractor.start_date (intent rec)); discriminate Hs].
  destruct (intent_extractor.start_date (intent rec)) as [sd|];
    [|discriminate Hs].
  destruct (include_flights && str_truthy d && str_truthy sd);
    [|discriminate Hs].
  unfold bind, lift in Hs.
  destruct (origin_location context) as [loc|e]; [|discriminate Hs].
  destruct use_real_apis.
  - unfold flights.search_flights, ret in Hs. injection Hs as Hfound _.
    split; [reflexivity|].
    assert (Ho : flights.offers found = []).
    { rewrite <- Hfound in Hfail |- *.
      destruct (amadeus (events w1)); cbn in Hfail |- *;
        [reflexivity|discriminate Hfail|reflexivity|reflexivity]. }
    split; [exact Ho|]. split.
    + rewrite <- Hfound in Hfail |- *.
      destruct (amadeus (events w1)); cbn in Hfail |- *;
        try discriminate Hfail; eauto.
    + split.
      * rewrite <- Hfound. destruct (amadeus (events w1)); reflexivity.
      * unfold cost_step in Hc. rewrite Ho in Hc. now injection Hc as <-.
  - unfold ret in Hs. injection Hs as Hfound _.
    rewrite <- Hfound in Hfail. discriminate Hfail.
Qed.

(** The request for Bangkok, with the text service unreachable. *)
Lemma process_query_service_down_witness :
  service_down Fixtures.offline Fixtures.connection_error /\
  exists r1 r2 w',
    process_query Fixtures.offline (Fixtures.intent_from Fixtures.bangkok_intent)
      (fun _ => Ok Fixtures.three_day_plan) Fixtures.no_network false
      "3 days in Bangkok" true None Fixtures.fresh
    = (Raise Fixtures.connection_error, w') /\
    requests w' = requests Fixtures.fresh ++ [r1; r2] /\
    operation r1 = "intent_extraction"%string /\
    operation r2 = "trip_planning"%string /\
    success r1 = false /\ success r2 = false /\
    error r1 = Some (str_of_exn Fixtures.connection_error) /\
    error r2 = Some (str_of_exn Fixtures.connection_error).
Proof.
  assert (D : service_down Fixtures.offline Fixtures.connection_error)
    by (intros n; reflexivity).
  split; [exact D|].
  exact (process_query_service_down Fixtures.offline _ _ _ false _ true None
           Fixtures.fresh _ D).
Defined.

(** The request for Bangkok by two travellers with an end date: two
    legs at 385 each, from New York. *)
Lemma mock_flight_cost_witness :
  exists rec w' found,
    process_query Fixtures.online (Fixtures.intent_from Fixtures.bangkok_intent)
      (fun _ => Ok Fixtures.three_day_plan) Fixtures.no_network false
      "3 days in Bangkok" true None Fixtures.fresh = (Ok rec, w') /\
    return_flights rec = None /\
    outbound_flights rec = Some found /\
    flights.origin found = "JFK"%string /\
    flights.destination found = "BKK"%string /\
    total_cost_estimate rec = (750 + 385 * 2 * 2)%float.
Proof.
  destruct (process_query Fixtures.online
              (Fixtures.intent_from Fixtures.bangkok_intent)
              (fun _ => Ok Fixtures.three_day_plan) Fixtures.no_network false
              "3 days in Bangkok" true None Fixtures.fresh)
    as [[rec|e] w'] eqn:H.
  - destruct (mock_flight_cost _ _ _ _ _ _ _ _ _ _ H) as [R T].
    vm_compute in H. injection H as <- <-.
    cbn in T.
    destruct T as (loc & d & sd & found & n
                   & Hl & Hd & Hsd & Ho & _ & Hfo & Hfd & Hn & Ht).
    injection Hl as <-. injection Hd as <-. injection Hsd as <-.
    vm_compute in Hn. injection Hn as <-.
    do 2 eexists. exists found. split; [reflexivity|].
    split; [exact R|]. split; [exact Ho|].
    split; [exact (Hfo eq_refl)|]. split; [exact (Hfd eq_refl)|exact Ht].
  - vm_compute in H. discriminate H.
Defined.

(** Bangkok in capitals resolves as Bangkok does. *)
Lemma airport_code_ignores_case_witness :
  is_ascii "Bangkok, Thailand" = true /\
  _get_airport_code (upper "Bangkok, Thailand")
  = _get_airport_code "Bangkok, Thailand" /\
  _get_airport_code (lower "Bangkok, Thailand")
  = _get_airport_code "Bangkok, Thailand".
Proof.
  split; [reflexivity|].
  exact (airport_code_ignores_case "Bangkok, Thailand" eq_refl).
Defined.

(** The request for Bangkok with the real search and no access token. *)
Lemma failed_search_recommendation_witness :
  exists rec w' found,
    process_query Fixtures.online (Fixtures.intent_from Fixtures.bangkok_intent)
      (fun _ => Ok Fixtures.three_day_plan) Fixtures.no_network true
      "3 days in Bangkok" true None Fixtures.fresh = (Ok rec, w') /\
    outbound_flights rec = Some found /\
    flights.search_success found = false /\
    flights.offers found = [] /\
    total_cost_estimate rec = 750%float.
Proof.
  destruct (process_query Fixtures.online
              (Fixtures.intent_from Fixtures.bangkok_intent)
              (fun _ => Ok Fixtures.three_day_plan) Fixtures.no_network true
              "3 days in Bangkok" true None Fixtures.fresh)
    as [[rec|e] w'] eqn:H.
  - pose proof (fun found =>
                  failed_search_recommendation _ _ _ _ _ _ _ _ _ _ _ found H)
      as T.
    vm_compute in H. injection H as <- <-.
    do 3 eexists. split; [reflexivity|].
    split; [reflexivity|]. split; [reflexivity|].
    destruct (T _ eq_refl eq_refl) as (_ & Ho & _ & _ & Ht).
    split; [exact Ho|exact Ht].
  - vm_compute in H. discriminate H.
Defined.

End pipeline_props.

(** ** The judge of the evaluator *)

Module judge_props.
Import Py metrics evaluator PySpec EvaluatorSpec LedgerSpec.
Import metrics_facts evaluator_facts tracker_props.

(** The [try] block of [_run_llm_evaluation] raises with the ledger as
    it was, or returns after it has recorded a success. *)
Lemma llm_scores_try_cases (env : Env) (w : World) :
  (exists e w', llm_scores_try env w = (Raise e, w') /\
                requests w' = requests w) \/
  (exists scores r w',
     llm_scores_try env w = (Ok scores, w') /\
     requests w' = requests w ++ [r] /\
     operation r = "llm_evaluation"%string /\ success r = true).
Proof.
  unfold llm_scores_try, bind, create_message, lift.
  destruct (messages_create env (events w)) as [resp|e]; [|left; eauto].
  destruct (list_index (content resp) 0) as [t|e]; [|left; eauto].
  destruct (clean_json t) as [c|e]; [|left; eauto].
  destruct (json_loads env c) as [doc|e]; [|left; eauto].
  destruct (get_default doc "intent_match_score" (JFloat 7.0)) as [v1|e];
    [|left; eauto].
  destruct (float_of_json env v1) as [im|e]; [|left; eauto].
  destruct (get_default doc "feasibility_score" (JFloat 7.0)) as [v2|e];
    [|left; eauto].
  destruct (float_of_json env v2) as [fs|e]; [|left; eauto].
  destruct (end_request_cases env "llm_evaluation" (SECONDARY_MODEL env)
              (usage_input_tokens resp) (usage_output_tokens resp) true None
              (next_event w))
    as [(e & w1 & E & Hreq)|(r & w1 & E & Hreq & _ & Hop & _ & _ & _ & Hs & _)];
    rewrite E.
  - left. eauto.
  - right. exists (im, fs), r, w1. unfold ret. repeat split; assumption.
Qed.

(** One call of the judge: an exception of the sample day leaves it
    with the request started and nothing recorded; otherwise the call
    returns and leaves one entry in the ledger, and a failure leaves the
    two default scores. *)
Lemma _run_llm_evaluation_cases (env : Env) (dump : trip_planner.DayPlan -> result string)
    (rec : orchestrator.TripRecommendation) (m : EvaluationMetrics)
    (w : World) :
  match sample_day dump rec with
  | Raise e =>
      _run_llm_evaluation env dump rec m w
      = (Raise e, {| requests := requests w;
                     _start_time := Some (time_time env (events w));
                     events := S (events w) |})
  | Ok _ =>
      exists im fs r w',
        _run_llm_evaluation env dump rec m w
        = (Ok (set_feasibility_score fs (set_intent_match_score im m)), w') /\
        requests w' = requests w ++ [r] /\
        operation r = "llm_evaluation"%string /\
        (success r = false ->
         im = 6.0%float /\ fs = 6.0%float /\
         input_tokens r = 0%Z /\ output_tokens r = 0%Z)
  end.
Proof.
  unfold _run_llm_evaluation, bind, try_except, lift.
  destruct (sample_day dump rec) as [sample|e]; [|reflexivity].
  destruct (start_request_ok env w) as (w1 & Hs & Hreq1 & _). rewrite Hs.
  destruct (llm_scores_try_cases env w1)
    as [(e & w2 & E & Hreq2)|([im fs] & r & w2 & E & Hreq2 & Hop & Hsucc)];
    rewrite E.
  - destruct (end_request_zero_tokens env "llm_evaluation" (SECONDARY_MODEL env)
                false (Some (str_of_exn e)) w2)
      as (r & w3 & Hr & Hreq3 & Hop & Hi & Ho & Hsucc & Herr).
    rewrite Hr. unfold ret. cbn [fst snd].
    exists 6.0%float, 6.0%float, r, w3.
    split; [reflexivity|]. split; [congruence|]. split; [assumption|].
    intros _. repeat split; assumption.
  - unfold ret. cbn [fst snd]. exists im, fs, r, w2.
    split; [reflexivity|]. split; [congruence|]. split; [assumption|].
    intros F. congruence.
Qed.

(** The heuristic stage leaves alone what it does not compute. *)
Lemma append_errors_judged (msgs : list string) : forall m,
  intent_match_score (append_errors msgs m) = intent_match_score m /\
  feasibility_score (append_errors msgs m) = feasibility_score m /\
  latency_ms (append_errors msgs m) = latency_ms m /\
  cost_usd (append_errors msgs m) = cost_usd m /\
  evaluated_at (append_errors msgs m) = evaluated_at m.
Proof.
  induction msgs as [|s msgs IH]; intros m; cbn [append_errors fold_left].
  - repeat split.
  - apply (IH (append_error s m)).
Qed.

Lemma _run_heuristic_checks_frame (rec : orchestrator.TripRecommendation)
    (m : EvaluationMetrics) :
  let h := _run_heuristic_checks rec m in
  intent_match_score h = intent_match_score m /\
  feasibility_score h = feasibility_score m /\
  latency_ms h = latency_ms m /\
  cost_usd h = cost_usd m /\
  evaluated_at h = evaluated_at m.
Proof.
  unfold _run_heuristic_checks.
  rewrite check_completeness_eq, check_budget_eq, check_coherence_eq.
  cbn [set_coherence_score intent_match_score feasibility_score latency_ms
       cost_usd evaluated_at].
  match goal with
  | |- context [append_errors ?l1 (append_errors ?l2 ?x)] =>
      destruct (append_errors_judged l1 (append_errors l2 x))
        as (A1 & A2 & A3 & A4 & A5);
      destruct (append_errors_judged l2 x) as (B1 & B2 & B3 & B4 & B5)
  end.
  rewrite A1, A2, A3, A4, A5, B1, B2, B3, B4, B5.
  cbn [set_budget_adherence_score set_completeness_score
       set_has_critical_errors intent_match_score feasibility_score latency_ms
       cost_usd evaluated_at].
  destruct (append_errors_judged (completeness_messages (orchestrator.trip_plan rec)) m)
    as (C1 & C2 & C3 & C4 & C5).
  repeat split; assumption.
Qed.

(** The summary reads the ledger only. *)
Lemma get_summary_ledger (env : Env) (w w' : World) :
  requests w' = requests w -> get_summary env w' = get_summary env w.
Proof. intros H. unfold get_summary. now rewrite H. Qed.

(** What one evaluation does besides the heuristic checks. *)
Lemma evaluate_cases (env : Env) (dump : trip_planner.DayPlan -> result string)
    (rec : orchestrator.TripRecommendation) (w : World) :
  match sample_day dump rec with
  | Raise e =>
      no_days rec = false /\
      evaluate env dump rec w
      = (Raise e, {| requests := requests w;
                     _start_time := Some (time_time env (S (events w)));
                     events := S (S (events w)) |})
  | Ok _ =>
      exists m w',
        evaluate env dump rec w = (Ok m, w') /\
        cost_usd m = metrics.total_cost_usd (get_summary env w) /\
        latency_ms m = orchestrator.generation_time_ms rec /\
        evaluated_at m = isoformat env (datetime_now env (events w)) /\
        if no_days rec then
          requests w' = requests w /\ events w' = S (events w) /\
          intent_match_score m = 0%float /\ feasibility_score m = 0%float
        else
          exists r,
            requests w' = requests w ++ [r] /\
            operation r = "llm_evaluation"%string /\
            (success r = false ->
             intent_match_score m = 6.0%float /\
             feasibility_score m = 6.0%float /\
             input_tokens r = 0%Z /\ output_tokens r = 0%Z)
  end.
Proof.
  unfold evaluate, bind, now, _calculate_generation_cost.
  set (m0 := EvaluationMetrics_with _ _ _).
  destruct (_run_heuristic_checks_fields rec m0) as (_ & Hc & _).
  destruct (_run_heuristic_checks_frame rec m0) as (Him & Hfs & Hl & Hco & He).
  cbn [orb has_critical_errors m0 EvaluationMetrics_with] in Hc.
  cbn [m0 EvaluationMetrics_with latency_ms cost_usd evaluated_at] in Hl, Hco, He.
  rewrite (get_summary_ledger env w (next_event w) eq_refl) in Hco.
  rewrite Hc.
  pose proof (_run_llm_evaluation_cases env dump rec
                (_run_heuristic_checks rec m0) (next_event w)) as J.
  destruct (sample_day dump rec) as [sample|e] eqn:Hd.
  - destruct (no_days rec); cbn [negb].
    + unfold ret. do 2 eexists. split; [reflexivity|].
      cbn [set_grade set_overall_score intent_match_score feasibility_score
           latency_ms cost_usd evaluated_at requests events next_event].
      rewrite Him, Hfs. repeat split; assumption.
    + destruct J as (im & fs & r & w' & E & Hreq & Hop & Hf).
      rewrite E. unfold ret. do 2 eexists. split; [reflexivity|].
      cbn [set_grade set_overall_score set_feasibility_score
           set_intent_match_score latency_ms cost_usd evaluated_at].
      split; [assumption|]. split; [assumption|]. split; [assumption|].
      exists r. split; [exact Hreq|]. split; [exact Hop|].
      intros F. destruct (Hf F) as (-> & -> & Hi & Ho).
      cbn [set_grade set_overall_score set_feasibility_score
           set_intent_match_score intent_match_score feasibility_score].
      repeat split; assumption.
  - assert (Hn : no_days rec = false).
    { unfold sample_day in Hd. unfold no_days.
      destruct (trip_planner.daily_plans (orchestrator.trip_plan rec));
        [discriminate Hd|reflexivity]. }
    rewrite Hn. cbn [negb]. rewrite J. split; reflexivity.
Qed.

(** X15. The judge is called exactly when the plan has days.  Without
    days [evaluate] returns, calls no service and adds nothing to the
    ledger, and the two judged scores stay 0.  With days, the prompt is
    built from the first day before the [try]: when its serialisation
    raises, [evaluate] raises that exception with the ledger as it was
    and the request left started; when it succeeds, [evaluate] returns
    after adding one entry, tagged llm_evaluation, and when that entry
    is a failure the two judged scores are the defaults 6.0. *)
Theorem evaluate_judge_call (env : Env) (dump : trip_planner.DayPlan -> result string)
    (rec : orchestrator.TripRecommendation) (w : World) :
  match sample_day dump rec with
  | Raise e =>
      no_days rec = false /\
      exists w',
        evaluate env dump rec w = (Raise e, w') /\
        requests w' = requests w /\ _start_time w' <> None
  | Ok _ =>
      exists m w',
        evaluate env dump rec w = (Ok m, w') /\
        if no_days rec then
          requests w' = requests w /\ events w' = S (events w) /\
          intent_match_score m = 0%float /\ feasibility_score m = 0%float
        else
          exists r,
            requests w' = requests w ++ [r] /\
            operation r = "llm_evaluation"%string /\
            (success r = false ->
             intent_match_score m = 6.0%float /\
             feasibility_score m = 6.0%float /\
             input_tokens r = 0%Z /\ output_tokens r = 0%Z)
  end.
Proof.
  pose proof (evaluate_cases env dump rec w) as C.
  destruct (sample_day dump rec) as [sample|e].
  - destruct C as (m & w' & E & _ & _ & _ & H).
    exists m, w'. split; assumption.
  - destruct C as (Hn & E). split; [exact Hn|].
    eexists. split; [exact E|]. split; [reflexivity|discriminate].
Qed.

(** X16. The cost an evaluation reports is the total of the ledger as
    it was when [evaluate] was called, so without the call of the judge
    that this evaluation makes; its latency is the generation time of
    the recommendation, and its date the time of the call. *)
Theorem evaluate_cost_snapshot (env : Env) (dump : trip_planner.DayPlan -> result string)
    (rec : orchestrator.TripRecommendation) (w w' : World)
    (m : EvaluationMetrics) :
  evaluate env dump rec w = (Ok m, w') ->
  cost_usd m = metrics.total_cost_usd (get_summary env w) /\
  latency_ms m = orchestrator.generation_time_ms rec /\
  evaluated_at m = isoformat env (datetime_now env (events w)).
Proof.
  intros H. pose proof (evaluate_cases env dump rec w) as C.
  destruct (sample_day dump rec) as [sample|e].
  - destruct C as (m1 & w1 & E & Hc & Hl & He & _).
    rewrite E in H. injection H as <- _. repeat split; assumption.
  - destruct C as (_ & E). rewrite E in H. discriminate H.
Qed.

(** The cost reported for the plan with day fields 1, 2, 4, evaluated in
    a fresh process: the ledger is empty, the cost 0. *)
Lemma evaluate_cost_snapshot_witness :
  exists m w',
    evaluate Fixtures.online Fixtures.dump_day
      (Fixtures.budgeted 1100 Fixtures.gap_plan) Fixtures.fresh = (Ok m, w') /\
    cost_usd m = 0%float /\
    latency_ms m = 2250%float /\
    requests w' <> [].
Proof.
  destruct (evaluate Fixtures.online Fixtures.dump_day
              (Fixtures.budgeted 1100 Fixtures.gap_plan) Fixtures.fresh)
    as [[m|e] w'] eqn:H.
  - exists m, w'. split; [reflexivity|].
    destruct (evaluate_cost_snapshot _ _ _ _ _ _ H) as (Hc & Hl & _).
    split; [rewrite Hc; reflexivity|]. split; [rewrite Hl; reflexivity|].
    vm_compute in H. injection H as _ <-. discriminate.
  - vm_compute in H. discriminate H.
Defined.

(** The evaluations of a batch raise only what a sample day raises. *)
Lemma evaluate_each_raises (env : Env) (dump : trip_planner.DayPlan -> result string)
    (recs : list orchestrator.TripRecommendation) :
  forall w w' e,
    evaluate_each env dump recs w = (Raise e, w') ->
    exists rec, In rec recs /\ sample_day dump rec = Raise e.
Proof.
  induction recs as [|rec rest IH]; intros w w' e.
  - cbn [evaluate_each]. unfold ret. discriminate.
  - cbn [evaluate_each]. unfold bind.
    pose proof (evaluate_cases env dump rec w) as C.
    destruct (sample_day dump rec) as [sample|e0] eqn:Hd.
    + destruct C as (m & w1 & -> & _).
      destruct (evaluate_each env dump rest w1) as [[ms|e1] w2] eqn:E.
      * unfold ret. discriminate.
      * intros [= <- _]. destruct (IH _ _ _ E) as (r & Hin & Hr).
        exists r. split; [right; exact Hin|exact Hr].
    + destruct C as (_ & ->). intros [= <- _].
      exists rec. split; [left; reflexivity|exact Hd].
Qed.

Lemma batch_evaluate_raises (env : Env) (dump : trip_planner.DayPlan -> result string)
    (recs : list orchestrator.TripRecommendation) (w w' : World) (e : exn) :
  recs <> [] ->
  batch_evaluate env dump recs w = (Raise e, w') ->
  exists rec, In rec recs /\ sample_day dump rec = Raise e.
Proof.
  intros Hn. unfold batch_evaluate, bind.
  destruct (evaluate_each env dump recs w) as [[results|e1] w1] eqn:E.
  - pose proof (evaluate_each_inv env dump recs _ _ _ E) as Hl.
    destruct results as [|m ms];
      [destruct recs; [contradiction|discriminate Hl]|].
    cbn [map]. unfold lift.
    destruct (mean_nonempty env (overall_score m) (map overall_score ms)) as (a & ->).
    destruct (mean_nonempty env (latency_ms m) (map latency_ms ms)) as (l & ->).
    unfold ret. discriminate.
  - intros [= <- _]. exact (evaluate_each_raises env dump recs _ _ _ E).
Qed.

End judge_props.

(** ** Grades and their histogram *)

Module grade_props.
Import Py metrics evaluator PySpec EvaluatorSpec GradeSpec.
Import FloatFacts evaluator_facts agent_props.

(** A float that a positive finite constant is at most stays above it
    when it grows. *)
Lemma leb_const_trans (c a b : float) (mc : positive) (ec : Z) :
  Prim2SF c = S754_finite false mc ec ->
  (c <=? a)%float = true -> (a <=? b)%float = true -> (c <=? b)%float = true.
Proof.
  intros Hc. rewrite !leb_spec, Hc. unfold SFleb.
  destruct (Prim2SF a) as [sa|sa| |sa ma ea], (Prim2SF b) as [sb|sb| |sb mb eb];
    simpl; try discriminate; try (intros _ _; reflexivity);
    try (destruct sa; discriminate); try (destruct sb; discriminate);
    try (destruct sa, sb; discriminate || (intros _ _; reflexivity)).
  all: try (destruct sa; [discriminate|]);
    try (destruct sb; [discriminate || (intros _; discriminate)|]).
  change (Pos.compare_cont Eq mc ma) with (Pos.compare mc ma).
  change (Pos.compare_cont Eq ma mb) with (Pos.compare ma mb).
  change (Pos.compare_cont Eq mc mb) with (Pos.compare mc mb).
  destruct (Z.compare_spec ec ea) as [E1|E1|E1];
    destruct (Z.compare_spec ea eb) as [E2|E2|E2];
    destruct (Z.compare_spec ec eb) as [E3|E3|E3];
    try lia; try (intros _ _; reflexivity);
    try (intros H; discriminate H); try (intros _ H; discriminate H).
  destruct (Pos.compare_spec mc ma) as [F1|F1|F1];
    destruct (Pos.compare_spec ma mb) as [F2|F2|F2];
    destruct (Pos.compare_spec mc mb) as [F3|F3|F3];
    try lia; try (intros _ _; reflexivity);
    try (intros H; discriminate H); try (intros _ H; discriminate H).
Qed.

(** X17. A higher score never gets a worse grade. *)
Theorem score_to_grade_monotone (a b : float) :
  (a <=? b)%float = true ->
  (grade_rank (_score_to_grade a) <= grade_rank (_score_to_grade b))%nat.
Proof.
  intros H.
  assert (T9 : geb a 9.0 = true -> geb b 9.0 = true).
  { unfold geb. intros A.
    exact (leb_const_trans 9.0 a b _ _ eq_refl A H). }
  assert (T7 : geb a 7.5 = true -> geb b 7.5 = true).
  { unfold geb. intros A.
    exact (leb_const_trans 7.5 a b _ _ eq_refl A H). }
  assert (T6 : geb a 6.0 = true -> geb b 6.0 = true).
  { unfold geb. intros A.
    exact (leb_const_trans 6.0 a b _ _ eq_refl A H). }
  assert (T4 : geb a 4.0 = true -> geb b 4.0 = true).
  { unfold geb. intros A.
    exact (leb_const_trans 4.0 a b _ _ eq_refl A H). }
  unfold _score_to_grade.
  destruct (geb a 9.0); [rewrite (T9 eq_refl); cbn; lia|].
  destruct (geb a 7.5);
    [rewrite (T7 eq_refl); destruct (geb b 9.0); cbn; lia|].
  destruct (geb a 6.0);
    [rewrite (T6 eq_refl); destruct (geb b 9.0), (geb b 7.5); cbn; lia|].
  destruct (geb a 4.0);
    [rewrite (T4 eq_refl); destruct (geb b 9.0), (geb b 7.5), (geb b 6.0);
     cbn; lia|].
  cbn. lia.
Qed.

(** What the counting loop holds for one grade, from any dict. *)
Lemma count_grades_from (g : string) (results : list EvaluationMetrics) :
  forall d,
    dict_get
      (fold_left
         (fun grade_distribution m =>
            dict_set grade_distribution (grade m)
              (match dict_get grade_distribution (grade m) with
               | Some n => n
               | None => 0
               end + 1)%Z) results d) g
    = match dict_get d g with
      | Some n => Some (n + count_grade g results)%Z
      | None => if (count_grade g results =? 0)%Z then None
                else Some (count_grade g results)
      end.
Proof.
  unfold count_grade.
  induction results as [|m ms IH]; intros d; cbn [fold_left filter].
  - cbn. destruct (dict_get d g); [f_equal; lia|reflexivity].
  - rewrite IH. destruct (String.eqb_spec (grade m) g) as [E|N].
    + rewrite E, dict_get_set_same. cbn [List.length].
      destruct (dict_get d g) as [n|].
      * f_equal. lia.
      * destruct (Z.eqb_spec (Z.of_nat (S (List.length
                   (filter (fun m0 => String.eqb (grade m0) g) ms)))) 0);
          [lia|]. f_equal. lia.
    + rewrite (dict_get_set_other d (grade m) g _ (not_eq_sym N)). reflexivity.
Qed.

Lemma count_grades_exact (g : string) (results : list EvaluationMetrics) :
  dict_get (count_grades results) g
  = if (count_grade g results =? 0)%Z then None
    else Some (count_grade g results).
Proof. unfold count_grades. now rewrite count_grades_from. Qed.

(** X18. The histogram of [batch_evaluate] is exact: in every aggregate
    it returns there is one result per recommendation, a key for each
    grade that some result carries, with the number of results that
    carry it, and no key for the other grades. *)
Theorem grade_distribution_exact (env : Env) (dump : trip_planner.DayPlan -> result string)
    (recs : list orchestrator.TripRecommendation) (w w' : World)
    (aggregate : Aggregate) :
  batch_evaluate env dump recs w = (Ok aggregate, w') ->
  List.length (all_metrics aggregate) = List.length recs /\
  forall g : string,
    dict_get (grade_distribution aggregate) g
    = if (count_grade g (all_metrics aggregate) =? 0)%Z then None
      else Some (count_grade g (all_metrics aggregate)).
Proof.
  intros H.
  destruct (batch_evaluate_inv env dump recs w w' aggregate H) as (Hl & _ & Hg).
  split; [exact Hl|]. intros g. rewrite Hg. apply count_grades_exact.
Qed.

(** The batch of the one plan with day fields 1, 2, 4, graded B. *)
Lemma grade_distribution_exact_witness :
  exists aggregate w',
    batch_evaluate Fixtures.online Fixtures.dump_day
      [Fixtures.budgeted 1100 Fixtures.gap_plan] Fixtures.fresh
    = (Ok aggregate, w') /\
    dict_get (grade_distribution aggregate) "B" = Some 1%Z /\
    dict_get (grade_distribution aggregate) "A" = None.
Proof.
  destruct (batch_evaluate Fixtures.online Fixtures.dump_day
              [Fixtures.budgeted 1100 Fixtures.gap_plan] Fixtures.fresh)
    as [[aggregate|e] w'] eqn:H.
  - exists aggregate, w'. split; [reflexivity|].
    destruct (grade_distribution_exact _ _ _ _ _ _ H) as (_ & T).
    rewrite (T "B"%string), (T "A"%string).
    vm_compute in H. injection H as <- _. split; reflexivity.
  - vm_compute in H. discriminate H.
Defined.

(** On the two sides of the boundary between C and B. *)
Lemma score_to_grade_monotone_witness :
  (7.4 <=? 7.5)%float = true /\
  (grade_rank (_score_to_grade 7.4) <= grade_rank (_score_to_grade 7.5))%nat.
Proof.
  split; [reflexivity|]. exact (score_to_grade_monotone 7.4 7.5 eq_refl).
Defined.

End grade_props.

(** ** Plans with full coherence *)

Module coherence_props.
Import Py metrics evaluator PySpec EvaluatorSpec PlanSpec.
Import evaluator_facts.

Lemma misnumbered_nil_iff (days : list trip_planner.DayPlan) : forall i,
  misnumbered i days = [] <->
  map trip_planner.day days
  = map (fun k => (Z.of_nat k + 1)%Z) (seq i (List.length days)).
Proof.
  induction days as [|d rest IH]; intros i.
  - cbn. tauto.
  - cbn [misnumbered map List.length seq].
    destruct (Z.eqb_spec (trip_planner.day d) (Z.of_nat i + 1)) as [E|N].
    + rewrite IH. split; [intros ->; now rewrite E|intros [= _ H]; exact H].
    + split; [discriminate|intros [= H _]; contradiction].
Qed.

Lemma filter_missing_nil_iff (days : list trip_planner.DayPlan) :
  filter missing_text days = [] <-> all_texts days.
Proof.
  unfold all_texts. induction days as [|d rest IH]; cbn [filter].
  - split; [constructor|reflexivity].
  - destruct (missing_text d) eqn:E.
    + split; [discriminate|]. intros H. inversion H; congruence.
    + rewrite IH. split; [now constructor|]. intros H. now inversion H.
Qed.

(** The coherence of a count of penalties is 10 only for no penalty. *)
Lemma float_of_int_ten (z : Z) (c : float) :
  (0 <= z <= 10)%Z -> float_of_int z = Ok c ->
  (c = 10.0%float <-> z = 10%Z).
Proof.
  intros R H.
  assert (C : (z = 0 \/ z = 1 \/ z = 2 \/ z = 3 \/ z = 4 \/ z = 5 \/ z = 6 \/
               z = 7 \/ z = 8 \/ z = 9 \/ z = 10)%Z) by lia.
  repeat (destruct C as [C|C]); subst z; vm_compute in H; injection H as <-;
    (split; [intros E|intros E; try discriminate E; reflexivity]);
    try reflexivity;
    apply (f_equal (fun x => (x =? 10.0)%float)) in E;
    vm_compute in E; discriminate E.
Qed.

(** X19. An evaluation that [evaluate] returns has the full coherence
    score 10 exactly when the days of the plan are numbered 1, 2, 3, ...
    in order and have their three texts each. *)
Theorem full_coherence (env : Env) (dump : trip_planner.DayPlan -> result string)
    (rec : orchestrator.TripRecommendation) (w w' : World)
    (m : EvaluationMetrics) :
  evaluate env dump rec w = (Ok m, w') ->
  let days := trip_planner.daily_plans (orchestrator.trip_plan rec) in
  coherence_score m = 10.0%float <->
  numbered_in_order days /\ all_texts days.
Proof.
  intros He days.
  destruct (evaluate_heuristics env dump rec w w' m He)
    as (_ & _ & _ & _ & Hc & _).
  fold days in Hc. symmetry in Hc.
  set (a := List.length (misnumbered 0 days)) in *.
  set (b := List.length (filter missing_text days)) in *.
  apply float_of_int_ten in Hc; [|lia]. rewrite Hc.
  unfold numbered_in_order.
  rewrite <- misnumbered_nil_iff, <- filter_missing_nil_iff.
  rewrite <- !length_zero_iff_nil. fold a b. lia.
Qed.

(** The three-day plan of the fixtures, numbered 1, 2, 3 with all its
    texts. *)
Lemma full_coherence_witness :
  exists m w',
    evaluate Fixtures.online Fixtures.dump_day
      (Fixtures.budgeted 1100 Fixtures.three_day_plan) Fixtures.fresh
    = (Ok m, w') /\
    coherence_score m = 10.0%float.
Proof.
  destruct (evaluate Fixtures.online Fixtures.dump_day
              (Fixtures.budgeted 1100 Fixtures.three_day_plan) Fixtures.fresh)
    as [[m|e] w'] eqn:H.
  - exists m, w'. split; [reflexivity|].
    pose proof (full_coherence _ _ _ _ _ _ H) as T. cbv zeta in T.
    apply (proj2 T). split; [reflexivity|].
    repeat constructor.
  - vm_compute in H. discriminate H.
Defined.

End coherence_props.

(** ** The command line *)

Module main_props.
Import Py metrics PySpec OrchestratorSpec EvaluatorSpec LedgerSpec PlanSpec.
Import metrics_facts orchestrator_facts evaluator_facts pipeline_props judge_props.

(** The loop over the test queries never raises: it returns what it had,
    followed by at most one recommendation per query. *)
Lemma process_tests_ok (env : Env)
    (TravelIntent_validate :
       list (string * json) -> result intent_extractor.TravelIntent)
    (TripPlan_validate : json -> result trip_planner.TripPlan)
    (amadeus : nat -> flights.SearchOutcome)
    (tests : list string) :
  forall recommendations w,
  exists added w',
    main.process_tests env TravelIntent_validate TripPlan_validate amadeus
      tests recommendations w = (Ok (recommendations ++ added), w') /\
    (List.length added <= List.length tests)%nat.
Proof.
  induction tests as [|test rest IH]; intros acc w.
  - exists [], w. cbn [main.process_tests]. unfold ret.
    rewrite app_nil_r. split; [reflexivity|cbn; lia].
  - cbn [main.process_tests]. unfold bind, try_except.
    destruct (main.orchestrator_process_query env TravelIntent_validate
                TripPlan_validate amadeus
      test false w) as [[rec|e] w1].
    + unfold ret. destruct (IH (acc ++ [rec]) w1) as (added & w2 & E & L).
      rewrite E. exists (rec :: added), w2.
      rewrite <- app_assoc. split; [reflexivity|cbn; lia].
    + unfold ret. destruct (IH acc w1) as (added & w2 & E & L).
      rewrite E. exists added, w2. split; [reflexivity|cbn; lia].
Qed.

(** With the text service down no query yields a recommendation, and
    each leaves two failures in the ledger. *)
Lemma process_tests_down (env : Env)
    (TravelIntent_validate :
       list (string * json) -> result intent_extractor.TravelIntent)
    (TripPlan_validate : json -> result trip_planner.TripPlan)
    (amadeus : nat -> flights.SearchOutcome)
    (e : exn) (tests : list string) :
  service_down env e ->
  forall recommendations w,
  exists added w',
    main.process_tests env TravelIntent_validate TripPlan_validate amadeus
      tests recommendations w = (Ok recommendations, w') /\
    requests w' = requests w ++ added /\
    List.length added = (2 * List.length tests)%nat /\
    Forall (fun r => success r = false /\ error r = Some (str_of_exn e)) added.
Proof.
  intros D. induction tests as [|test rest IH]; intros acc w.
  - exists [], w. cbn [main.process_tests]. unfold ret.
    rewrite app_nil_r. repeat split. constructor.
  - cbn [main.process_tests]. unfold bind, try_except.
    destruct (process_query_down env TravelIntent_validate TripPlan_validate
                amadeus false test false None w e D)
      as (r1 & r2 & w1 & E & Hreq & _ & _ & S1 & S2 & E1 & E2).
    unfold main.orchestrator_process_query. rewrite E. unfold ret.
    destruct (IH acc w1) as (added & w2 & E' & Hreq' & L & F).
    rewrite E'. exists (r1 :: r2 :: added), w2.
    split; [reflexivity|]. split.
    + rewrite Hreq', Hreq, <- app_assoc. reflexivity.
    + split; [cbn [List.length]; lia|]. repeat constructor; assumption.
Qed.

(** X20. The batch evaluation survives the failure of single queries,
    not the failure of all of them: the loop over the test queries never
    raises and keeps at most one recommendation per query.  With none
    kept the run ends in a ZeroDivisionError.  With some kept it ends as
    [batch_evaluate] does on them: in an exception only when the first
    day of one of the plans cannot be serialised for the judge, and
    otherwise in the aggregate of as many evaluations, once that is
    written to its file. *)
Theorem run_batch_evaluation_outcome (env : Env)
    (TravelIntent_validate :
       list (string * json) -> result intent_extractor.TravelIntent)
    (TripPlan_validate : json -> result trip_planner.TripPlan)
    (amadeus : nat -> flights.SearchOutcome)
    (dump : trip_planner.DayPlan -> result string)
    (export_results : evaluator.Aggregate -> result unit)
    (tests : list string) (w : World) :
  exists recommendations w1,
    main.process_tests env TravelIntent_validate TripPlan_validate amadeus
      tests [] w = (Ok recommendations, w1) /\
    (List.length recommendations <= List.length tests)%nat /\
    match recommendations with
    | [] =>
        main.run_batch_evaluation_on env TravelIntent_validate
          TripPlan_validate amadeus dump export_results tests w
        = (Raise (Exception "ZeroDivisionError" "division by zero"), w1)
    | _ =>
        match evaluator.batch_evaluate env dump recommendations w1 with
        | (Ok aggregate, w2) =>
            evaluator.total_evaluated aggregate
            = Z.of_nat (List.length recommendations) /\
            main.run_batch_evaluation_on env TravelIntent_validate
              TripPlan_validate amadeus dump export_results tests w
            = (match export_results aggregate with
               | Ok _ => Ok aggregate
               | Raise e => Raise e
               end, w2)
        | (Raise e, w2) =>
            (exists rec, In rec recommendations /\
                         evaluator.sample_day dump rec = Raise e) /\
            main.run_batch_evaluation_on env TravelIntent_validate
              TripPlan_validate amadeus dump export_results tests w
            = (Raise e, w2)
        end
    end.
Proof.
  destruct (process_tests_ok env TravelIntent_validate TripPlan_validate
              amadeus tests [] w) as (recs & w1 & E & L).
  cbn [app] in E. exists recs, w1. split; [exact E|]. split; [exact L|].
  unfold main.run_batch_evaluation_on, bind. rewrite E.
  destruct recs as [|rec rest]; [reflexivity|].
  destruct (evaluator.batch_evaluate env dump (rec :: rest) w1)
    as [[aggregate|e] w2] eqn:Hb.
  - destruct (batch_evaluate_inv env dump _ _ _ _ Hb) as (_ & Ht & _).
    split; [exact Ht|]. unfold lift, ret.
    destruct (export_results aggregate); reflexivity.
  - split; [|reflexivity].
    apply (batch_evaluate_raises env dump (rec :: rest) w1 w2 e);
      [discriminate|exact Hb].
Qed.

(** X21. With the text service down, the batch evaluation of any test
    queries raises ZeroDivisionError, not the exception of the service,
    after it has put two failures per query into the ledger. *)
Theorem run_batch_evaluation_service_down (env : Env)
    (TravelIntent_validate :
       list (string * json) -> result intent_extractor.TravelIntent)
    (TripPlan_validate : json -> result trip_planner.TripPlan)
    (amadeus : nat -> flights.SearchOutcome)
    (dump : trip_planner.DayPlan -> result string)
    (export_results : evaluator.Aggregate -> result unit)
    (e : exn) (tests : list string) (w : World) :
  service_down env e ->
  exists added w',
    main.run_batch_evaluation_on env TravelIntent_validate
      TripPlan_validate amadeus dump export_results tests w
    = (Raise (Exception "ZeroDivisionError" "division by zero"), w') /\
    requests w' = requests w ++ added /\
    List.length added = (2 * List.length tests)%nat /\
    Forall (fun r => success r = false /\ error r = Some (str_of_exn e)) added.
Proof.
  intros D.
  destruct (process_tests_down env TravelIntent_validate TripPlan_validate
              amadeus e tests D [] w) as (added & w' & E & Hreq & L & F).
  exists added, w'. split; [|repeat split; assumption].
  unfold main.run_batch_evaluation_on, bind. rewrite E. reflexivity.
Qed.


(** The three quick tests with the text service unreachable: six
    failures, then the division by zero. *)
Lemma run_batch_evaluation_service_down_witness :
  service_down Fixtures.offline Fixtures.connection_error /\
  exists added w',
    main.run_batch_evaluation Fixtures.offline
      (Fixtures.intent_from Fixtures.bangkok_intent)
      (fun _ => Ok Fixtures.three_day_plan) Fixtures.no_network
      Fixtures.dump_day (fun _ => Ok tt) Fixtures.fresh
    = (Raise (Exception "ZeroDivisionError" "division by zero"), w') /\
    requests w' = requests Fixtures.fresh ++ added /\
    List.length added = 6%nat /\
    Forall (fun r => success r = false /\
                     error r = Some (str_of_exn Fixtures.connection_error))
      added.
Proof.
  assert (D : service_down Fixtures.offline Fixtures.connection_error)
    by (intros n; reflexivity).
  split; [exact D|].
  exact (run_batch_evaluation_service_down Fixtures.offline _ _ _ _ _ _
           main.QUICK_TESTS Fixtures.fresh D).
Defined.

End main_props.
